(** * koboldcpp-mcp-server: a shallow embedding of the protocol router,
      the backend client and the text-generation tools

    The Python sources are embedded as executable Gallina definitions:

    - Python exceptions are values of [exn]; a computation that may raise
      returns [Exc A = exn + A];
    - Python [int] is [Z]; Python [float] is [Q]: floats are exact
      rationals, without rounding, infinities or NaN; what is kept of
      their finite range is the [OverflowError] that the conversion of a
      too large int to a float raises ([float_of_int]);
    - Python [str] is [string]; [len] is [String.length];
    - a Python [dict] keeps its insertion order, so it is an association
      list with unique keys ([dict_set] updates in place);
    - awaited collaborators outside the repository (the HTTP session, the
      backend's answer to one generate call, [json.loads]) are oracles that
      are quantified over in the theorems: each of them returns or raises;
    - an [asyncio.Semaphore] is the number of its permits; a coroutine
      that waits for a permit of a semaphore that has none, and that
      nothing releases, is never resumed: its outcome is [Blocked]. *)

From Stdlib Require Import List String Ascii ZArith QArith Bool Lia.
From Stdlib Require Import DecimalString.
Import ListNotations.

Set Warnings "-register-all".
Set Implicit Arguments.

Local Open Scope string_scope.
Local Open Scope Z_scope.

(* ================================================================= *)
(** ** Python values and exceptions *)

Module Py.

(** The exception classes the sources raise or catch.  All of them are
    subclasses of [Exception]. *)
Inductive exn : Type :=
| ClientError (msg : string)        (* aiohttp.ClientError *)
| TimeoutError                      (* asyncio.TimeoutError *)
| ValueError (msg : string)
| TypeError (msg : string)
| AttributeError (msg : string)
| ValidationError (msg : string)    (* pydantic.ValidationError *)
| JSONDecodeError (msg : string)
| KeyError (msg : string)
| RuntimeError (msg : string)
| OverflowError (msg : string).

(** [str(e)] *)
Definition str_of_exn (e : exn) : string :=
  match e with
  | ClientError m | ValueError m | TypeError m | AttributeError m
  | ValidationError m | JSONDecodeError m | KeyError m | RuntimeError m
  | OverflowError m => m
  | TimeoutError => ""
  end.

Definition Exc (A : Type) : Type := (exn + A)%type.

Definition ret A (a : A) : Exc A := inr a.
Definition raise A (e : exn) : Exc A := inl e.
Arguments raise {A} e.
Definition bind A B (m : Exc A) (k : A -> Exc B) : Exc B :=
  match m with
  | inl e => inl e
  | inr a => k a
  end.

(** The ints from which [float(n)] overflows: those that round to a
    magnitude beyond the largest float, [2 ** 1024 - 2 ** 971]. *)
Definition float_overflow_bound : Z := 2 ^ 1024 - 2 ^ 970.

(** [float(n)] for an int [n], as it is taken when an int meets a float
    in a product or a quotient. *)
Definition float_of_int (n : Z) : Exc Q :=
  if float_overflow_bound <=? Z.abs n
  then raise (OverflowError "int too large to convert to float")
  else ret (inject_Z n).

(** [int(x)] for a float without fractional part, the only floats that
    pydantic reads as an int. *)
Definition int_of_float (q : Q) : option Z :=
  let r := Qred q in
  if (Qden r =? 1)%positive then Some (Qnum r) else None.

(** *** asyncio *)

(** How an awaited call ends: it completes, or the coroutine is never
    resumed. *)
Inductive Await (A : Type) : Type :=
| Done (a : A)
| Blocked.
Arguments Done {A} a.
Arguments Blocked {A}.

(** [asyncio.Semaphore(value)]: the number of permits; a negative value
    is refused. *)
Definition Semaphore (value : Z) : Exc N :=
  if value <? 0
  then raise (ValueError "Semaphore initial value must be >= 0")
  else ret (Z.to_N value).

(** [async with semaphore: body], for a semaphore whose permits are only
    taken for the time of such a body: with a permit the body runs, with
    none the coroutine waits for ever. *)
Definition with_permit S A (permits : N) (body : S -> S * A) : S -> S * Await A :=
  fun s =>
    if (permits =? 0)%N then (s, Blocked)
    else let '(s', a) := body s in (s', Done a).

(** [f"{n}"] for an int *)
Definition str_of_Z (n : Z) : string := NilZero.string_of_int (Z.to_int n).

(** JSON documents, which are also the values that travel as keyword
    arguments. *)
Inductive Json : Type :=
| JNull
| JBool (b : bool)
| JInt (n : Z)
| JFloat (q : Q)
| JStr (s : string)
| JList (l : list Json)
| JDict (kvs : list (string * Json)).

(** *** dict as an insertion-ordered association list *)

Definition dict (V : Type) : Type := list (string * V).

Fixpoint dict_get V (d : dict V) (k : string) : option V :=
  match d with
  | [] => None
  | (k', v) :: d' => if String.eqb k k' then Some v else dict_get d' k
  end.

Definition dict_mem V (d : dict V) (k : string) : bool :=
  match dict_get d k with Some _ => true | None => false end.

(** [d[k] = v]: in place when the key exists, appended otherwise *)
Fixpoint dict_set V (d : dict V) (k : string) (v : V) : dict V :=
  match d with
  | [] => [(k, v)]
  | (k', v') :: d' =>
      if String.eqb k k' then (k', v) :: d' else (k', v') :: dict_set d' k v
  end.

Definition dict_values V (d : dict V) : list V := map snd d.
Definition dict_keys V (d : dict V) : list string := map fst d.

(** [d.get(k, default)] *)
Definition dict_get_default V (d : dict V) (k : string) (dflt : V) : V :=
  match dict_get d k with Some v => v | None => dflt end.

(** [type(v).__name__] *)
Definition type_name (v : Json) : string :=
  match v with
  | JNull => "NoneType"
  | JBool _ => "bool"
  | JInt _ => "int"
  | JFloat _ => "float"
  | JStr _ => "str"
  | JList _ => "list"
  | JDict _ => "dict"
  end.

(** The [AttributeError] for a missing attribute *)
Definition no_attribute (v : Json) (attr : string) : exn :=
  AttributeError ("'" ++ type_name v ++ "' object has no attribute '" ++ attr ++ "'").

(** *** Truthiness of a JSON value ([not v], [v or default]) *)
Definition truthy (v : Json) : bool :=
  match v with
  | JNull => false
  | JBool b => b
  | JInt n => negb (n =? 0)
  | JFloat q => negb (Qeq_bool q 0)
  | JStr s => negb (String.eqb s "")
  | JList l => match l with [] => false | _ => true end
  | JDict kvs => match kvs with [] => false | _ => true end
  end.

(** *** Strings *)

(** [s[:n]] for [0 <= n] *)
Fixpoint str_take (n : nat) (s : string) : string :=
  match n, s with
  | O, _ => ""
  | S _, EmptyString => ""
  | S n', String c s' => String c (str_take n' s')
  end.

(** [s[:n]] for any int [n]: a negative bound counts from the end. *)
Definition str_slice_to (s : string) (n : Z) : string :=
  if n <? 0
  then str_take (Z.to_nat (Z.of_nat (String.length s) + n)) s
  else str_take (Z.to_nat n) s.

(** [s.replace(old, new)] for a non-empty [old]: one left-to-right pass
    over [s]; at a position where [old] starts, [new] is emitted and the
    scan resumes after the occurrence ([skip] counts the characters of the
    occurrence that are still to be dropped).  The text already emitted is
    never looked at again. *)
Fixpoint str_replace_from (old new : string) (skip : nat) (s : string) : string :=
  match s with
  | EmptyString => EmptyString
  | String c s' =>
      match skip with
      | S k => str_replace_from old new k s'
      | O =>
          if String.prefix old s
          then new ++ str_replace_from old new (String.length old - 1) s'
          else String c (str_replace_from old new O s')
      end
  end.

Definition str_replace (old new s : string) : string :=
  str_replace_from old new O s.

(** [sub in s] *)
Fixpoint str_contains (sub s : string) : bool :=
  String.prefix sub s ||
  match s with
  | EmptyString => false
  | String _ s' => str_contains sub s'
  end.

End Py.
Import Py.

Declare Scope exc_scope.
Delimit Scope exc_scope with exc.
Notation "x <- m ;; k" := (bind m (fun x => k))
  (at level 61, m at next level, right associativity) : exc_scope.
Local Open Scope exc_scope.

(** A computation that reads and writes a state [S] and may raise: the
    state reached when the exception is raised is kept, as in Python. *)
Definition SE (S A : Type) : Type := S -> S * Exc A.

Definition se_ret S A (a : A) : SE S A := fun s => (s, inr a).
Definition se_raise S A (e : exn) : SE S A := fun s => (s, inl e).
Arguments se_ret {S A} a.
Arguments se_raise {S A} e.
Definition se_bind S A B (m : SE S A) (k : A -> SE S B) : SE S B :=
  fun s => match m s with
           | (s', inl e) => (s', inl e)
           | (s', inr a) => k a s'
           end.
Definition se_get S : SE S S := fun s => (s, inr s).
Definition se_put S (s : S) : SE S unit := fun _ => (s, inr tt).
Definition se_lift S A (m : Exc A) : SE S A := fun s => (s, m).
Arguments se_lift {S A} m.
(** [try: m  except Exception as e: h e] *)
Definition se_try S A (m : SE S A) (h : exn -> SE S A) : SE S A :=
  fun s => match m s with
           | (s', inl e) => h e s'
           | r => r
           end.

Declare Scope se_scope.
Delimit Scope se_scope with se.
Notation "x <- m ;; k" := (se_bind m (fun x => k))
  (at level 61, m at next level, right associativity) : se_scope.

(* ================================================================= *)
(** ** config/settings.py *)

Record KoboldCppConfig := {
  max_retries : Z;        (* default 3 *)
  retry_delay : Q         (* default 1.0 *)
}.

Record SecurityConfig := {
  data_sanitization : bool;   (* default True *)
  max_prompt_length : Z;      (* default 8192 *)
  max_response_length : Z     (* default 4096 *)
}.

Record PerformanceConfig := {
  max_concurrent_requests : Z (* default 5 *)
}.

Record Settings := {
  koboldcpp : KoboldCppConfig;
  security : SecurityConfig;
  performance : PerformanceConfig
}.

Definition default_settings : Settings :=
  {| koboldcpp := {| max_retries := 3; retry_delay := 1 |};
     security := {| data_sanitization := true;
                    max_prompt_length := 8192;
                    max_response_length := 4096 |};
     performance := {| max_concurrent_requests := 5 |} |}.

(** [validate_koboldcpp_connection], its test on the retry setting, and
    the test of [cmd_config_validate] (cli.py) on the security settings:
    what these accept is a valid configuration. *)
Definition retry_settings_valid (c : KoboldCppConfig) : bool :=
  negb (max_retries c <? 0).

Definition security_settings_valid (s : SecurityConfig) : bool :=
  negb (max_prompt_length s <=? 0).

(* ================================================================= *)
(** ** protocol/message_types.py: the backend-facing models *)

Record GenerateTextParams := {
  prompt : string;
  max_tokens : Z;
  temperature : Q;
  top_p : Q;
  top_k : Z;
  typical_p : Q;
  rep_pen : Q;
  rep_pen_range : Z;
  stop_sequence : option (list string);
  stream : bool
}.

Record GenerationResult := {
  text : string;
  tokens_generated : Z;
  generation_time : Q;
  tokens_per_second : Q;
  finish_reason : string
}.

Record BatchRequest := {
  prompts : list string;
  parameters : GenerateTextParams;
  max_concurrent : Z
}.

Record BatchResult := {
  results : list GenerationResult;
  total_time : Q;
  successful : Z;
  failed : Z
}.

(** [params.model_dump()]: every declared field, in declaration order,
    [prompt] included. *)
Definition GenerateTextParams_model_dump (p : GenerateTextParams) : dict Json :=
  [ ("prompt", JStr (prompt p));
    ("max_tokens", JInt (max_tokens p));
    ("temperature", JFloat (temperature p));
    ("top_p", JFloat (top_p p));
    ("top_k", JInt (top_k p));
    ("typical_p", JFloat (typical_p p));
    ("rep_pen", JFloat (rep_pen p));
    ("rep_pen_range", JInt (rep_pen_range p));
    ("stop_sequence",
       match stop_sequence p with
       | None => JNull
       | Some l => JList (map JStr l)
       end);
    ("stream", JBool (stream p)) ].

(** Field validators of the model (the declared type, or the default when
    the keyword is absent; pydantic's lax coercions between types are left
    out, except int to float). *)
Definition field_str (kw : dict Json) (k : string) (dflt : option string) : Exc string :=
  match dict_get kw k, dflt with
  | Some (JStr s), _ => ret s
  | Some _, _ => raise (ValidationError (k ++ ": Input should be a valid string"))
  | None, Some d => ret d
  | None, None => raise (ValidationError (k ++ ": Field required"))
  end.

Definition field_int (kw : dict Json) (k : string) (dflt : Z) : Exc Z :=
  match dict_get kw k with
  | Some (JInt n) => ret n
  | Some _ => raise (ValidationError (k ++ ": Input should be a valid integer"))
  | None => ret dflt
  end.

Definition field_float (kw : dict Json) (k : string) (dflt : Q) : Exc Q :=
  match dict_get kw k with
  | Some (JFloat q) => ret q
  | Some (JInt n) => ret (inject_Z n)
  | Some _ => raise (ValidationError (k ++ ": Input should be a valid number"))
  | None => ret dflt
  end.

Definition field_bool (kw : dict Json) (k : string) (dflt : bool) : Exc bool :=
  match dict_get kw k with
  | Some (JBool b) => ret b
  | Some _ => raise (ValidationError (k ++ ": Input should be a valid boolean"))
  | None => ret dflt
  end.

Fixpoint all_strs (l : list Json) : option (list string) :=
  match l with
  | [] => Some []
  | JStr s :: l' => option_map (cons s) (all_strs l')
  | _ :: _ => None
  end.

Definition field_opt_strs (kw : dict Json) (k : string) : Exc (option (list string)) :=
  match dict_get kw k with
  | None | Some JNull => ret None
  | Some (JList l) =>
      match all_strs l with
      | Some ss => ret (Some ss)
      | None => raise (ValidationError (k ++ ": Input should be a valid string"))
      end
  | Some _ => raise (ValidationError (k ++ ": Input should be a valid list"))
  end.

(** The constructor [GenerateTextParams] applied to keyword arguments *)
Definition GenerateTextParams_init (kw : dict Json) : Exc GenerateTextParams :=
  p <- field_str kw "prompt" None ;;
  mt <- field_int kw "max_tokens" 100 ;;
  t <- field_float kw "temperature" (7 # 10) ;;
  tp <- field_float kw "top_p" (9 # 10) ;;
  tk <- field_int kw "top_k" 40 ;;
  ty <- field_float kw "typical_p" 1 ;;
  rp <- field_float kw "rep_pen" (11 # 10) ;;
  rr <- field_int kw "rep_pen_range" 320 ;;
  ss <- field_opt_strs kw "stop_sequence" ;;
  st <- field_bool kw "stream" false ;;
  ret {| prompt := p; max_tokens := mt; temperature := t; top_p := tp;
         top_k := tk; typical_p := ty; rep_pen := rp; rep_pen_range := rr;
         stop_sequence := ss; stream := st |}.

(** A call [f(k1=v1, ..., **star)]: Python refuses a keyword that is given
    both explicitly and through the unpacked mapping, before [f] runs. *)
Definition call_kwargs A (f : dict Json -> Exc A)
           (explicit star : dict Json) : Exc A :=
  match find (fun k => dict_mem star k) (dict_keys explicit) with
  | Some k => raise (TypeError ("got multiple values for keyword argument '" ++ k ++ "'"))
  | None => f (explicit ++ star)%list
  end.

(* ================================================================= *)
(** ** kobold_client.py *)

(** The calls issued to the backend's generate operation, oldest first. *)
Definition CallLog : Type := list GenerateTextParams.

Module KoboldCppClient.

(** What one [session.request] does: the backend answers with a status,
    a JSON body and a text body, or the request (or reading its body)
    raises. *)
Inductive attempt_outcome : Type :=
| Responded (status : Z) (payload : Json) (error_text : string)
| Failed (e : exn).

(** How one pass through the loop body ends. *)
Inductive step : Type :=
| Return (result : Json)
| Continue (delay : Q)
| Raise (e : exn).

Definition retryable_status (status : Z) : bool :=
  (status =? 502) || (status =? 503) || (status =? 504).

(** [except (aiohttp.ClientError, asyncio.TimeoutError)] *)
Definition caught_by_retry (e : exn) : bool :=
  match e with
  | ClientError _ | TimeoutError => true
  | _ => false
  end.

Section MakeRequest.

Variable config : KoboldCppConfig.

(** [self._request_semaphore], line 41: the permits it was created
    with. *)
Variable permits : N.

(** [self.config.retry_delay * (2 ** attempt)]: a float times an int, for
    which the int is converted to a float. *)
Definition backoff (attempt : nat) : Exc Q :=
  power <- float_of_int (2 ^ Z.of_nat attempt) ;;
  ret (retry_delay config * power)%Q.

(** [await asyncio.sleep(<backoff>)] and [continue], lines 94-95 and
    108-109: the delay is computed first, and that may raise. *)
Definition sleep_and_continue (attempt : nat) : step :=
  match backoff attempt with
  | inr delay => Continue delay
  | inl e => Raise e
  end.

(** The body of the [try]: lines 88-101. *)
Definition try_body (max_retries : Z) (attempt : nat) (o : attempt_outcome) : step :=
  match o with
  | Failed e => Raise e
  | Responded status payload error_text =>
      if status =? 200 then Return payload
      else if retryable_status status && (Z.of_nat attempt <? max_retries)
      then sleep_and_continue attempt
      else Raise (ClientError ("HTTP " ++ str_of_Z status ++ ": " ++ error_text))
  end.

(** The [except] clause: lines 103-110.  It also receives the
    [ClientError] that the body raises for a status other than 200; what
    the body raises otherwise, the [OverflowError] of line 94 included,
    passes through. *)
Definition except_clause (max_retries : Z) (attempt : nat) (e : exn) : step :=
  if caught_by_retry e
  then if Z.of_nat attempt <? max_retries
       then sleep_and_continue attempt
       else Raise e
  else Raise e.

Definition attempt_step (max_retries : Z) (attempt : nat) (o : attempt_outcome) : step :=
  match try_body max_retries attempt o with
  | Raise e => except_clause max_retries attempt e
  | s => s
  end.

(** [for attempt in range(max_retries + 1)], with [todo] iterations left;
    the state is the list of delays slept so far.  [http k] is the outcome
    of the request of attempt [k]. *)
Fixpoint attempts (http : nat -> attempt_outcome) (max_retries : Z)
         (todo attempt : nat) : SE (list Q) Json :=
  match todo with
  | O => se_raise (ClientError ("Failed after " ++ str_of_Z (max_retries + 1) ++ " attempts"))
  | S todo' =>
      match attempt_step max_retries attempt (http attempt) with
      | Return result => se_ret result
      | Continue delay =>
          fun slept => attempts http max_retries todo' (S attempt) (slept ++ [delay])%list
      | Raise e => se_raise e
      end
  end.

(** [_make_request]: the loop, and the statement after it, run under a
    permit of the request gate (line 85).  Opening the session does not
    change what is returned and is left out. *)
Definition _make_request (http : nat -> attempt_outcome) (retries : option Z)
  : list Q -> list Q * Await (Exc Json) :=
  let max_retries :=
    match retries with Some r => r | None => max_retries config end in
  with_permit permits (attempts http max_retries (Z.to_nat (max_retries + 1)) O).

End MakeRequest.

(** [__init__], line 41: the request gate is created from the settings,
    and a client exists only when that succeeds. *)
Definition _request_semaphore (settings : Settings) : Exc N :=
  Semaphore (max_concurrent_requests (performance settings)).

Section Batch.

(** [self.generate_text]: [generate_text k params] is the outcome of the
    [k]-th generate call that is issued. *)
Variable generate_text : nat -> GenerateTextParams -> Exc GenerationResult.

Definition call_generate (params : GenerateTextParams) : SE CallLog GenerationResult :=
  fun log => ((log ++ [params])%list, generate_text (List.length log) params).

(** [process_single]: under a permit of the batch semaphore, any
    exception becomes [None]. *)
Definition process_single (batch_semaphore : N) (batch_request : BatchRequest)
           (prompt : string)
  : CallLog -> CallLog * Await (option GenerationResult) :=
  with_permit batch_semaphore
    (fun log =>
       match (params <- se_lift
                          (call_kwargs GenerateTextParams_init
                             [("prompt", JStr prompt)]
                             (GenerateTextParams_model_dump (parameters batch_request))) ;;
              call_generate params)%se log with
       | (log', inr result) => (log', Some result)
       | (log', inl _) => (log', None)
       end).

(** [await asyncio.gather( *tasks, return_exceptions=True)]: one entry per
    task, in the order of the tasks, once every task has completed; it
    is never resumed when a task is not.  The calls are logged in task
    order; how the tasks interleave is not modelled. *)
Fixpoint gather A (tasks : list (CallLog -> CallLog * Await A)) (log : CallLog)
  : CallLog * Await (list A) :=
  match tasks with
  | [] => (log, Done [])
  | t :: tasks' =>
      match t log with
      | (log1, Blocked) => (fst (gather tasks' log1), Blocked)
      | (log1, Done a) =>
          match gather tasks' log1 with
          | (log2, Done l) => (log2, Done (a :: l))
          | (log2, Blocked) => (log2, Blocked)
          end
      end
  end.

(** The entry appended for a failed prompt. *)
Definition failed_result : GenerationResult :=
  {| text := ""; tokens_generated := 0; generation_time := 0;
     tokens_per_second := 0; finish_reason := "error" |}.

Record tally := {
  t_results : list GenerationResult;
  t_successful : Z;
  t_failed : Z
}.

(** One iteration of the collecting loop, lines 286-299. *)
Definition collect (acc : tally) (result : option GenerationResult) : tally :=
  match result with
  | Some r =>
      {| t_results := (t_results acc ++ [r])%list;
         t_successful := t_successful acc + 1;
         t_failed := t_failed acc |}
  | None =>
      {| t_results := (t_results acc ++ [failed_result])%list;
         t_successful := t_successful acc;
         t_failed := t_failed acc + 1 |}
  end.

(** The value of [batch_results] after the gather. *)
Definition batch_results (batch_semaphore : N) (batch_request : BatchRequest)
           (log : CallLog)
  : CallLog * Await (list (option GenerationResult)) :=
  gather (map (process_single batch_semaphore batch_request)
              (prompts batch_request)) log.

(** [batch_generate]; [start_time] and [end_time] are the two readings of
    the clock.  The batch semaphore is created from the request, line
    268, before any task. *)
Definition batch_generate (start_time end_time : Q) (batch_request : BatchRequest)
  : CallLog -> CallLog * Await (Exc BatchResult) :=
  fun log =>
    match Semaphore (max_concurrent batch_request) with
    | inl e => (log, Done (inl e))
    | inr batch_semaphore =>
        match batch_results batch_semaphore batch_request log with
        | (log', Blocked) => (log', Blocked)
        | (log', Done outcomes) =>
            let acc := fold_left collect outcomes
                         {| t_results := []; t_successful := 0; t_failed := 0 |} in
            (log', Done (inr {| results := t_results acc;
                                total_time := end_time - start_time;
                                successful := t_successful acc;
                                failed := t_failed acc |}))
        end
    end.

End Batch.

End KoboldCppClient.

(* ================================================================= *)
(** ** tools/text_generation.py *)

Module TextGenerationTools.

(** The dicts the tools return, one record field per key. *)
Record GenerationMetadata := {
  md_tokens_generated : Z;
  md_generation_time : Q;
  md_tokens_per_second : Q;
  md_finish_reason : string;
  md_parameters_used : dict Json
}.

Record GenerationReport := {
  gr_type : string;
  gr_text : string;
  gr_metadata : GenerationMetadata
}.

Record SweepEntry := {
  se_temperature : Q;
  se_top_p : Q;
  se_generated_text : string;
  se_tokens_generated : Z;
  se_generation_time : Q;
  se_tokens_per_second : Q
}.

Record BestConfiguration := {
  bc_temperature : Q;
  bc_top_p : Q;
  bc_performance : Q
}.

Record SweepReport := {
  sr_type : string;
  sr_text : string;
  sr_test_results : list SweepEntry;
  sr_best_configuration : BestConfiguration;
  sr_total_tests : Z
}.

Record BatchEntry := {
  be_prompt_index : Z;
  be_generated_text : string;
  be_tokens_generated : Z;
  be_generation_time : Q;
  be_success : bool
}.

Record BatchReport := {
  br_type : string;
  br_text : string;
  br_results : list BatchEntry;
  br_total_time : Q;
  br_successful : Z;
  br_failed : Z;
  br_total_prompts : Z
}.

(** [GenerateTextParams(prompt=..., max_tokens=..., temperature=...,
    top_p=...)], the other fields at their defaults. *)
Definition params_with_defaults (prompt : string) (max_tokens : Z)
           (temperature top_p : Q) : GenerateTextParams :=
  {| prompt := prompt; max_tokens := max_tokens; temperature := temperature;
     top_p := top_p; top_k := 40; typical_p := 1; rep_pen := 11 # 10;
     rep_pen_range := 320; stop_sequence := None; stream := false |}.

(** [l or default] for an optional list argument *)
Definition list_or A (l : option (list A)) (default : list A) : list A :=
  match l with
  | Some (x :: l') => x :: l'
  | _ => default
  end.

(** [max(l, key=key)]: the first element is kept until a strictly larger
    key is met. *)
Fixpoint max_from A (key : A -> Q) (best : A) (l : list A) : A :=
  match l with
  | [] => best
  | x :: l' =>
      max_from key (if Qle_bool (key x) (key best) then best else x) l'
  end.

Definition py_max A (key : A -> Q) (l : list A) : Exc A :=
  match l with
  | [] => raise (ValueError "max() arg is an empty sequence")
  | x :: l' => ret (max_from key x l')
  end.

(** [enumerate] *)
Fixpoint enumerate_from A (i : Z) (l : list A) : list (Z * A) :=
  match l with
  | [] => []
  | x :: l' => (i, x) :: enumerate_from (i + 1) l'
  end.

Section Tools.

Variable settings : Settings.

(** [self.client.generate_text], by the rank of the call. *)
Variable client_generate_text : nat -> GenerateTextParams -> Exc GenerationResult.

Let call_generate := KoboldCppClient.call_generate client_generate_text.

Definition _sanitize_prompt (prompt : string) : string :=
  let sanitized := str_replace "<|endoftext|>" "" (str_replace "</s>" "" prompt) in
  let max_length := max_prompt_length (security settings) in
  if Z.of_nat (String.length sanitized) >? max_length
  then str_slice_to sanitized max_length
  else sanitized.

(** Lines 253-258 of [generate_text]: sanitize, then check the length. *)
Definition validate_prompt (prompt : string) : Exc string :=
  let prompt :=
    if data_sanitization (security settings)
    then _sanitize_prompt prompt
    else prompt in
  if Z.of_nat (String.length prompt) >? max_prompt_length (security settings)
  then raise (ValueError ("Prompt exceeds maximum length of "
                            ++ str_of_Z (max_prompt_length (security settings))))
  else ret prompt.

Definition generate_text (prompt : string) (max_tokens : Z)
           (temperature top_p : Q) (top_k : Z) (typical_p rep_pen : Q)
           (rep_pen_range : Z) (stop_sequence : option (list string))
  : SE CallLog GenerationReport :=
  (prompt <- se_lift (validate_prompt prompt) ;;
   let params :=
     {| prompt := prompt;
        max_tokens := Z.min max_tokens (max_response_length (security settings));
        temperature := temperature; top_p := top_p; top_k := top_k;
        typical_p := typical_p; rep_pen := rep_pen;
        rep_pen_range := rep_pen_range;
        stop_sequence := Some (list_or stop_sequence []);
        stream := false |} in
   result <- call_generate params ;;
   se_ret {| gr_type := "text";
             gr_text := text result;
             gr_metadata :=
               {| md_tokens_generated := tokens_generated result;
                  md_generation_time := generation_time result;
                  md_tokens_per_second := tokens_per_second result;
                  md_finish_reason := finish_reason result;
                  md_parameters_used := GenerateTextParams_model_dump params |} |})%se.

(** The inner loop of [test_prompt]: [for top_p in top_p_range]. *)
Fixpoint top_p_loop (prompt : string) (max_tokens : Z) (temp : Q)
         (top_p_range : list Q) (results : list SweepEntry)
  : SE CallLog (list SweepEntry) :=
  match top_p_range with
  | [] => se_ret results
  | top_p :: rest =>
      (result <- call_generate (params_with_defaults prompt max_tokens temp top_p) ;;
       top_p_loop prompt max_tokens temp rest
         (results ++ [ {| se_temperature := temp;
                          se_top_p := top_p;
                          se_generated_text := text result;
                          se_tokens_generated := tokens_generated result;
                          se_generation_time := generation_time result;
                          se_tokens_per_second := tokens_per_second result |} ])%list)%se
  end.

(** The outer loop: [for temp in temperature_range]. *)
Fixpoint temperature_loop (prompt : string) (max_tokens : Z)
         (temperature_range top_p_range : list Q) (results : list SweepEntry)
  : SE CallLog (list SweepEntry) :=
  match temperature_range with
  | [] => se_ret results
  | temp :: rest =>
      (results' <- top_p_loop prompt max_tokens temp top_p_range results ;;
       temperature_loop prompt max_tokens rest top_p_range results')%se
  end.

Definition test_prompt (prompt : string)
           (temperature_range top_p_range : option (list Q)) (max_tokens : Z)
  : SE CallLog SweepReport :=
  let temperature_range := list_or temperature_range [3 # 10; 7 # 10; 1]%Q in
  let top_p_range := list_or top_p_range [8 # 10; 9 # 10; 95 # 100]%Q in
  (results <- temperature_loop prompt max_tokens temperature_range top_p_range [] ;;
   best_result <- se_lift (py_max se_tokens_per_second results) ;;
   se_ret {| sr_type := "text";
             sr_text := "Prompt testing completed with "
                          ++ str_of_Z (Z.of_nat (List.length results))
                          ++ " variations";
             sr_test_results := results;
             sr_best_configuration :=
               {| bc_temperature := se_temperature best_result;
                  bc_top_p := se_top_p best_result;
                  bc_performance := se_tokens_per_second best_result |};
             sr_total_tests := Z.of_nat (List.length results) |})%se.

Definition format_result (ir : Z * GenerationResult) : BatchEntry :=
  let '(i, result) := ir in
  {| be_prompt_index := i;
     be_generated_text := text result;
     be_tokens_generated := tokens_generated result;
     be_generation_time := generation_time result;
     be_success := negb (String.eqb (finish_reason result) "error") |}.

Definition batch_generate (start_time end_time : Q) (prompts : list string)
           (max_tokens : Z) (temperature : Q) (max_concurrent : Z)
  : CallLog -> CallLog * Await (Exc BatchReport) :=
  if Z.of_nat (List.length prompts) >? 50
  then fun log => (log, Done (inl (ValueError "Too many prompts in batch (maximum 50)")))
  else
    let prompts :=
      if data_sanitization (security settings)
      then map _sanitize_prompt prompts
      else prompts in
    let params :=
      params_with_defaults ""
        (Z.min max_tokens (max_response_length (security settings)))
        temperature (9 # 10) in
    let batch_request :=
      {| prompts := prompts;
         parameters := params;
         max_concurrent :=
           Z.min max_concurrent (max_concurrent_requests (performance settings)) |} in
    fun log =>
      match KoboldCppClient.batch_generate client_generate_text
              start_time end_time batch_request log with
      | (log', Blocked) => (log', Blocked)
      | (log', Done (inl e)) => (log', Done (inl e))
      | (log', Done (inr batch_result)) =>
          (log',
           Done (inr {| br_type := "text";
                        br_text := "Batch generation completed: "
                                     ++ str_of_Z (successful batch_result)
                                     ++ " successful, "
                                     ++ str_of_Z (failed batch_result) ++ " failed";
                        br_results :=
                          map format_result (enumerate_from 0 (results batch_result));
                        br_total_time := total_time batch_result;
                        br_successful := successful batch_result;
                        br_failed := failed batch_result;
                        br_total_prompts := Z.of_nat (List.length prompts) |}))
      end.

End Tools.

End TextGenerationTools.

(* ================================================================= *)
(** ** protocol/message_types.py: the envelopes *)

Module MCP.

(** [Union[str, int]] *)
Inductive Id : Type :=
| IdStr (s : string)
| IdInt (n : Z).

Definition json_of_id (i : Id) : Json :=
  match i with
  | IdStr s => JStr s
  | IdInt n => JInt n
  end.

(** Validation of a field declared [Union[str, int]]: a string or an int
    is taken as it is; failing that, the members are tried in lax mode,
    in which a bool and a float without fractional part are read as an
    int.  [None] is not accepted, the field is not [Optional].  (The text
    of a validation error is abridged.) *)
Definition Id_validate (v : Json) : Exc Id :=
  match v with
  | JStr s => ret (IdStr s)
  | JInt n => ret (IdInt n)
  | JBool b => ret (IdInt (if b then 1 else 0))
  | JFloat q =>
      match int_of_float q with
      | Some n => ret (IdInt n)
      | None => raise (ValidationError "id: Input should be a valid string or integer")
      end
  | _ => raise (ValidationError "id: Input should be a valid string or integer")
  end.

Record MCPError := {
  code : Z;
  message : string;
  data : option (dict Json)
}.

Record MCPRequest := {
  req_jsonrpc : string;
  req_id : Id;
  method : string;
  params : option (dict Json)
}.

Record MCPNotification := {
  ntf_jsonrpc : string;
  ntf_method : string;
  ntf_params : option (dict Json)
}.

Record ToolDefinition := {
  td_name : string;
  td_description : string;
  td_inputSchema : Json
}.

Record ResourceDefinition := {
  rd_uri : string;
  rd_name : string;
  rd_description : option string;
  rd_mimeType : option string
}.

Record ToolResult := {
  content : list Json;
  isError : bool
}.

(** The [result] field of [MCPResponse] and of its subclasses. *)
Inductive ResultPayload : Type :=
| InitializeResult (protocolVersion : string) (capabilities serverInfo : Json)
| ToolsListing (tools : list ToolDefinition)
| ToolCallResult (r : ToolResult)
| ResourcesListing (resources : list ResourceDefinition)
| ResourceContents (contents : dict Json).

Record MCPResponse := {
  resp_jsonrpc : string;
  resp_id : Id;
  result : option ResultPayload;
  error : option MCPError
}.

Definition field_opt_dict (kw : dict Json) (k : string) : Exc (option (dict Json)) :=
  match dict_get kw k with
  | None | Some JNull => ret None
  | Some (JDict d) => ret (Some d)
  | Some _ => raise (ValidationError (k ++ ": Input should be a valid dictionary"))
  end.

(** [MCPRequest] applied to the keywords of a parsed message; keywords
    that are not fields are ignored. *)
Definition MCPRequest_init (kw : dict Json) : Exc MCPRequest :=
  jsonrpc <- field_str kw "jsonrpc" (Some "2.0") ;;
  i <- match dict_get kw "id" with
       | Some v => Id_validate v
       | None => raise (ValidationError "id: Field required")
       end ;;
  m <- field_str kw "method" None ;;
  p <- field_opt_dict kw "params" ;;
  ret {| req_jsonrpc := jsonrpc; req_id := i; method := m; params := p |}.

Definition MCPNotification_init (kw : dict Json) : Exc MCPNotification :=
  jsonrpc <- field_str kw "jsonrpc" (Some "2.0") ;;
  m <- field_str kw "method" None ;;
  p <- field_opt_dict kw "params" ;;
  ret {| ntf_jsonrpc := jsonrpc; ntf_method := m; ntf_params := p |}.

(** [MCPResponse(id=request_id, result=..., error=...)], the id validated
    against its declared type. *)
Definition MCPResponse_init (request_id : Json) (res : option ResultPayload)
           (err : option MCPError) : Exc MCPResponse :=
  i <- Id_validate request_id ;;
  ret {| resp_jsonrpc := "2.0"; resp_id := i; result := res; error := err |}.

(** [InitializeResponse(id=...)]: the result is the default of the field. *)
Definition InitializeResponse (request_id : Json) : Exc MCPResponse :=
  MCPResponse_init request_id
    (Some (InitializeResult "2024-11-05"
             (JDict [("tools", JDict [("listChanged", JBool true)]);
                     ("resources", JDict [("listChanged", JBool true)])])
             (JDict [("name", JStr "koboldcpp-mcp-server");
                     ("version", JStr "1.0.0")])))
    None.

(* ================================================================= *)
(** ** protocol/mcp_handler.py *)

(** What an awaited tool handler returns, as the router tells the cases
    apart: a dict, a list, or anything else, of which only [str(result)]
    is used. *)
Inductive ToolOutput : Type :=
| OutDict (d : dict Json)
| OutList (l : list Json)
| OutOther (str : string).

Record ToolEntry := {
  tool_handler : dict Json -> Exc ToolOutput;
  tool_definition : ToolDefinition
}.

Record ResourceEntry := {
  resource_handler : string -> Exc (dict Json);
  resource_definition : ResourceDefinition
}.

Record MCPHandler := {
  tools : dict ToolEntry;
  resources : dict ResourceEntry;
  initialized : bool;
  client_capabilities : Json
}.

Definition new_handler : MCPHandler :=
  {| tools := []; resources := []; initialized := false;
     client_capabilities := JDict [] |}.

Definition register_tool (name : string) (handler : dict Json -> Exc ToolOutput)
           (definition : ToolDefinition) (h : MCPHandler) : MCPHandler :=
  {| tools := dict_set (tools h) name
                {| tool_handler := handler; tool_definition := definition |};
     resources := resources h;
     initialized := initialized h;
     client_capabilities := client_capabilities h |}.

Definition register_resource (uri : string) (handler : string -> Exc (dict Json))
           (definition : ResourceDefinition) (h : MCPHandler) : MCPHandler :=
  {| tools := tools h;
     resources := dict_set (resources h) uri
                    {| resource_handler := handler;
                       resource_definition := definition |};
     initialized := initialized h;
     client_capabilities := client_capabilities h |}.

Definition set_initialized (b : bool) (h : MCPHandler) : MCPHandler :=
  {| tools := tools h; resources := resources h; initialized := b;
     client_capabilities := client_capabilities h |}.

Definition set_client_capabilities (c : Json) (h : MCPHandler) : MCPHandler :=
  {| tools := tools h; resources := resources h;
     initialized := initialized h; client_capabilities := c |}.

(** [_create_error_response] *)
Definition _create_error_response (request_id : Json) (code : Z) (message : string)
  : Exc MCPResponse :=
  let error := {| code := code; message := message; data := None |} in
  MCPResponse_init request_id None (Some error).

(** [request.params.<attr>] on the request that [_process_message] builds:
    its [params] is a plain dict or [None], and neither has an attribute
    [name] or [arguments]. *)
Definition getattr_params (params : option (dict Json)) (attr : string) : Exc Json :=
  match params with
  | None => raise (no_attribute JNull attr)
  | Some d => raise (no_attribute (JDict d) attr)
  end.

(** [request.params.get(k)] *)
Definition params_get (params : option (dict Json)) (k : string) : Exc Json :=
  match params with
  | None => raise (no_attribute JNull "get")
  | Some d => ret (dict_get_default d k JNull)
  end.

(** [k in d] for a dict with string keys and any JSON value [k]. *)
Definition key_in V (k : Json) (d : dict V) : Exc bool :=
  match k with
  | JStr s => ret (dict_mem d s)
  | JList _ => raise (TypeError "unhashable type: 'list'")
  | JDict _ => raise (TypeError "unhashable type: 'dict'")
  | _ => ret false
  end.

(** [d[k]] *)
Definition key_lookup V (k : Json) (d : dict V) : Exc V :=
  match k with
  | JStr s =>
      match dict_get d s with
      | Some v => ret v
      | None => raise (KeyError s)
      end
  | _ => raise (KeyError "")
  end.

(** [d or {}] for an optional dict *)
Definition list_or_empty V (d : option (dict V)) : dict V :=
  match d with
  | Some d' => d'
  | None => []
  end.

(** [v == s] for a JSON value and a string *)
Definition json_eq_str (v : Json) (s : string) : bool :=
  match v with
  | JStr s' => String.eqb s' s
  | _ => false
  end.

Section Router.

(** [repr] of a JSON value that is not a string, null, a bool or an int
    (floats and containers); it only ever reaches the text of a message. *)
Variable py_repr : Json -> string.

(** [str(v)], as in [f"{v}"] *)
Definition py_str (v : Json) : string :=
  match v with
  | JStr s => s
  | JNull => "None"
  | JBool true => "True"
  | JBool false => "False"
  | JInt n => str_of_Z n
  | _ => py_repr v
  end.

Definition not_initialized (request : MCPRequest) : SE MCPHandler MCPResponse :=
  se_lift (_create_error_response (json_of_id (req_id request)) (-32002)
             "Server not initialized").

(** The two [client_info.get(...)] of the log line of [_handle_initialize]:
    they need [client_info] to be a dict. *)
Definition client_info_line (client_info : Json) : Exc string :=
  match client_info with
  | JDict d =>
      ret ("Initializing MCP session with "
             ++ py_str (dict_get_default d "name" (JStr "unknown"))
             ++ " v" ++ py_str (dict_get_default d "version" (JStr "unknown")))
  | _ => raise (no_attribute client_info "get")
  end.

Definition _handle_initialize (request : MCPRequest) : SE MCPHandler MCPResponse :=
  let params := list_or_empty (params request) in
  let protocol_version := dict_get_default params "protocolVersion" JNull in
  if negb (json_eq_str protocol_version "2024-11-05")
  then se_lift (_create_error_response (json_of_id (req_id request)) (-32602)
                  ("Unsupported protocol version: " ++ py_str protocol_version))
  else
    (h <- se_get (S := MCPHandler) ;;
     _ <- se_put (set_client_capabilities
                    (dict_get_default params "capabilities" (JDict [])) h) ;;
     let client_info := dict_get_default params "clientInfo" (JDict []) in
     _ <- se_lift (client_info_line client_info) ;;
     h <- se_get (S := MCPHandler) ;;
     _ <- se_put (set_initialized true h) ;;
     se_lift (InitializeResponse (json_of_id (req_id request))))%se.

Definition _handle_list_tools (request : MCPRequest) : SE MCPHandler MCPResponse :=
  (h <- se_get (S := MCPHandler) ;;
   if negb (initialized h) then not_initialized request
   else
     let tool_definitions := map tool_definition (dict_values (tools h)) in
     se_lift (MCPResponse_init (json_of_id (req_id request))
                (Some (ToolsListing tool_definitions)) None))%se.

(** Lines 218-223: the handler's result brought to the content format. *)
Definition normalize_result (result : ToolOutput) : ToolResult :=
  match result with
  | OutDict d => {| content := [JDict d]; isError := false |}
  | OutList l => {| content := l; isError := false |}
  | OutOther s =>
      {| content := [JDict [("type", JStr "text"); ("text", JStr s)]];
         isError := false |}
  end.

(** The body of the [try] of [_handle_call_tool], lines 206-229; the call
    [handler( **arguments )] needs [arguments] to be a mapping. *)
Definition call_tool_body (h : MCPHandler) (request : MCPRequest)
           (tool_name arguments : Json) : Exc MCPResponse :=
  tool_info <- key_lookup tool_name (tools h) ;;
  kw <- match arguments with
        | JDict kw => ret kw
        | _ => raise (TypeError ("argument after ** must be a mapping, not "
                                   ++ type_name arguments))
        end ;;
  result <- tool_handler tool_info kw ;;
  MCPResponse_init (json_of_id (req_id request))
    (Some (ToolCallResult (normalize_result result))) None.

(** The [except] clause, lines 231-241. *)
Definition call_tool_except (request : MCPRequest) (e : exn) : Exc MCPResponse :=
  let error_result :=
    {| content := [JDict [("type", JStr "text");
                          ("text", JStr ("Tool execution failed: " ++ str_of_exn e))]];
       isError := true |} in
  MCPResponse_init (json_of_id (req_id request))
    (Some (ToolCallResult error_result)) None.

Definition _handle_call_tool (request : MCPRequest) : SE MCPHandler MCPResponse :=
  (h <- se_get (S := MCPHandler) ;;
   if negb (initialized h) then not_initialized request
   else
     tool_name <- se_lift (getattr_params (params request) "name") ;;
     arguments <- se_lift (getattr_params (params request) "arguments") ;;
     known <- se_lift (key_in tool_name (tools h)) ;;
     if negb known
     then se_lift (_create_error_response (json_of_id (req_id request)) (-32601)
                     ("Tool not found: " ++ py_str tool_name))
     else
       se_try (se_lift (call_tool_body h request tool_name arguments))
              (fun e => se_lift (call_tool_except request e)))%se.

Definition _handle_list_resources (request : MCPRequest) : SE MCPHandler MCPResponse :=
  (h <- se_get (S := MCPHandler) ;;
   if negb (initialized h) then not_initialized request
   else
     let resource_definitions :=
       map resource_definition (dict_values (resources h)) in
     se_lift (MCPResponse_init (json_of_id (req_id request))
                (Some (ResourcesListing resource_definitions)) None))%se.

(** The body of the [try] of [_handle_read_resource], lines 279-289. *)
Definition read_resource_body (h : MCPHandler) (request : MCPRequest) (uri : Json)
  : Exc MCPResponse :=
  resource_info <- key_lookup uri (resources h) ;;
  result <- resource_handler resource_info (py_str uri) ;;
  MCPResponse_init (json_of_id (req_id request))
    (Some (ResourceContents result)) None.

Definition _handle_read_resource (request : MCPRequest) : SE MCPHandler MCPResponse :=
  (h <- se_get (S := MCPHandler) ;;
   if negb (initialized h) then not_initialized request
   else
     uri <- se_lift (params_get (params request) "uri") ;;
     if negb (truthy uri)
     then se_lift (_create_error_response (json_of_id (req_id request)) (-32602)
                     "Missing required parameter: uri")
     else
       known <- se_lift (key_in uri (resources h)) ;;
       if negb known
       then se_lift (_create_error_response (json_of_id (req_id request)) (-32601)
                       ("Resource not found: " ++ py_str uri))
       else
         se_try (se_lift (read_resource_body h request uri))
                (fun e =>
                   se_lift (_create_error_response (json_of_id (req_id request))
                              (-32603)
                              ("Resource read failed: " ++ str_of_exn e))))%se.

(** The [if]/[elif] chain of [_handle_request], lines 127-140. *)
Definition dispatch (request : MCPRequest) : SE MCPHandler MCPResponse :=
  let m := method request in
  if String.eqb m "initialize" then _handle_initialize request
  else if String.eqb m "tools/list" then _handle_list_tools request
  else if String.eqb m "tools/call" then _handle_call_tool request
  else if String.eqb m "resources/list" then _handle_list_resources request
  else if String.eqb m "resources/read" then _handle_read_resource request
  else se_lift (_create_error_response (json_of_id (req_id request)) (-32601)
                  ("Method not found: " ++ m)).

Definition _handle_request (request : MCPRequest) : SE MCPHandler MCPResponse :=
  se_try (dispatch request)
         (fun e =>
            se_lift (_create_error_response (json_of_id (req_id request)) (-32603)
                       ("Internal error: " ++ str_of_exn e))).

(** *** The connection: the router's state and the frames sent so far *)

Record Connection := {
  handler_state : MCPHandler;
  sent : list MCPResponse
}.

(** An inbound message, by what [json.loads] does with it. *)
Inductive Inbound : Type :=
| Unparseable (err : string)      (* raises JSONDecodeError(err) *)
| Parsed (data : Json).

(** [await websocket.send(json.dumps(response.model_dump()))], on a
    connection that the client keeps open. *)
Definition send (response : MCPResponse) : SE Connection unit :=
  fun c => ({| handler_state := handler_state c;
               sent := (sent c ++ [response])%list |}, inr tt).

Definition with_handler A (m : SE MCPHandler A) : SE Connection A :=
  fun c => let '(h, r) := m (handler_state c) in
           ({| handler_state := h; sent := sent c |}, r).

Definition json_is_str (s : string) (v : Json) : bool := json_eq_str v s.

(** ["id" in data] *)
Definition has_id (data : Json) : Exc bool :=
  match data with
  | JDict kvs => ret (dict_mem kvs "id")
  | JList l => ret (existsb (json_is_str "id") l)
  | JStr s => ret (str_contains "id" s)
  | _ => raise (TypeError ("argument of type '" ++ type_name data ++ "' is not iterable"))
  end.

(** A model class applied to [**data] *)
Definition unpack A (init : dict Json -> Exc A) (data : Json) : Exc A :=
  match data with
  | JDict kvs => init kvs
  | _ => raise (TypeError ("argument after ** must be a mapping, not " ++ type_name data))
  end.

(** [data.get("id")] *)
Definition data_get_id (data : Json) : Exc Json :=
  match data with
  | JDict kvs => ret (dict_get_default kvs "id" JNull)
  | _ => raise (no_attribute data "get")
  end.

(** What [_handle_notification] writes to the log; it sends nothing and
    raises nothing. *)
Inductive notification_log : Type :=
| LogInitialized
| LogUnknownMethod (m : string)
| LogError (e : exn).

Definition _handle_notification (data : Json) : notification_log :=
  match unpack MCPNotification_init data with
  | inr notification =>
      if String.eqb (ntf_method notification) "notifications/initialized"
      then LogInitialized
      else LogUnknownMethod (ntf_method notification)
  | inl e => LogError e
  end.

Definition _process_message (message : Inbound) : SE Connection unit :=
  match message with
  | Unparseable err =>
      (error_response <- se_lift (_create_error_response JNull (-32700)
                                    ("Parse error: " ++ err)) ;;
       send error_response)%se
  | Parsed data =>
      (is_request <- se_lift (has_id data) ;;
       if negb is_request
       then let _ := _handle_notification data in se_ret tt
       else
         se_try
           (request <- se_lift (unpack MCPRequest_init data) ;;
            response <- with_handler (_handle_request request) ;;
            send response)
           (fun e =>
              request_id <- se_lift (data_get_id data) ;;
              error_response <- se_lift (_create_error_response request_id (-32603)
                                           ("Internal error: " ++ str_of_exn e)) ;;
              send error_response))%se
  end.

(** The [async for] of [handle_connection] with its inner [try], lines
    61-69, over the messages the client sends before it closes. *)
Fixpoint message_loop (messages : list Inbound) : SE Connection unit :=
  match messages with
  | [] => se_ret tt
  | message :: rest =>
      (_ <- se_try (_process_message message)
              (fun e =>
                 error_response <- se_lift (_create_error_response JNull (-32603)
                                              ("Internal error: " ++ str_of_exn e)) ;;
                 send error_response) ;;
       message_loop rest)%se
  end.

(** How the read loop ended: the client closed after its last message, or
    an exception left the loop and the handler returned, which closes the
    connection. *)
Inductive connection_end : Type :=
| ClientClosed
| Aborted (e : exn).

Definition handle_connection (messages : list Inbound)
  : Connection -> Connection * connection_end :=
  fun c =>
    let '(c', r) := message_loop messages c in
    ({| handler_state := set_initialized false (handler_state c');
        sent := sent c' |},
     match r with
     | inr _ => ClientClosed
     | inl e => Aborted e
     end).

(** *** server.py: one handler for all connections

    [MCPServer.__init__] creates one [MCPHandler] (line 32) and [start]
    gives its bound method [handle_connection] to [websockets.serve]
    (lines 204-205): every connection runs [handle_connection] on that
    one object, so the router's state is shared and only the frames sent
    belong to a connection.  An event is a frame that arrives on a
    connection and is handled to its end before the next event, or the
    end of the stream of a connection. *)
Inductive Event : Type :=
| Frame (conn : nat) (message : Inbound)
| Hangup (conn : nat).

Record Server := {
  mcp_handler : MCPHandler;
  outbox : nat -> list MCPResponse
}.

(** One connection as [handle_connection] sees it. *)
Definition connection_of (s : Server) (conn : nat) : Connection :=
  {| handler_state := mcp_handler s; sent := outbox s conn |}.

Definition set_outbox (conn : nat) (frames : list MCPResponse)
           (outbox : nat -> list MCPResponse) : nat -> list MCPResponse :=
  fun k => if Nat.eqb k conn then frames else outbox k.

(** A frame is one pass through the body of the read loop; when an
    exception leaves the loop, and when the stream ends, the [finally] of
    [handle_connection] runs. *)
Definition serve_event (event : Event) (s : Server) : Server :=
  match event with
  | Frame conn message =>
      let '(c, r) := message_loop [message] (connection_of s conn) in
      {| mcp_handler := match r with
                        | inr _ => handler_state c
                        | inl _ => set_initialized false (handler_state c)
                        end;
         outbox := set_outbox conn (sent c) (outbox s) |}
  | Hangup conn =>
      {| mcp_handler := set_initialized false (mcp_handler s);
         outbox := outbox s |}
  end.

Definition serve (events : list Event) (s : Server) : Server :=
  fold_left (fun s event => serve_event event s) events s.

End Router.

End MCP.

(* ================================================================= *)
(** * Properties of the backend client *)

Unset Implicit Arguments.

Module ClientFacts.
Import KoboldCppClient.

(** The entry of the result sequence that stands for one task. *)
Definition entry_of (o : option GenerationResult) : GenerationResult :=
  match o with
  | Some r => r
  | None => failed_result
  end.

Definition is_some {A} (o : option A) : bool :=
  match o with Some _ => true | None => false end.

Definition count_ok (l : list (option GenerationResult)) : Z :=
  Z.of_nat (List.length (filter is_some l)).

Definition count_failed (l : list (option GenerationResult)) : Z :=
  Z.of_nat (List.length (filter (fun o => negb (is_some o)) l)).

Lemma count_total l : count_ok l + count_failed l = Z.of_nat (List.length l).
Proof.
  unfold count_ok, count_failed.
  induction l as [|o l IH]; [reflexivity|].
  destruct o; cbn [filter is_some negb List.length]; lia.
Qed.

Lemma collect_fold outs : forall acc,
  fold_left collect outs acc =
  {| t_results := (t_results acc ++ map entry_of outs)%list;
     t_successful := t_successful acc + count_ok outs;
     t_failed := t_failed acc + count_failed outs |}.
Proof.
  unfold count_ok, count_failed.
  induction outs as [|o outs IH]; intros [rs s f]; simpl.
  - now rewrite app_nil_r, !Z.add_0_r.
  - rewrite IH.
    destruct o; cbn [collect filter is_some negb List.length map entry_of
                     t_results t_successful t_failed];
      rewrite <- app_assoc; f_equal; lia.
Qed.

Lemma count_none {P} (ps : list P) :
  count_ok (map (fun _ => None) ps) = 0
  /\ count_failed (map (fun _ => None) ps) = Z.of_nat (List.length ps).
Proof.
  unfold count_ok, count_failed.
  induction ps as [|p ps [IH1 IH2]]; [split; reflexivity|].
  cbn [map filter is_some negb List.length]. split; [exact IH1|lia].
Qed.

Section Gather.

Variables (P A : Type) (f : P -> CallLog -> CallLog * Await A).

(** When the gather completes, it has one entry per task, and the
    [i]-th entry is what the task of the [i]-th input returned. *)
Lemma gather_done ps : forall log log' l,
  gather (map f ps) log = (log', Done l) ->
  List.length l = List.length ps
  /\ forall i p, nth_error ps i = Some p ->
       exists lg lg' a, f p lg = (lg', Done a) /\ nth_error l i = Some a.
Proof.
  induction ps as [|q ps IH]; intros log log' l; simpl.
  - intros [= <- <-]. split; [reflexivity|]. intros [|i] p; discriminate.
  - destruct (f q log) as [log1 [a|]] eqn:Hq; [|discriminate].
    destruct (gather (map f ps) log1) as [log2 [l'|]] eqn:Hg; [|discriminate].
    intros [= <- <-]. destruct (IH _ _ _ Hg) as [Hlen Hnth].
    split; [simpl; now rewrite Hlen|].
    intros [|i] p Hi; simpl in *.
    + injection Hi as <-. eauto.
    + exact (Hnth i p Hi).
Qed.

(** Tasks that complete at once, without a call. *)
Lemma gather_constant (g : P -> A) ps : forall log,
  (forall p lg, f p lg = (lg, Done (g p))) ->
  gather (map f ps) log = (log, Done (map g ps)).
Proof.
  intros log Hf. induction ps as [|q ps IH]; simpl; [reflexivity|].
  now rewrite Hf, IH.
Qed.

(** Tasks that all wait for a permit. *)
Lemma gather_blocked ps : forall log,
  ps <> [] ->
  (forall p lg, f p lg = (lg, Blocked)) ->
  gather (map f ps) log = (log, Blocked).
Proof.
  intros log Hne Hf. revert log.
  induction ps as [|q ps IH]; intros log; [congruence|].
  simpl. rewrite Hf. destruct ps as [|q' ps]; [reflexivity|].
  now rewrite IH.
Qed.

End Gather.

Section BatchFacts.

Variable generate_text : nat -> GenerateTextParams -> Exc GenerationResult.

(** [model_dump()] lists [prompt] too, so the constructor call in
    [process_single] names that keyword twice: the task ends in the
    [except] branch before the generate call is issued, whatever that
    call would have done. *)
Remark process_single_keyword_clash batch_semaphore req p log :
  batch_semaphore <> 0%N ->
  process_single generate_text batch_semaphore req p log = (log, Done None).
Proof.
  intros Hsem. unfold process_single, with_permit.
  apply N.eqb_neq in Hsem. now rewrite Hsem.
Qed.

Remark process_single_without_permit req p log :
  process_single generate_text 0 req p log = (log, Blocked).
Proof. reflexivity. Qed.

(** The batch under a semaphore that has a permit: every task ends in its
    [except] branch. *)
Lemma batch_generate_with_permit t0 t1 req log :
  0 < max_concurrent req ->
  batch_generate generate_text t0 t1 req log
  = (log,
     Done (inr {| results := map (fun _ => failed_result) (prompts req);
                  total_time := t1 - t0;
                  successful := 0;
                  failed := Z.of_nat (List.length (prompts req)) |})).
Proof.
  intros Hpos. unfold batch_generate, Semaphore, batch_results.
  destruct (max_concurrent req <? 0) eqn:E; [apply Z.ltb_lt in E; lia|].
  cbn [ret]. rewrite gather_constant with (g := fun _ => None).
  - rewrite collect_fold. cbn [t_results t_successful t_failed app].
    destruct (count_none (prompts req)) as [-> ->].
    rewrite map_map. reflexivity.
  - intros p lg. apply process_single_keyword_clash. lia.
Qed.

(** A negative [max_concurrent] is refused by the semaphore. *)
Lemma batch_generate_refused t0 t1 req log :
  max_concurrent req < 0 ->
  batch_generate generate_text t0 t1 req log
  = (log, Done (inl (ValueError "Semaphore initial value must be >= 0"))).
Proof.
  intros Hneg. unfold batch_generate, Semaphore.
  apply Z.ltb_lt in Hneg. now rewrite Hneg.
Qed.

(** With [max_concurrent = 0] every task waits for a permit that never
    comes. *)
Lemma batch_generate_blocked t0 t1 req log :
  max_concurrent req = 0 -> prompts req <> [] ->
  batch_generate generate_text t0 t1 req log = (log, Blocked).
Proof.
  intros Hzero Hne. unfold batch_generate, Semaphore, batch_results.
  rewrite Hzero. cbn [Z.ltb Z.compare ret Z.to_N].
  rewrite gather_blocked; [reflexivity|exact Hne|].
  intros p lg. reflexivity.
Qed.

(** An empty batch needs no permit. *)
Lemma batch_generate_empty t0 t1 req log :
  max_concurrent req = 0 -> prompts req = [] ->
  batch_generate generate_text t0 t1 req log
  = (log, Done (inr {| results := []; total_time := t1 - t0;
                       successful := 0; failed := 0 |})).
Proof.
  intros Hzero Hnil. unfold batch_generate, Semaphore, batch_results.
  rewrite Hzero, Hnil. reflexivity.
Qed.


End BatchFacts.





End ClientFacts.

Module FloatFacts.

Lemma float_overflow_bound_between :
  2 ^ 1023 < float_overflow_bound /\ float_overflow_bound <= 2 ^ 1024.
Proof.
  split; [apply Z.ltb_lt|apply Z.leb_le]; vm_compute; reflexivity.
Qed.

Lemma float_of_int_within n :
  Z.abs n < float_overflow_bound -> float_of_int n = inr (inject_Z n).
Proof.
  intros H. unfold float_of_int. apply Z.leb_gt in H. now rewrite H.
Qed.

Lemma float_of_int_beyond n :
  float_overflow_bound <= Z.abs n ->
  float_of_int n = inl (OverflowError "int too large to convert to float").
Proof.
  intros H. unfold float_of_int. apply Z.leb_le in H. now rewrite H.
Qed.

(** A power of two is converted up to [2 ** 1023]. *)
Lemma float_of_power_within k :
  (k < 1024)%nat ->
  float_of_int (2 ^ Z.of_nat k) = inr (inject_Z (2 ^ Z.of_nat k)).
Proof.
  intros Hk. apply float_of_int_within.
  rewrite Z.abs_eq by (apply Z.pow_nonneg; lia).
  apply Z.le_lt_trans with (2 ^ 1023);
    [apply Z.pow_le_mono_r; lia|apply float_overflow_bound_between].
Qed.

Lemma float_of_power_beyond k :
  (1024 <= k)%nat ->
  float_of_int (2 ^ Z.of_nat k)
  = inl (OverflowError "int too large to convert to float").
Proof.
  intros Hk. apply float_of_int_beyond.
  rewrite Z.abs_eq by (apply Z.pow_nonneg; lia).
  apply Z.le_trans with (2 ^ 1024);
    [apply float_overflow_bound_between|apply Z.pow_le_mono_r; lia].
Qed.

End FloatFacts.

Module RetryFacts.
Import KoboldCppClient FloatFacts.

(** A retryable condition: HTTP 502, 503 or 504, or a connection or
    timeout failure of the request. *)
Definition retryable (o : attempt_outcome) : bool :=
  match o with
  | Responded status _ _ => retryable_status status
  | Failed e => caught_by_retry e
  end.

(** What the loop retries before the last attempt: a response with any
    status other than 200 (the [ClientError] raised for it is caught by
    the [except] clause of the same [try]), a [ClientError] or a
    timeout. *)
Definition retried (o : attempt_outcome) : bool :=
  match o with
  | Responded status _ _ => negb (status =? 200)
  | Failed e => caught_by_retry e
  end.

(** The error with which an attempt ends when it is not retried. *)
Definition own_error (o : attempt_outcome) : exn :=
  match o with
  | Responded status _ error_text =>
      ClientError ("HTTP " ++ str_of_Z status ++ ": " ++ error_text)
  | Failed e => e
  end.

(** The error of the statement after the loop, line 112. *)
Definition attempts_exhausted (max_retries : Z) : exn :=
  ClientError ("Failed after " ++ str_of_Z (max_retries + 1) ++ " attempts").

(** The delay slept after attempt [k], [retry_delay * 2 ** k], and the
    delays slept before attempt [n]. *)
Definition delay (config : KoboldCppConfig) (k : nat) : Q :=
  (retry_delay config * inject_Z (2 ^ Z.of_nat k))%Q.

Definition delays (config : KoboldCppConfig) (n : nat) : list Q :=
  map (delay config) (seq 0 n).

(** What the product of the delay raises from attempt 1024 on. *)
Definition backoff_overflow : exn :=
  OverflowError "int too large to convert to float".

Section Retry.

Variable config : KoboldCppConfig.
Variable http : nat -> attempt_outcome.
Variable max_retries : Z.

Lemma backoff_within k :
  (k < 1024)%nat -> backoff config k = inr (delay config k).
Proof.
  intros Hk. unfold backoff. now rewrite (float_of_power_within k Hk).
Qed.

Lemma backoff_beyond k :
  (1024 <= k)%nat -> backoff config k = inl backoff_overflow.
Proof.
  intros Hk. unfold backoff. now rewrite (float_of_power_beyond k Hk).
Qed.

Lemma retryable_not_200 status : retryable_status status = true -> (status =? 200) = false.
Proof.
  unfold retryable_status. intros H.
  destruct (status =? 200) eqn:E; [|reflexivity].
  apply Z.eqb_eq in E. subst. discriminate.
Qed.

Lemma retryable_retried o : retryable o = true -> retried o = true.
Proof.
  destruct o as [status payload error_text|e]; simpl; [|auto].
  intros H. now rewrite (retryable_not_200 _ H).
Qed.

(** What is retried before the last attempt ends in
    [sleep_and_continue], from the body or from the [except] clause. *)
Lemma step_sleep attempt o :
  retried o = true -> Z.of_nat attempt < max_retries ->
  attempt_step config max_retries attempt o
  = match sleep_and_continue config attempt with
    | Raise e => Raise e
    | s => s
    end.
Proof.
  intros Hr Hlt. apply Z.ltb_lt in Hlt.
  assert (Hpass : forall e, backoff config attempt = inl e -> caught_by_retry e = false).
  { intros e. unfold backoff, float_of_int, bind, raise, ret.
    destruct (_ <=? _); [|discriminate]. now intros [= <-]. }
  destruct o as [status payload error_text|e]; simpl in Hr;
    unfold attempt_step, try_body, except_clause.
  - apply negb_true_iff in Hr. rewrite Hr, Hlt.
    destruct (retryable_status status); simpl.
    + unfold sleep_and_continue.
      destruct (backoff config attempt) as [e|d]; [|reflexivity].
      now rewrite (Hpass e eq_refl).
    + now destruct (sleep_and_continue config attempt).
  - rewrite Hr, Hlt. now destruct (sleep_and_continue config attempt).
Qed.

(** Before the last attempt and before attempt 1024: back off and go
    on. *)
Lemma step_retried attempt o :
  retried o = true -> Z.of_nat attempt < max_retries -> (attempt < 1024)%nat ->
  attempt_step config max_retries attempt o = Continue (delay config attempt).
Proof.
  intros Hr Hlt Hk. rewrite step_sleep by assumption.
  unfold sleep_and_continue. now rewrite backoff_within.
Qed.

(** From attempt 1024 on the delay cannot be computed. *)
Lemma step_overflow attempt o :
  retried o = true -> Z.of_nat attempt < max_retries -> (1024 <= attempt)%nat ->
  attempt_step config max_retries attempt o = Raise backoff_overflow.
Proof.
  intros Hr Hlt Hk. rewrite step_sleep by assumption.
  unfold sleep_and_continue. now rewrite backoff_beyond.
Qed.

(** A retryable failure at the last attempt: its own error is raised. *)
Lemma step_last attempt o :
  retryable o = true -> max_retries <= Z.of_nat attempt ->
  attempt_step config max_retries attempt o = Raise (own_error o).
Proof.
  intros Hr Hge. apply Z.ltb_ge in Hge.
  destruct o as [status payload error_text|e]; simpl in Hr;
    unfold attempt_step, try_body.
  - rewrite (retryable_not_200 _ Hr), Hr, Hge. simpl.
    unfold except_clause. simpl. now rewrite Hge.
  - unfold except_clause. now rewrite Hr, Hge.
Qed.

Lemma step_ok attempt payload error_text :
  attempt_step config max_retries attempt (Responded 200 payload error_text)
  = Return payload.
Proof. reflexivity. Qed.

(** Only an attempt before the last one, and before attempt 1024, is
    followed by another; the delay slept is [retry_delay * 2 ** attempt]. *)
Lemma step_continue attempt o d :
  attempt_step config max_retries attempt o = Continue d ->
  Z.of_nat attempt < max_retries /\ (attempt < 1024)%nat /\ d = delay config attempt.
Proof.
  assert (Hsleep : sleep_and_continue config attempt = Continue d ->
                   (attempt < 1024)%nat /\ d = delay config attempt).
  { unfold sleep_and_continue.
    destruct (Nat.lt_ge_cases attempt 1024) as [Hk|Hk].
    - rewrite (backoff_within _ Hk). now intros [= <-].
    - now rewrite (backoff_beyond _ Hk). }
  unfold attempt_step, try_body, except_clause.
  destruct o as [status payload error_text|e].
  - destruct (status =? 200); [discriminate|].
    destruct (retryable_status status); simpl;
      destruct (Z.of_nat attempt <? max_retries) eqn:E; try discriminate;
      apply Z.ltb_lt in E.
    + destruct (sleep_and_continue config attempt) as [r|d'|e] eqn:Es;
        try discriminate.
      * intros [= <-]. split; [exact E|]. now apply Hsleep.
      * destruct (caught_by_retry e); discriminate.
    + intros Hs. split; [exact E|]. now apply Hsleep.
  - destruct (caught_by_retry e); [|discriminate].
    destruct (Z.of_nat attempt <? max_retries) eqn:E; [|discriminate].
    apply Z.ltb_lt in E. intros Hs. split; [exact E|]. now apply Hsleep.
Qed.

(** [n] retried outcomes in a row, all before the last attempt and before
    attempt 1024, use up [n] iterations and sleep [n] times. *)
Lemma attempts_retried n : forall rest attempt slept,
  (forall k, (attempt <= k < attempt + n)%nat -> retried (http k) = true) ->
  Z.of_nat (attempt + n) <= max_retries ->
  (attempt + n <= 1024)%nat ->
  attempts config http max_retries (n + rest) attempt slept
  = attempts config http max_retries rest (attempt + n)
      (slept ++ map (delay config) (seq attempt n))%list.
Proof.
  induction n as [|n IH]; intros rest attempt slept Hr Hle Hk.
  - simpl. now rewrite Nat.add_0_r, app_nil_r.
  - simpl. rewrite step_retried; [|apply Hr; lia|lia|lia].
    rewrite IH; [|intros k Hk'; apply Hr; lia|lia|lia].
    rewrite <- app_assoc. simpl. f_equal. lia.
Qed.

(** With [max_retries + 1] iterations to go in all, the loop is left from
    inside, at some attempt [n]: by the [return] or by a [raise] of that
    attempt, never by running out of iterations; it has slept once after
    each earlier attempt. *)
Lemma attempts_trace todo : forall attempt slept,
  Z.of_nat (attempt + todo) = max_retries + 1 ->
  (0 < todo)%nat ->
  exists n, (attempt <= n)%nat /\ Z.of_nat n <= max_retries
    /\ (n <= Nat.max attempt 1024)%nat
    /\ fst (attempts config http max_retries todo attempt slept)
       = (slept ++ map (delay config) (seq attempt (n - attempt)))%list
    /\ match snd (attempts config http max_retries todo attempt slept) with
       | inr payload => attempt_step config max_retries n (http n) = Return payload
       | inl e => attempt_step config max_retries n (http n) = Raise e
       end.
Proof.
  induction todo as [|todo IH]; intros attempt slept Hsum Hpos; [lia|].
  simpl.
  destruct (attempt_step config max_retries attempt (http attempt)) as [r|d|e] eqn:E.
  - exists attempt. simpl. rewrite Nat.sub_diag, app_nil_r.
    repeat split; [lia|lia|lia|exact E].
  - apply step_continue in E. destruct E as (Hlt & Hk & ->).
    destruct (IH (S attempt) (slept ++ [delay config attempt])%list)
      as (n & Hn & Hle & Hmax & Hfst & Hsnd); [lia|lia|].
    exists n. split; [lia|]. split; [exact Hle|]. split; [lia|].
    split; [|exact Hsnd].
    rewrite Hfst, <- app_assoc. f_equal.
    replace (n - attempt)%nat with (S (n - S attempt)) by lia. reflexivity.
  - exists attempt. simpl. rewrite Nat.sub_diag, app_nil_r.
    repeat split; [lia|lia|lia|exact E].
Qed.

End Retry.

Section Gate.

Variable config : KoboldCppConfig.
Variable http : nat -> attempt_outcome.

(** With a permit, the request is the loop. *)
Lemma make_request_with_permit permits retries slept :
  (0 < permits)%N ->
  _make_request config permits http retries slept
  = (fst (attempts config http
            (match retries with Some r => r | None => max_retries config end)
            (Z.to_nat (match retries with Some r => r | None => max_retries config end + 1))
            O slept),
     Done (snd (attempts config http
                  (match retries with Some r => r | None => max_retries config end)
                  (Z.to_nat (match retries with Some r => r | None => max_retries config end + 1))
                  O slept))).
Proof.
  intros Hp. unfold _make_request, with_permit.
  destruct (permits =? 0)%N eqn:E; [apply N.eqb_eq in E; lia|].
  now destruct (attempts _ _ _ _ _ _).
Qed.

(** Without one, it waits at the gate, whatever the backend and the
    retry limit. *)
Lemma make_request_without_permit retries slept :
  _make_request config 0 http retries slept = (slept, Blocked).
Proof. reflexivity. Qed.

(** [n] retried attempts, then the loop from attempt [n]. *)
Lemma make_request_after_retries permits retries slept n :
  let limit := match retries with Some r => r | None => max_retries config end in
  (0 < permits)%N ->
  Z.of_nat n <= limit -> (n <= 1024)%nat ->
  (forall k, (k < n)%nat -> retried (http k) = true) ->
  _make_request config permits http retries slept
  = (fst (attempts config http limit (S (Z.to_nat limit - n)) n
            (slept ++ delays config n)%list),
     Done (snd (attempts config http limit (S (Z.to_nat limit - n)) n
                  (slept ++ delays config n)%list))).
Proof.
  intros limit Hp Hle Hk Hr. rewrite make_request_with_permit by exact Hp.
  fold limit.
  replace (Z.to_nat (limit + 1)) with (n + S (Z.to_nat limit - n))%nat by lia.
  rewrite attempts_retried; [reflexivity|intros k Hk'; apply Hr; lia|simpl; lia|simpl; lia].
Qed.

End Gate.

(** C2, as the code has it.  With a permit of the request gate and
    [max_retries >= 0], when the first [max_retries] attempts fail with a
    retryable condition: up to [max_retries = 1024], if the next attempt
    answers 200, [_make_request] returns its payload, and if it fails
    with a retryable condition too, [_make_request] raises that last
    attempt's own error, the [ClientError] "HTTP <status>: <body>" for a
    502, 503 or 504, which is not the error of line 112 that names the
    number of attempts, and the connection or timeout exception
    otherwise.  Beyond 1024 the delay of attempt 1024 cannot be
    computed, and [_make_request] raises [OverflowError] after 1024
    delays. *)
Theorem make_request_retry (config : KoboldCppConfig) (permits : N)
        (http : nat -> attempt_outcome) (retries : option Z) (slept : list Q) :
  let limit := match retries with Some r => r | None => max_retries config end in
  (0 < permits)%N ->
  0 <= limit ->
  (forall k, (k < Z.to_nat limit)%nat -> retryable (http k) = true) ->
  (limit <= 1024 ->
   (forall payload error_text,
       http (Z.to_nat limit) = Responded 200 payload error_text ->
       _make_request config permits http retries slept
       = ((slept ++ delays config (Z.to_nat limit))%list, Done (inr payload)))
   /\ (forall status payload error_text,
         http (Z.to_nat limit) = Responded status payload error_text ->
         retryable_status status = true ->
         _make_request config permits http retries slept
         = ((slept ++ delays config (Z.to_nat limit))%list,
            Done (inl (ClientError ("HTTP " ++ str_of_Z status ++ ": " ++ error_text))))
         /\ ClientError ("HTTP " ++ str_of_Z status ++ ": " ++ error_text)
            <> attempts_exhausted limit)
   /\ (forall e,
         http (Z.to_nat limit) = Failed e ->
         caught_by_retry e = true ->
         _make_request config permits http retries slept
         = ((slept ++ delays config (Z.to_nat limit))%list, Done (inl e))))
  /\ (1024 < limit ->
      _make_request config permits http retries slept
      = ((slept ++ delays config 1024)%list,
         Done (inl (OverflowError "int too large to convert to float")))).
Proof.
  intros limit Hp Hpos Hfail. split.
  - intros Hsmall.
    assert (Hrun := make_request_after_retries config http permits retries slept
                      (Z.to_nat limit) Hp ltac:(fold limit; lia) ltac:(lia)
                      (fun k Hk => retryable_retried _ (Hfail k Hk))).
    fold limit in Hrun. rewrite Hrun. clear Hrun.
    replace (S (Z.to_nat limit - Z.to_nat limit)) with 1%nat by lia.
    cbn [attempts].
    split; [|split].
    + intros payload error_text E. rewrite E, step_ok. reflexivity.
    + intros status payload error_text E Hs. split; [|discriminate].
      rewrite step_last; [|rewrite E; exact Hs|lia].
      rewrite E. reflexivity.
    + intros e E He.
      rewrite step_last; [|rewrite E; exact He|lia].
      rewrite E. reflexivity.
  - intros Hbig.
    assert (Hrun := make_request_after_retries config http permits retries slept
                      1024 Hp ltac:(fold limit; lia) ltac:(lia)
                      (fun k Hk => retryable_retried _ (Hfail k ltac:(lia)))).
    fold limit in Hrun. rewrite Hrun. clear Hrun.
    cbn [attempts].
    rewrite step_overflow;
      [reflexivity|apply retryable_retried, Hfail; lia|lia|lia].
Qed.

(** The two cases at the default [max_retries = 3]: three 503 answers and
    then a 200; and four 503 answers, of which the last is the error
    raised. *)
Lemma make_request_retry_witness :
  _make_request (koboldcpp default_settings) 5
    (fun k => if (k <? 3)%nat
              then Responded 503 JNull "busy"
              else Responded 200 (JStr "ok") "")
    None []
  = (delays (koboldcpp default_settings) 3, Done (inr (JStr "ok")))
  /\ _make_request (koboldcpp default_settings) 5
       (fun _ => Responded 503 JNull "busy") None []
     = (delays (koboldcpp default_settings) 3,
        Done (inl (ClientError "HTTP 503: busy"))).
Proof.
  split.
  - exact (proj1 (proj1 (make_request_retry (koboldcpp default_settings) 5
                           (fun k => if (k <? 3)%nat
                                     then Responded 503 JNull "busy"
                                     else Responded 200 (JStr "ok") "")
                           None []
                           ltac:(reflexivity)
                           ltac:(simpl; lia)
                           ltac:(intros [|[|[|k]]] Hk; try reflexivity; simpl in Hk; lia))
                        ltac:(simpl; lia))
                 (JStr "ok") "" eq_refl).
  - exact (proj1 (proj1 (proj2 (proj1 (make_request_retry
                                         (koboldcpp default_settings) 5
                                         (fun _ => Responded 503 JNull "busy") None []
                                         ltac:(reflexivity)
                                         ltac:(simpl; lia)
                                         ltac:(intros; reflexivity))
                                      ltac:(simpl; lia)))
                        503 JNull "busy" eq_refl eq_refl)).
Defined.

(** With [max_retries = 2] and a backend that answers 503 three times,
    the error raised is the one of the third answer; the error that line
    112 would raise, "Failed after 3 attempts", is another one. *)
Example make_request_exhausted_own_error :
  snd (_make_request {| max_retries := 2; retry_delay := 1 |} 5
         (fun _ => Responded 503 JNull "busy") None [])
  = Done (inl (ClientError "HTTP 503: busy"))
  /\ attempts_exhausted 2 = ClientError "Failed after 3 attempts".
Proof. split; reflexivity. Qed.

(** The statement after the loop is reached when there is no iteration at
    all, that is for a negative [max_retries]. *)
Example make_request_no_attempt (http : nat -> attempt_outcome) :
  snd (_make_request {| max_retries := -1; retry_delay := 1 |} 5 http None [])
  = Done (inl (ClientError "Failed after 0 attempts")).
Proof. reflexivity. Qed.

End RetryFacts.

(* ================================================================= *)
(** * Properties of the text-generation tools *)

Module ToolFacts.
Import TextGenerationTools.

Lemma str_take_length n : forall s,
  String.length (str_take n s) = Nat.min n (String.length s).
Proof.
  induction n as [|n IH]; intros [|c s]; simpl; try reflexivity.
  now rewrite IH.
Qed.

(** Cutting at a bound that is not negative leaves at most that many
    characters. *)
Lemma str_slice_to_length s n :
  0 <= n -> Z.of_nat (String.length (str_slice_to s n)) <= n.
Proof.
  intros Hn. unfold str_slice_to.
  destruct (n <? 0) eqn:E; [apply Z.ltb_lt in E; lia|].
  rewrite str_take_length. lia.
Qed.

(** A configuration that passes the validation of the CLI has a maximum
    prompt length that is not negative. *)
Lemma valid_max_prompt_length settings :
  security_settings_valid (security settings) = true ->
  0 <= max_prompt_length (security settings).
Proof.
  unfold security_settings_valid. intros H.
  apply negb_true_iff, Z.leb_gt in H. lia.
Qed.

Lemma sanitize_prompt_length settings prompt :
  0 <= max_prompt_length (security settings) ->
  Z.of_nat (String.length (_sanitize_prompt settings prompt))
  <= max_prompt_length (security settings).
Proof.
  intros Hmax. unfold _sanitize_prompt.
  set (sanitized := str_replace _ _ (str_replace _ _ prompt)).
  destruct (Z.of_nat (String.length sanitized) >? max_prompt_length (security settings))
    eqn:E.
  - now apply str_slice_to_length.
  - rewrite Z.gtb_ltb in E. apply Z.ltb_ge in E. exact E.
Qed.

(** C7, at the prompt "<</s>/s>" under the default settings.  The
    replacement is one pass over the prompt: taking the inner "</s>" out
    joins "<" and "/s>", and the sanitized prompt is "</s>", a delimiter
    token.  The same happens across the two replacements, and with the
    second token. *)
Theorem sanitize_prompt_leaves_delimiter :
  _sanitize_prompt default_settings "<</s>/s>" = "</s>"
  /\ str_contains "</s>" (_sanitize_prompt default_settings "<</s>/s>") = true
  /\ _sanitize_prompt default_settings "</<|endoftext|>s>" = "</s>"
  /\ _sanitize_prompt default_settings "<|endoftext<|endoftext|>|>" = "<|endoftext|>".
Proof. repeat split; vm_compute; reflexivity. Qed.

(** C9, with the condition it needs.  With a maximum prompt length that
    is not negative: when sanitization is enabled, the length check of
    [generate_text] passes for every prompt, the prompt that goes on is
    the sanitized one, cut to the maximum, and the generate call is
    issued with it; and a prompt is rejected only when sanitization is
    disabled and the prompt itself is longer than the maximum. *)
Theorem sanitized_prompt_never_rejected
        (settings : Settings)
        (client_generate_text : nat -> GenerateTextParams -> Exc GenerationResult)
        (user_prompt : string) (max_tokens : Z) (temperature top_p : Q) (top_k : Z)
        (typical_p rep_pen : Q) (rep_pen_range : Z)
        (stop_sequence : option (list string)) (log : CallLog) :
  0 <= max_prompt_length (security settings) ->
  (data_sanitization (security settings) = true ->
     validate_prompt settings user_prompt = inr (_sanitize_prompt settings user_prompt)
     /\ Z.of_nat (String.length (_sanitize_prompt settings user_prompt))
        <= max_prompt_length (security settings)
     /\ exists params,
          prompt params = _sanitize_prompt settings user_prompt
          /\ fst (generate_text settings client_generate_text user_prompt max_tokens
                    temperature top_p top_k typical_p rep_pen rep_pen_range
                    stop_sequence log)
             = (log ++ [params])%list)
  /\ (forall e, validate_prompt settings user_prompt = inl e ->
        data_sanitization (security settings) = false
        /\ max_prompt_length (security settings) < Z.of_nat (String.length user_prompt)
        /\ e = ValueError ("Prompt exceeds maximum length of "
                             ++ str_of_Z (max_prompt_length (security settings)))).
Proof.
  intros Hmax.
  pose proof (sanitize_prompt_length settings user_prompt Hmax) as Hlen.
  assert (Hok : data_sanitization (security settings) = true ->
                validate_prompt settings user_prompt
                = inr (_sanitize_prompt settings user_prompt)).
  { intros Hs. unfold validate_prompt. rewrite Hs.
    destruct (_ >? _) eqn:E; [|reflexivity].
    rewrite Z.gtb_ltb in E. apply Z.ltb_lt in E. lia. }
  split.
  - intros Hs. split; [auto|]. split; [exact Hlen|].
    eexists. split; [|unfold generate_text, se_bind, se_lift;
                       rewrite (Hok Hs); unfold KoboldCppClient.call_generate;
                       destruct (client_generate_text _ _); reflexivity].
    reflexivity.
  - intros e He. destruct (data_sanitization (security settings)) eqn:Hs.
    + rewrite (Hok eq_refl) in He. discriminate.
    + unfold validate_prompt in He. rewrite Hs in He.
      destruct (_ >? _) eqn:E; [|discriminate].
      rewrite Z.gtb_ltb in E. apply Z.ltb_lt in E.
      injection He as <-. auto.
Qed.

Definition five_char_limit : Settings :=
  {| koboldcpp := koboldcpp default_settings;
     security := {| data_sanitization := true;
                    max_prompt_length := 5;
                    max_response_length := 4096 |};
     performance := performance default_settings |}.

(** An eleven-character prompt under a limit of five is cut, not
    rejected. *)
Lemma sanitized_prompt_never_rejected_witness :
  validate_prompt five_char_limit "hello world" = inr "hello".
Proof.
  exact (proj1 (proj1 (sanitized_prompt_never_rejected five_char_limit
                         (fun _ _ => inl TimeoutError)
                         "hello world" 100 (7 # 10) (9 # 10) 40 1 (11 # 10) 320
                         None []
                         ltac:(simpl; lia))
                      eq_refl)).
Defined.

(** Under a negative maximum the check rejects every prompt, sanitized
    or not: a length is never below zero. *)
Lemma negative_limit_rejects settings user_prompt :
  max_prompt_length (security settings) < 0 ->
  validate_prompt settings user_prompt
  = inl (ValueError ("Prompt exceeds maximum length of "
                       ++ str_of_Z (max_prompt_length (security settings)))).
Proof.
  intros Hneg. unfold validate_prompt.
  destruct (_ >? _) eqn:E; [reflexivity|].
  rewrite Z.gtb_ltb in E. apply Z.ltb_ge in E. lia.
Qed.

Definition negative_limit : Settings :=
  {| koboldcpp := koboldcpp default_settings;
     security := {| data_sanitization := true;
                    max_prompt_length := -1;
                    max_response_length := 4096 |};
     performance := performance default_settings |}.

(** Sanitization enabled and a maximum of -1: "abc" is cut to "ab", which
    is still longer than -1, and [generate_text] raises the error of the
    length check without a generate call. *)
Lemma sanitized_prompt_rejected_below_zero :
  data_sanitization (security negative_limit) = true
  /\ _sanitize_prompt negative_limit "abc" = "ab"
  /\ generate_text negative_limit (fun _ _ => inl TimeoutError) "abc"
       100 (7 # 10) (9 # 10) 40 1 (11 # 10) 320 None []
     = ([], inl (ValueError "Prompt exceeds maximum length of -1")).
Proof. repeat split. Qed.

(** The length check is reached with the raw prompt when sanitization is
    off: that is where the rejection comes from otherwise. *)
Example unsanitized_prompt_rejected :
  validate_prompt
    {| koboldcpp := koboldcpp default_settings;
       security := {| data_sanitization := false;
                      max_prompt_length := 5;
                      max_response_length := 4096 |};
       performance := performance default_settings |}
    "hello world"
  = inl (ValueError "Prompt exceeds maximum length of 5").
Proof. reflexivity. Qed.

(** C10.  A batch of more than 50 prompts is refused with the error "Too
    many prompts in batch (maximum 50)": the call log is left as it was
    and neither the settings, nor the concurrency asked for, nor the
    backend play a part, not even a concurrency that the client would
    refuse.  A batch of at most 50 prompts never ends in that error:
    what happens is decided by the concurrency given to the client, the
    smaller of [max_concurrent] and [max_concurrent_requests]. *)
Theorem batch_generate_limit
        (settings : Settings)
        (client_generate_text : nat -> GenerateTextParams -> Exc GenerationResult)
        (start_time end_time : Q) (batch : list string) (max_tokens : Z)
        (temperature : Q) (max_concurrent : Z) (log : CallLog) :
  let run := batch_generate settings client_generate_text start_time end_time
               batch max_tokens temperature max_concurrent log in
  let concurrency :=
    Z.min max_concurrent (max_concurrent_requests (performance settings)) in
  (50 < Z.of_nat (List.length batch) ->
   run = (log, Done (inl (ValueError "Too many prompts in batch (maximum 50)"))))
  /\ (Z.of_nat (List.length batch) <= 50 ->
      snd run <> Done (inl (ValueError "Too many prompts in batch (maximum 50)"))
      /\ (concurrency < 0 ->
          run = (log, Done (inl (ValueError "Semaphore initial value must be >= 0"))))
      /\ (concurrency = 0 -> batch <> [] -> run = (log, Blocked))
      /\ (0 < concurrency ->
          exists report,
            run = (log, Done (inr report))
            /\ List.length (br_results report) = List.length batch
            /\ br_total_prompts report = Z.of_nat (List.length batch))).
Proof.
  intros run concurrency. subst run. unfold batch_generate. split; intros Hlen.
  - apply Z.gtb_lt in Hlen. rewrite Hlen. reflexivity.
  - destruct (_ >? 50) eqn:E; [apply Z.gtb_lt in E; lia|]. clear E.
    fold concurrency.
    match goal with
    | |- context [KoboldCppClient.batch_generate _ _ _ ?r _] => set (req := r)
    end.
    assert (Hsame : List.length (prompts req) = List.length batch)
      by (subst req; cbn [prompts];
          destruct (data_sanitization (security settings));
          [apply length_map|reflexivity]).
    assert (Hne : batch <> [] -> prompts req <> []).
    { intros Hb Hnil. apply Hb, length_zero_iff_nil.
      now rewrite <- Hsame, Hnil. }
    assert (Hrefused : concurrency < 0 ->
              KoboldCppClient.batch_generate client_generate_text
                start_time end_time req log
              = (log, Done (inl (ValueError "Semaphore initial value must be >= 0"))))
      by (intros H; now apply ClientFacts.batch_generate_refused).
    assert (Hblocked : concurrency = 0 -> batch <> [] ->
              KoboldCppClient.batch_generate client_generate_text
                start_time end_time req log
              = (log, Blocked))
      by (intros H Hb; apply ClientFacts.batch_generate_blocked; auto).
    split; [|split; [|split]].
    + assert (Hcases : concurrency < 0 \/ concurrency = 0 \/ 0 < concurrency) by lia.
      destruct Hcases as [Hneg|[Hzero|Hpos]].
      * rewrite (Hrefused Hneg). discriminate.
      * destruct batch as [|p batch].
        -- rewrite ClientFacts.batch_generate_empty;
             [discriminate|exact Hzero|].
           apply length_zero_iff_nil. now rewrite Hsame.
        -- rewrite (Hblocked Hzero); discriminate.
      * rewrite ClientFacts.batch_generate_with_permit by exact Hpos. discriminate.
    + intros Hneg. now rewrite (Hrefused Hneg).
    + intros Hzero Hb. now rewrite (Hblocked Hzero Hb).
    + intros Hpos. rewrite ClientFacts.batch_generate_with_permit by exact Hpos.
      eexists. split; [reflexivity|].
      cbn [br_results br_total_prompts results].
      split; [|exact (f_equal Z.of_nat Hsame)].
      rewrite length_map.
      assert (Hen : forall A (l : list A) i,
                 List.length (enumerate_from i l) = List.length l).
      { intros A l. induction l as [|x l IH]; intros i; simpl; [reflexivity|].
        now rewrite IH. }
      now rewrite Hen, length_map.
Qed.

(** 51 prompts are refused, also with a concurrency of -1, which the
    client would refuse; two prompts give a report of two entries. *)
Lemma batch_generate_limit_witness :
  batch_generate default_settings (fun _ _ => inl TimeoutError) 0 1
    (repeat "p" 51) 100 (7 # 10) (-1) []
  = ([], Done (inl (ValueError "Too many prompts in batch (maximum 50)")))
  /\ batch_generate default_settings (fun _ _ => inl TimeoutError) 0 1
       ["a"; "b"] 100 (7 # 10) (-1) []
     = ([], Done (inl (ValueError "Semaphore initial value must be >= 0")))
  /\ exists report,
       batch_generate default_settings (fun _ _ => inl TimeoutError) 0 1
         ["a"; "b"] 100 (7 # 10) 3 []
       = ([], Done (inr report))
       /\ List.length (br_results report) = 2%nat
       /\ br_total_prompts report = 2.
Proof.
  split; [|split].
  - exact (proj1 (batch_generate_limit default_settings
                    (fun _ _ => inl TimeoutError) 0 1 (repeat "p" 51)
                    100 (7 # 10) (-1) [])
                 ltac:(simpl; lia)).
  - exact (proj1 (proj2 (proj2 (batch_generate_limit default_settings
                                  (fun _ _ => inl TimeoutError) 0 1 ["a"; "b"]
                                  100 (7 # 10) (-1) [])
                               ltac:(simpl; lia)))
                 ltac:(simpl; lia)).
  - exact (proj2 (proj2 (proj2 (proj2 (batch_generate_limit default_settings
                                         (fun _ _ => inl TimeoutError) 0 1 ["a"; "b"]
                                         100 (7 # 10) 3 [])
                                      ltac:(simpl; lia))))
                 ltac:(simpl; lia)).
Defined.

(** *** The parameter sweep *)


Section Sweep.

Variable client_generate_text : nat -> GenerateTextParams -> Exc GenerationResult.
Variables (user_prompt : string) (budget : Z).

(** The parameters of the call for one combination. *)
Definition sweep_params (c : Q * Q) : GenerateTextParams :=
  params_with_defaults user_prompt budget (fst c) (snd c).

Definition sweep_entry (c : Q * Q) (r : GenerationResult) : SweepEntry :=
  {| se_temperature := fst c; se_top_p := snd c;
     se_generated_text := text r;
     se_tokens_generated := tokens_generated r;
     se_generation_time := generation_time r;
     se_tokens_per_second := tokens_per_second r |}.

(** [measured k combos entries]: the calls of rank [k], [k + 1], ... were
    made with the combinations [combos], in that order, and [entries] are
    their metrics. *)
Inductive measured : nat -> list (Q * Q) -> list SweepEntry -> Prop :=
| measured_nil k : measured k [] []
| measured_cons k c r combos entries :
    client_generate_text k (sweep_params c) = inr r ->
    measured (S k) combos entries ->
    measured k (c :: combos) (sweep_entry c r :: entries).

Lemma measured_app k cs es : measured k cs es -> forall cs' es',
  measured (k + List.length cs) cs' es' -> measured k (cs ++ cs') (es ++ es').
Proof.
  induction 1 as [k|k c r cs es Hc _ IH]; intros cs' es' H'; simpl in *.
  - now rewrite Nat.add_0_r in H'.
  - constructor; [exact Hc|]. apply IH.
    rewrite Nat.add_succ_r in H'. exact H'.
Qed.

Lemma measured_combos k cs es :
  measured k cs es -> map (fun e => (se_temperature e, se_top_p e)) es = cs.
Proof.
  induction 1 as [k|k [t p] r cs es _ _ IH]; simpl; [reflexivity|].
  now rewrite IH.
Qed.

(** Whatever the backend does, the calls of a sweep are issued in the
    order of the cross product and stop at the first one that raises. *)
Definition stops_within (calls : list GenerateTextParams)
           (run : CallLog * Exc (list SweepEntry)) (log : CallLog) : Prop :=
  (exists entries, run = ((log ++ calls)%list, inr entries))
  \/ (exists n e, run = ((log ++ firstn n calls)%list, inl e)).

Lemma top_p_loop_in_order temp tops : forall acc log,
  stops_within (map sweep_params (map (pair temp) tops))
    (top_p_loop client_generate_text user_prompt budget temp tops acc log) log.
Proof.
  induction tops as [|p tops IH]; intros acc log; simpl.
  - left. exists acc. now rewrite app_nil_r.
  - unfold se_bind, KoboldCppClient.call_generate.
    destruct (client_generate_text (List.length log) _) as [e|r] eqn:E.
    + right. exists 1%nat, e. reflexivity.
    + match goal with
      | |- stops_within _ (top_p_loop _ _ _ _ _ ?acc' ?log') _ =>
          destruct (IH acc' log') as [[entries Hrun]|(n & e & Hrun)]; rewrite Hrun
      end.
      * left. exists entries. now rewrite <- app_assoc.
      * right. exists (S n), e. now rewrite <- app_assoc.
Qed.

Lemma temperature_loop_in_order temps tops : forall acc log,
  stops_within (map sweep_params (list_prod temps tops))
    (temperature_loop client_generate_text user_prompt budget temps tops acc log) log.
Proof.
  induction temps as [|t temps IH]; intros acc log; simpl.
  - left. exists acc. now rewrite app_nil_r.
  - unfold se_bind. rewrite map_app.
    destruct (top_p_loop_in_order t tops acc log) as [[entries Hrun]|(n & e & Hrun)];
      rewrite Hrun.
    + destruct (IH entries (log ++ map sweep_params (map (pair t) tops))%list)
        as [[entries' Hrun']|(n' & e' & Hrun')]; rewrite Hrun'.
      * left. exists entries'. now rewrite <- app_assoc.
      * right. exists (List.length (map sweep_params (map (pair t) tops)) + n')%nat, e'.
        now rewrite firstn_app_2, <- app_assoc.
    + right. exists (Nat.min n (List.length (map sweep_params (map (pair t) tops)))), e.
      set (calls := map sweep_params (map (pair t) tops)).
      rewrite firstn_app.
      replace (Nat.min n (List.length calls) - List.length calls)%nat with O by lia.
      rewrite firstn_O, app_nil_r.
      f_equal. f_equal. symmetry. rewrite <- firstn_firstn.
      now rewrite firstn_all.
Qed.

Hypothesis backend_answers :
  forall k params, exists r, client_generate_text k params = inr r.

Lemma top_p_loop_measured temp tops : forall acc log,
  exists new,
    top_p_loop client_generate_text user_prompt budget temp tops acc log
    = ((log ++ map sweep_params (map (pair temp) tops))%list, inr (acc ++ new)%list)
    /\ measured (List.length log) (map (pair temp) tops) new.
Proof.
  induction tops as [|p tops IH]; intros acc log; simpl.
  - exists []. rewrite !app_nil_r. split; [reflexivity|constructor].
  - unfold se_bind, KoboldCppClient.call_generate.
    destruct (backend_answers (List.length log)
                (params_with_defaults user_prompt budget temp p)) as [r Hr].
    rewrite Hr.
    destruct (IH (acc ++ [sweep_entry (temp, p) r])%list
                 (log ++ [params_with_defaults user_prompt budget temp p])%list)
      as (new & Hrun & Hm).
    exists (sweep_entry (temp, p) r :: new).
    unfold sweep_entry in Hrun at 1. simpl in Hrun. rewrite Hrun.
    rewrite <- !app_assoc. split; [reflexivity|].
    constructor; [exact Hr|].
    rewrite length_app in Hm. simpl in Hm.
    now rewrite Nat.add_1_r in Hm.
Qed.

Lemma temperature_loop_measured temps tops : forall acc log,
  exists new,
    temperature_loop client_generate_text user_prompt budget temps tops acc log
    = ((log ++ map sweep_params (list_prod temps tops))%list, inr (acc ++ new)%list)
    /\ measured (List.length log) (list_prod temps tops) new.
Proof.
  induction temps as [|t temps IH]; intros acc log; simpl.
  - exists []. rewrite !app_nil_r. split; [reflexivity|constructor].
  - unfold se_bind.
    destruct (top_p_loop_measured t tops acc log) as (new1 & Hrun1 & Hm1).
    rewrite Hrun1.
    destruct (IH (acc ++ new1)%list
                 (log ++ map sweep_params (map (pair t) tops))%list)
      as (new2 & Hrun2 & Hm2).
    rewrite Hrun2. exists (new1 ++ new2)%list.
    rewrite map_app, <- !app_assoc. split; [reflexivity|].
    apply measured_app; [exact Hm1|].
    rewrite length_app, !length_map in Hm2. now rewrite length_map.
Qed.





End Sweep.

(** A backend whose speed depends on the rank of the call only: 1, 5, 5
    and 2 tokens per second for the first four calls. *)
Definition paced_backend (k : nat) (params : GenerateTextParams) : Exc GenerationResult :=
  inr {| text := prompt params;
         tokens_generated := 10;
         generation_time := 1;
         tokens_per_second := nth k [1; 5; 5; 2]%Q 0%Q;
         finish_reason := "stop" |}.


End ToolFacts.

(* ================================================================= *)
(** * Properties of the protocol router *)

Module RouterFacts.
Import MCP.

(** The error response for [request] with the given code and message. *)
Definition error_reply (request : MCPRequest) (c : Z) (msg : string) : MCPResponse :=
  {| resp_jsonrpc := "2.0"; resp_id := req_id request; result := None;
     error := Some {| code := c; message := msg; data := None |} |}.

Definition result_reply (request : MCPRequest) (payload : ResultPayload) : MCPResponse :=
  {| resp_jsonrpc := "2.0"; resp_id := req_id request; result := Some payload;
     error := None |}.

(** The capability requests that wait for the handshake. *)
Definition gated_methods : list string :=
  ["tools/list"; "tools/call"; "resources/list"; "resources/read"].

Lemma Id_validate_json_of_id i : Id_validate (json_of_id i) = inr i.
Proof. now destruct i. Qed.

Lemma create_error_response_request request c msg :
  _create_error_response (json_of_id (req_id request)) c msg
  = inr (error_reply request c msg).
Proof.
  unfold _create_error_response, MCPResponse_init.
  now rewrite Id_validate_json_of_id.
Qed.

Lemma response_init_request request payload :
  MCPResponse_init (json_of_id (req_id request)) (Some payload) None
  = inr (result_reply request payload).
Proof. unfold MCPResponse_init. now rewrite Id_validate_json_of_id. Qed.

(** An error response cannot be built for a null id. *)
Lemma create_error_response_null c msg :
  _create_error_response JNull c msg
  = inl (ValidationError "id: Input should be a valid string or integer").
Proof. reflexivity. Qed.

Section Facts.

Variable py_repr : Json -> string.

(** Requests in a row, each handled in the state the one before left. *)
Fixpoint run_requests (requests : list MCPRequest) (h : MCPHandler) : MCPHandler :=
  match requests with
  | [] => h
  | request :: rest => run_requests rest (fst (_handle_request py_repr request h))
  end.

(** Before the handshake, a capability request gets -32002 and nothing
    else happens. *)
Lemma gated_before_initialize h request :
  initialized h = false ->
  In (method request) gated_methods ->
  _handle_request py_repr request h
  = (h, inr (error_reply request (-32002) "Server not initialized")).
Proof.
  intros Hinit Hm. unfold gated_methods in Hm. simpl in Hm.
  unfold _handle_request, dispatch, se_try.
  destruct Hm as [<-|[<-|[<-|[<-|[]]]]]; simpl;
    unfold _handle_list_tools, _handle_call_tool, _handle_list_resources,
      _handle_read_resource, se_bind, se_get, not_initialized, se_lift;
    rewrite Hinit; simpl; now rewrite create_error_response_request.
Qed.

(** [_handle_request] always returns a response: what its handlers raise
    is turned into -32603. *)
Lemma handle_request_returns request h :
  exists h' response, _handle_request py_repr request h = (h', inr response).
Proof.
  unfold _handle_request, se_try.
  destruct (dispatch py_repr request h) as [h' [e|response]] eqn:E.
  - unfold se_lift. rewrite create_error_response_request. eauto.
  - eauto.
Qed.

(** Taking the cases of a handler apart. *)
Ltac handler_cases :=
  unfold se_try, se_bind, se_get, se_put, se_lift, se_ret, not_initialized;
  repeat (simpl;
          match goal with
          | |- context [match ?x with _ => _ end] => destruct x eqn:?
          end);
  simpl; try reflexivity; try assumption.

(** Only [initialize] writes the router's state. *)
Lemma list_tools_state request h :
  fst (_handle_list_tools request h) = h.
Proof. unfold _handle_list_tools. handler_cases. Qed.

Lemma call_tool_state request h :
  fst (_handle_call_tool py_repr request h) = h.
Proof. unfold _handle_call_tool. handler_cases. Qed.

Lemma list_resources_state request h :
  fst (_handle_list_resources request h) = h.
Proof. unfold _handle_list_resources. handler_cases. Qed.

Lemma read_resource_state request h :
  fst (_handle_read_resource py_repr request h) = h.
Proof. unfold _handle_read_resource. handler_cases. Qed.

Lemma initialize_state request h :
  initialized h = true ->
  initialized (fst (_handle_initialize py_repr request h)) = true.
Proof. intros Hinit. unfold _handle_initialize. handler_cases. Qed.

Lemma handle_request_state request h :
  fst (_handle_request py_repr request h) = fst (dispatch py_repr request h).
Proof.
  unfold _handle_request, se_try, se_lift.
  now destruct (dispatch py_repr request h) as [h' [e|response]].
Qed.

(** No request takes the session back: only [handle_connection] resets
    the flag, when the connection ends. *)
Lemma initialized_kept request h :
  initialized h = true ->
  initialized (fst (_handle_request py_repr request h)) = true.
Proof.
  intros Hinit. rewrite handle_request_state. unfold dispatch.
  repeat match goal with
         | |- context [if String.eqb ?a ?b then _ else _] =>
             destruct (String.eqb a b)
         end.
  - now apply initialize_state.
  - now rewrite list_tools_state.
  - now rewrite call_tool_state.
  - now rewrite list_resources_state.
  - now rewrite read_resource_state.
  - exact Hinit.
Qed.

Lemma initialized_kept_run requests : forall h,
  initialized h = true -> initialized (run_requests requests h) = true.
Proof.
  induction requests as [|r rs IH]; intros h Hinit; simpl; [assumption|].
  apply IH. now apply initialized_kept.
Qed.

(** Once initialized, [tools/list] returns the registered declarations. *)
Lemma list_tools_initialized h request :
  initialized h = true ->
  method request = "tools/list" ->
  _handle_request py_repr request h
  = (h, inr (result_reply request
               (ToolsListing (map tool_definition (dict_values (tools h)))))).
Proof.
  intros Hinit Hm. unfold _handle_request, dispatch, se_try. rewrite Hm. simpl.
  unfold _handle_list_tools, se_bind, se_get, se_lift. rewrite Hinit. simpl.
  now rewrite response_init_request.
Qed.

(** An [initialize] with the supported version and a [clientInfo] that is
    absent or a mapping succeeds. *)
Lemma initialize_succeeds h request :
  method request = "initialize" ->
  dict_get (list_or_empty (params request)) "protocolVersion"
  = Some (JStr "2024-11-05") ->
  (forall v, dict_get (list_or_empty (params request)) "clientInfo" = Some v ->
             exists d, v = JDict d) ->
  exists h' payload,
    _handle_request py_repr request h = (h', inr (result_reply request payload))
    /\ initialized h' = true.
Proof.
  intros Hm Hv Hci. unfold _handle_request, dispatch, se_try. rewrite Hm. simpl.
  unfold _handle_initialize, dict_get_default. rewrite Hv. simpl.
  unfold se_bind, se_get, se_put, se_lift. simpl.
  destruct (dict_get (list_or_empty (params request)) "clientInfo") as [v|] eqn:E.
  - destruct (Hci v eq_refl) as [d ->]. simpl.
    unfold InitializeResponse. rewrite response_init_request. eauto.
  - simpl. unfold InitializeResponse. rewrite response_init_request. eauto.
Qed.

(** The gate on the state of the handler, which is what the requests
    test.  While the handler is not initialized, each of [tools/list],
    [tools/call], [resources/list] and [resources/read] is answered with
    error -32002, whatever its params and whatever is registered, and the
    state is left as it was.  When an [initialize] request with protocol
    version "2024-11-05" is answered without an error, the handler is
    initialized, and a [tools/list] request that comes later, after any
    further requests, is answered with a result: the registered tool
    declarations. *)
Lemma initialize_gate (h : MCPHandler) (request : MCPRequest) :
  (initialized h = false ->
   In (method request) gated_methods ->
   _handle_request py_repr request h
   = (h, inr (error_reply request (-32002) "Server not initialized")))
  /\ (method request = "initialize" ->
      dict_get (list_or_empty (params request)) "protocolVersion"
      = Some (JStr "2024-11-05") ->
      forall h' response,
        _handle_request py_repr request h = (h', inr response) ->
        error response = None ->
        initialized h' = true
        /\ forall (between : list MCPRequest) (listing : MCPRequest),
             method listing = "tools/list" ->
             _handle_request py_repr listing (run_requests between h')
             = (run_requests between h',
                inr (result_reply listing
                       (ToolsListing
                          (map tool_definition
                               (dict_values (tools (run_requests between h')))))))).
Proof.
  split; [apply gated_before_initialize|].
  intros Hm Hv h' response Hrun Hok.
  assert (Hinit : initialized h' = true).
  { revert Hrun. unfold _handle_request, dispatch, se_try. rewrite Hm. simpl.
    unfold _handle_initialize, dict_get_default. rewrite Hv. simpl.
    unfold se_bind, se_get, se_put, se_lift. simpl.
    destruct (client_info_line _ _) as [e|line]; simpl.
    - rewrite create_error_response_request. intros [= <- <-]. discriminate Hok.
    - unfold InitializeResponse. rewrite response_init_request.
      now intros [= <- <-]. }
  split; [exact Hinit|].
  intros between listing Hl.
  apply list_tools_initialized; [|exact Hl].
  now apply initialized_kept_run.
Qed.

(** A tool call on an initialized session ends in the [except] of
    [_handle_request]: reading [request.params.name] raises before the
    registry is looked at and before any handler is called. *)
Lemma call_tool_initialized h request :
  initialized h = true ->
  method request = "tools/call" ->
  _handle_request py_repr request h
  = (h, inr (error_reply request (-32603)
               ("Internal error: "
                  ++ match params request with
                     | None => "'NoneType' object has no attribute 'name'"
                     | Some _ => "'dict' object has no attribute 'name'"
                     end))).
Proof.
  intros Hinit Hm. unfold _handle_request, dispatch, se_try. rewrite Hm. simpl.
  unfold _handle_call_tool, se_bind, se_get, se_lift. rewrite Hinit. simpl.
  destruct (params request); simpl; now rewrite create_error_response_request.
Qed.

(** [resources/read] on an initialized session, with params that are a
    mapping: no [uri] gives -32602, a [uri] that is a non-empty string and
    not registered gives -32601. *)
Lemma read_resource_missing_uri h request d :
  initialized h = true ->
  method request = "resources/read" ->
  params request = Some d ->
  dict_get d "uri" = None ->
  _handle_request py_repr request h
  = (h, inr (error_reply request (-32602) "Missing required parameter: uri")).
Proof.
  intros Hinit Hm Hp Hu. unfold _handle_request, dispatch, se_try. rewrite Hm. simpl.
  unfold _handle_read_resource, se_bind, se_get, se_lift. rewrite Hinit. simpl.
  rewrite Hp. unfold params_get, dict_get_default. rewrite Hu. simpl.
  now rewrite create_error_response_request.
Qed.

Lemma read_resource_unknown_uri h request d uri :
  initialized h = true ->
  method request = "resources/read" ->
  params request = Some d ->
  dict_get d "uri" = Some (JStr uri) ->
  uri <> "" ->
  dict_mem (resources h) uri = false ->
  _handle_request py_repr request h
  = (h, inr (error_reply request (-32601) ("Resource not found: " ++ uri))).
Proof.
  intros Hinit Hm Hp Hu Hne Hmem.
  unfold _handle_request, dispatch, se_try. rewrite Hm. simpl.
  unfold _handle_read_resource, se_bind, se_get, se_lift. rewrite Hinit. simpl.
  rewrite Hp. unfold params_get, dict_get_default. rewrite Hu. simpl.
  destruct (String.eqb uri "") eqn:E; [apply String.eqb_eq in E; contradiction|].
  simpl. rewrite Hmem. simpl. now rewrite create_error_response_request.
Qed.

(** C5.  For a message that [json.loads] refuses, [_process_message]
    builds the -32700 response with [None] as its id; the response model
    declares the id as a string or an integer, so the construction raises
    and nothing is sent.  In [handle_connection] the handler of that
    exception builds a null-id response again, which raises again: the
    read loop is left, the messages that follow are not read, and the
    session is reset. *)
Theorem parse_error_not_answered (err : string) (rest : list Inbound) (c : Connection) :
  _process_message py_repr (Unparseable err) c
  = (c, inl (ValidationError "id: Input should be a valid string or integer"))
  /\ handle_connection py_repr (Unparseable err :: rest) c
     = ({| handler_state := set_initialized false (handler_state c);
           sent := sent c |},
        Aborted (ValidationError "id: Input should be a valid string or integer")).
Proof. split; reflexivity. Qed.

(** *** Two connections on one handler *)

(** The frames of a client: the handshake with the supported version,
    and a [tools/list]. *)
Definition handshake_frame (i : Z) : Inbound :=
  Parsed (JDict [("jsonrpc", JStr "2.0"); ("id", JInt i);
                 ("method", JStr "initialize");
                 ("params", JDict [("protocolVersion", JStr "2024-11-05")])]).

Definition listing_frame (i : Z) : Inbound :=
  Parsed (JDict [("jsonrpc", JStr "2.0"); ("id", JInt i);
                 ("method", JStr "tools/list")]).

(** The answers to them. *)
Definition initialize_reply (i : Z) : MCPResponse :=
  {| resp_jsonrpc := "2.0"; resp_id := IdInt i;
     result :=
       Some (InitializeResult "2024-11-05"
               (JDict [("tools", JDict [("listChanged", JBool true)]);
                       ("resources", JDict [("listChanged", JBool true)])])
               (JDict [("name", JStr "koboldcpp-mcp-server");
                       ("version", JStr "1.0.0")]));
     error := None |}.

Definition listing_reply (i : Z) (h : MCPHandler) : MCPResponse :=
  {| resp_jsonrpc := "2.0"; resp_id := IdInt i;
     result := Some (ToolsListing (map tool_definition (dict_values (tools h))));
     error := None |}.

Definition not_initialized_reply (i : Z) : MCPResponse :=
  {| resp_jsonrpc := "2.0"; resp_id := IdInt i; result := None;
     error := Some {| code := -32002; message := "Server not initialized";
                      data := None |} |}.

Lemma handshake_step i h out :
  message_loop py_repr [handshake_frame i] {| handler_state := h; sent := out |}
  = ({| handler_state := set_initialized true (set_client_capabilities (JDict []) h);
        sent := (out ++ [initialize_reply i])%list |},
     inr tt).
Proof. reflexivity. Qed.

Lemma listing_step i h out :
  message_loop py_repr [listing_frame i] {| handler_state := h; sent := out |}
  = ({| handler_state := h;
        sent := (out ++ [if initialized h then listing_reply i h
                         else not_initialized_reply i])%list |},
     inr tt).
Proof.
  unfold message_loop, listing_frame, _process_message.
  repeat (unfold se_bind, se_try, se_lift, se_ret, with_handler, _handle_request,
            dispatch, _handle_list_tools, se_get, not_initialized, send;
          cbn -[app]).
  destruct (initialized h); reflexivity.
Qed.

(** C6, as the code has it: the flag that the requests test belongs to
    the handler, and the server has one handler for all its connections.
    On a server that is not initialized, with two connections [a] and
    [b]: a [tools/list] of [b] is refused with -32002; but once [a] has
    done the handshake, the [tools/list] of [b], which has sent no
    [initialize], is answered with the tool declarations; and when [b]
    closes after the handshake of [a], the [tools/list] of [a] is refused
    with -32002, although [a] has initialized and is still connected. *)
Theorem session_flag_is_shared (s : Server) (a b : nat) (i j : Z) :
  a <> b ->
  initialized (mcp_handler s) = false ->
  outbox (serve py_repr [Frame b (listing_frame j)] s) b
  = (outbox s b ++ [not_initialized_reply j])%list
  /\ outbox (serve py_repr [Frame a (handshake_frame i);
                            Frame b (listing_frame j)] s) b
     = (outbox s b ++ [listing_reply j (mcp_handler s)])%list
  /\ outbox (serve py_repr [Frame a (handshake_frame i);
                            Hangup b;
                            Frame a (listing_frame j)] s) a
     = (outbox s a ++ [initialize_reply i; not_initialized_reply j])%list.
Proof.
  intros Hab Hinit.
  assert (Hba : Nat.eqb b a = false) by (apply Nat.eqb_neq; congruence).
  unfold serve. cbn [fold_left]. unfold serve_event, connection_of.
  split; [|split].
  - rewrite listing_step. cbn [outbox sent set_outbox].
    unfold set_outbox. now rewrite Nat.eqb_refl, Hinit.
  - rewrite handshake_step. cbn [mcp_handler outbox sent handler_state].
    rewrite listing_step. cbn [outbox sent].
    unfold set_outbox. now rewrite Nat.eqb_refl, Hba.
  - rewrite handshake_step. cbn [mcp_handler outbox sent handler_state].
    rewrite listing_step. cbn [outbox sent].
    unfold set_outbox. rewrite Nat.eqb_refl. cbn [initialized set_initialized].
    now rewrite <- app_assoc.
Qed.

(** The read loop, one pass at a time. *)
Lemma message_loop_cons m rest c :
  message_loop py_repr (m :: rest) c
  = match message_loop py_repr [m] c with
    | (c1, inr _) => message_loop py_repr rest c1
    | (c1, inl e) => (c1, inl e)
    end.
Proof.
  cbn [message_loop]. unfold se_bind at 1 3.
  destruct (se_try _ _ c) as [c1 [e|u]]; reflexivity.
Qed.

(** One connection alone, whose loop is not left by an exception: the
    events of its life do to the server what [handle_connection] does to
    the connection. *)
Lemma serve_frames conn messages : forall s c',
  message_loop py_repr messages (connection_of s conn) = (c', inr tt) ->
  mcp_handler (serve py_repr (map (Frame conn) messages) s) = handler_state c'
  /\ outbox (serve py_repr (map (Frame conn) messages) s) conn = sent c'
  /\ forall k, k <> conn ->
       outbox (serve py_repr (map (Frame conn) messages) s) k = outbox s k.
Proof.
  unfold serve.
  induction messages as [|m messages IH]; intros s c' Hrun.
  - injection Hrun as <-. repeat split.
  - rewrite message_loop_cons in Hrun. cbn [map fold_left].
    destruct (message_loop py_repr [m] (connection_of s conn))
      as [c1 [e|u]] eqn:E1; [discriminate|].
    set (s1 := {| mcp_handler := handler_state c1;
                  outbox := set_outbox conn (sent c1) (outbox s) |}).
    assert (Hs1 : serve_event py_repr (Frame conn m) s = s1)
      by (unfold serve_event; now rewrite E1).
    rewrite Hs1.
    assert (Hc1 : connection_of s1 conn = c1).
    { unfold connection_of, s1, set_outbox. cbn [mcp_handler outbox].
      rewrite Nat.eqb_refl. now destruct c1. }
    rewrite <- Hc1 in Hrun. destruct (IH s1 c' Hrun) as (Hh & Ho & Hk).
    split; [exact Hh|]. split; [exact Ho|].
    intros k Hne. rewrite (Hk k Hne). unfold s1, set_outbox. cbn [outbox].
    apply Nat.eqb_neq in Hne. now rewrite Hne.
Qed.

Lemma serve_one_connection conn messages s :
  snd (message_loop py_repr messages (connection_of s conn)) = inr tt ->
  let s' := serve py_repr (map (Frame conn) messages ++ [Hangup conn]) s in
  let c' := fst (handle_connection py_repr messages (connection_of s conn)) in
  mcp_handler s' = handler_state c'
  /\ outbox s' conn = sent c'
  /\ forall k, k <> conn -> outbox s' k = outbox s k.
Proof.
  intros Hok s' c'. subst s' c'. unfold handle_connection.
  destruct (message_loop py_repr messages (connection_of s conn))
    as [c1 r] eqn:Hrun.
  simpl in Hok. subst r.
  destruct (serve_frames conn messages s c1 Hrun) as (Hh & Ho & Hk).
  unfold serve in *. rewrite fold_left_app. cbn [fold_left serve_event].
  cbn [mcp_handler outbox fst handler_state sent].
  now rewrite Hh.
Qed.

End Facts.

(** *** A served registry *)

Definition generate_text_definition : ToolDefinition :=
  {| td_name := "generate_text";
     td_description := "Generate text using KoboldCpp with configurable parameters.";
     td_inputSchema :=
       JDict [("type", JStr "object");
              ("properties",
                 JDict [("prompt", JDict [("type", JStr "string")]);
                        ("max_tokens", JDict [("type", JStr "integer")])]);
              ("required", JList [JStr "prompt"])] |}.

Definition model_info_definition : ResourceDefinition :=
  {| rd_uri := "koboldcpp://model/info";
     rd_name := "Model Information";
     rd_description := Some "Current KoboldCpp model information and capabilities";
     rd_mimeType := Some "application/json" |}.

(** A [generate_text] tool whose handler raises on every call, as the
    tool does for a prompt that is too long. *)
Definition rejecting_tool (kw : dict Json) : Exc ToolOutput :=
  raise (ValueError "Prompt exceeds maximum length of 8192").

Definition model_info (uri : string) : Exc (dict Json) :=
  ret [("contents",
          JList [JDict [("uri", JStr uri);
                        ("mimeType", JStr "application/json");
                        ("text", JStr "{}")]])].

(** The router after start-up, before any handshake. *)
Definition served : MCPHandler :=
  register_resource "koboldcpp://model/info" model_info model_info_definition
    (register_tool "generate_text" rejecting_tool generate_text_definition
       new_handler).

Definition request_of (i : Z) (m : string) (p : option (dict Json)) : MCPRequest :=
  {| req_jsonrpc := "2.0"; req_id := IdInt i; method := m; params := p |}.

Definition initialize_request : MCPRequest :=
  request_of 1 "initialize"
    (Some [("protocolVersion", JStr "2024-11-05");
           ("capabilities", JDict []);
           ("clientInfo", JDict [("name", JStr "claude-code");
                                 ("version", JStr "1.0.0")])]).

Definition no_repr (v : Json) : string := "<value>".

(** On the served registry: [tools/list] is refused before the handshake;
    the handshake succeeds; [tools/list] then lists the tool. *)
Lemma initialize_gate_witness :
  snd (_handle_request no_repr (request_of 2 "tools/list" None) served)
  = inr (error_reply (request_of 2 "tools/list" None) (-32002)
           "Server not initialized")
  /\ initialized (fst (_handle_request no_repr initialize_request served)) = true
  /\ snd (_handle_request no_repr (request_of 2 "tools/list" None)
            (fst (_handle_request no_repr initialize_request served)))
     = inr (result_reply (request_of 2 "tools/list" None)
              (ToolsListing [generate_text_definition])).
Proof.
  split.
  - exact (f_equal snd
             (proj1 (initialize_gate no_repr served (request_of 2 "tools/list" None))
                    eq_refl (or_introl eq_refl))).
  - destruct (proj2 (initialize_gate no_repr served initialize_request)
                eq_refl eq_refl
                (fst (_handle_request no_repr initialize_request served))
                (result_reply initialize_request
                   (InitializeResult "2024-11-05"
                      (JDict [("tools", JDict [("listChanged", JBool true)]);
                              ("resources", JDict [("listChanged", JBool true)])])
                      (JDict [("name", JStr "koboldcpp-mcp-server");
                              ("version", JStr "1.0.0")])))
                eq_refl eq_refl) as [Hinit Hlist].
    split; [exact Hinit|].
    exact (f_equal snd (Hlist [] (request_of 2 "tools/list" None) eq_refl)).
Defined.

(** The served registry and two connections, 0 and 1: connection 1 is
    refused while nobody has initialized, is served after the handshake
    of connection 0, and its hang-up takes the session of connection 0
    away. *)
Lemma session_flag_is_shared_witness :
  outbox (serve no_repr [Frame 1 (listing_frame 2)]
            {| mcp_handler := served; outbox := fun _ => [] |}) 1
  = [not_initialized_reply 2]
  /\ outbox (serve no_repr [Frame 0 (handshake_frame 1); Frame 1 (listing_frame 2)]
               {| mcp_handler := served; outbox := fun _ => [] |}) 1
     = [listing_reply 2 served]
  /\ outbox (serve no_repr [Frame 0 (handshake_frame 1); Hangup 1;
                            Frame 0 (listing_frame 2)]
               {| mcp_handler := served; outbox := fun _ => [] |}) 0
     = [initialize_reply 1; not_initialized_reply 2].
Proof.
  exact (session_flag_is_shared no_repr
           {| mcp_handler := served; outbox := fun _ => [] |} 0 1 1 2
           ltac:(discriminate) eq_refl).
Defined.

(** Before the handshake, a [tools/list] whose envelope does not
    validate (its params are a list) is answered with -32603, not with
    -32002: the envelope is validated before the request is routed. *)
Example invalid_envelope_before_initialize :
  _process_message no_repr
    (Parsed (JDict [("jsonrpc", JStr "2.0"); ("id", JInt 3);
                    ("method", JStr "tools/list"); ("params", JList [])]))
    {| handler_state := served; sent := [] |}
  = ({| handler_state := served;
        sent := [error_reply (request_of 3 "tools/list" None) (-32603)
                   "Internal error: params: Input should be a valid dictionary"] |},
     inr tt).
Proof. reflexivity. Qed.

(** C3, at a [tools/call] that names a tool that is not registered, on an
    initialized session: the answer is -32603, not -32601.  The router
    reads [request.params.name] on a request whose params are a plain
    dict; that raises, and [_handle_request] turns it into an internal
    error before the registry is consulted. *)
Theorem unknown_tool_call_internal_error (py_repr : Json -> string) :
  let h := set_initialized true served in
  let request :=
    request_of 7 "tools/call"
      (Some [("name", JStr "no_such_tool"); ("arguments", JDict [])]) in
  initialized h = true
  /\ dict_mem (tools h) "no_such_tool" = false
  /\ _handle_request py_repr request h
     = (h, inr (error_reply request (-32603)
                  "Internal error: 'dict' object has no attribute 'name'")).
Proof. repeat split. Qed.

(** C4, at a [tools/call] that names the registered tool [generate_text],
    whose handler raises, on an initialized session: the answer is the
    protocol error -32603 and carries no result.  The handler is not
    reached, so its exception is not the one reported. *)
Theorem failing_tool_call_internal_error (py_repr : Json -> string) :
  let h := set_initialized true served in
  let request :=
    request_of 8 "tools/call"
      (Some [("name", JStr "generate_text");
             ("arguments", JDict [("prompt", JStr "Hello")])]) in
  initialized h = true
  /\ option_map (fun entry => tool_handler entry [("prompt", JStr "Hello")])
                (dict_get (tools h) "generate_text")
     = Some (inl (ValueError "Prompt exceeds maximum length of 8192"))
  /\ _handle_request py_repr request h
     = (h, inr (error_reply request (-32603)
                  "Internal error: 'dict' object has no attribute 'name'"))
  /\ result (error_reply request (-32603)
               "Internal error: 'dict' object has no attribute 'name'") = None.
Proof. repeat split. Qed.

(** What the [except] clause of [_handle_call_tool] would answer for that
    exception, had the [try] been entered. *)
Example call_tool_except_reply :
  call_tool_except (request_of 8 "tools/call" None)
    (ValueError "Prompt exceeds maximum length of 8192")
  = inr (result_reply (request_of 8 "tools/call" None)
           (ToolCallResult
              {| content :=
                   [JDict [("type", JStr "text");
                           ("text", JStr "Tool execution failed: Prompt exceeds maximum length of 8192")]];
                 isError := true |})).
Proof. reflexivity. Qed.

(** A parse failure as the first message: nothing is sent and the
    handshake that follows is not read. *)
Example parse_error_closes_connection :
  handle_connection no_repr
    [Unparseable "Expecting value: line 1 column 1 (char 0)";
     Parsed (JDict [("jsonrpc", JStr "2.0"); ("id", JInt 1);
                    ("method", JStr "initialize");
                    ("params", JDict [("protocolVersion", JStr "2024-11-05")])])]
    {| handler_state := served; sent := [] |}
  = ({| handler_state := served; sent := [] |},
     Aborted (ValidationError "id: Input should be a valid string or integer")).
Proof. reflexivity. Qed.

(** The same handshake alone is answered. *)
Example handshake_answered :
  handle_connection no_repr
    [Parsed (JDict [("jsonrpc", JStr "2.0"); ("id", JInt 1);
                    ("method", JStr "initialize");
                    ("params", JDict [("protocolVersion", JStr "2024-11-05")])])]
    {| handler_state := served; sent := [] |}
  = ({| handler_state := served;
        sent := [result_reply initialize_request
                   (InitializeResult "2024-11-05"
                      (JDict [("tools", JDict [("listChanged", JBool true)]);
                              ("resources", JDict [("listChanged", JBool true)])])
                      (JDict [("name", JStr "koboldcpp-mcp-server");
                              ("version", JStr "1.0.0")]))] |},
     ClientClosed).
Proof. reflexivity. Qed.

End RouterFacts.

(* ================================================================= *)
(** * Further properties of the retry loop *)

Module RetryMore.
Import KoboldCppClient RetryFacts.

(** X1.  With a permit of the request gate and a retry limit that is not
    negative, [_make_request] ends at some attempt [n] that is no later
    than the limit and no later than attempt 1024: what it returns or
    raises is what attempt [n] returned or raised (at attempt 1024, the
    [OverflowError] of the delay), and the delays slept up to then are
    [retry_delay * 2 ** k] for [k = 0, ..., n - 1], so at most
    [max_retries] of them. *)
Theorem make_request_bounded (config : KoboldCppConfig) (permits : N)
        (http : nat -> attempt_outcome) (retries : option Z) (slept : list Q) :
  let limit := match retries with Some r => r | None => max_retries config end in
  (0 < permits)%N ->
  0 <= limit ->
  exists n,
    Z.of_nat n <= limit
    /\ (n <= 1024)%nat
    /\ fst (_make_request config permits http retries slept)
       = (slept ++ delays config n)%list
    /\ match snd (_make_request config permits http retries slept) with
       | Done (inr payload) => attempt_step config limit n (http n) = Return payload
       | Done (inl e) => attempt_step config limit n (http n) = Raise e
       | Blocked => False
       end.
Proof.
  intros limit Hp Hpos. rewrite make_request_with_permit by exact Hp.
  fold limit. cbn [fst snd].
  destruct (attempts_trace config http limit (Z.to_nat (limit + 1)) O slept)
    as (n & _ & Hle & Hmax & Hfst & Hsnd); [lia|lia|].
  exists n. rewrite Nat.sub_0_r in Hfst. simpl in Hmax. auto.
Qed.

Lemma make_request_bounded_witness :
  exists n,
    Z.of_nat n <= 3
    /\ fst (_make_request (koboldcpp default_settings) 5
              (fun k => if (k <? 2)%nat then Responded 503 JNull "busy"
                        else Responded 200 (JStr "ok") "")
              None [])
       = delays (koboldcpp default_settings) n
    /\ n = 2%nat.
Proof.
  destruct (make_request_bounded (koboldcpp default_settings) 5
              (fun k => if (k <? 2)%nat then Responded 503 JNull "busy"
                        else Responded 200 (JStr "ok") "")
              None [] ltac:(reflexivity) ltac:(simpl; lia))
    as (n & Hle & _ & Hfst & _).
  exists n. split; [exact Hle|]. split; [exact Hfst|].
  apply (f_equal (@List.length Q)) in Hfst.
  unfold delays in Hfst. rewrite length_app, length_map, length_seq in Hfst.
  vm_compute in Hfst. symmetry. exact Hfst.
Defined.

(** X2.  Before the last attempt every answer other than 200 is retried,
    not only 502, 503 and 504: with a permit of the gate, after [n]
    retried outcomes, [n] within the limit and no more than 1024, a 200
    is returned, the delays slept being the first [n] of the exponential
    sequence. *)
Theorem make_request_retries_any_status (config : KoboldCppConfig) (permits : N)
        (http : nat -> attempt_outcome) (retries : option Z) (slept : list Q)
        (n : nat) (payload : Json) (error_text : string) :
  let limit := match retries with Some r => r | None => max_retries config end in
  (0 < permits)%N ->
  Z.of_nat n <= limit ->
  (n <= 1024)%nat ->
  (forall k, (k < n)%nat -> retried (http k) = true) ->
  http n = Responded 200 payload error_text ->
  _make_request config permits http retries slept
  = ((slept ++ delays config n)%list, Done (inr payload)).
Proof.
  intros limit Hp Hle Hk Hr Hok.
  rewrite (make_request_after_retries config http permits retries slept n Hp Hle Hk Hr).
  cbn [attempts]. rewrite Hok. reflexivity.
Qed.

(** A 404 and a 500, then a 200, under the default limit of three. *)
Lemma make_request_retries_any_status_witness :
  _make_request (koboldcpp default_settings) 5
    (fun k => nth k [Responded 404 JNull "Not Found";
                     Responded 500 JNull "Internal Server Error"]
                (Responded 200 (JStr "ok") ""))
    None []
  = ([1; 2]%Q, Done (inr (JStr "ok"))).
Proof.
  exact (make_request_retries_any_status (koboldcpp default_settings) 5
           (fun k => nth k [Responded 404 JNull "Not Found";
                            Responded 500 JNull "Internal Server Error"]
                       (Responded 200 (JStr "ok") ""))
           None [] 2 (JStr "ok") ""
           ltac:(reflexivity)
           ltac:(simpl; lia)
           ltac:(lia)
           ltac:(intros [|[|k]] Hk; try reflexivity; lia)
           eq_refl).
Defined.

(** X3.  An exception that is neither a [ClientError] nor a timeout is
    not retried: with a permit of the gate, after [n] retried outcomes,
    [n] within the limit and no more than 1024, it leaves
    [_make_request] at the attempt that raised it, and no delay is slept
    for it. *)
Theorem make_request_propagates_other (config : KoboldCppConfig) (permits : N)
        (http : nat -> attempt_outcome) (retries : option Z) (slept : list Q)
        (n : nat) (e : exn) :
  let limit := match retries with Some r => r | None => max_retries config end in
  (0 < permits)%N ->
  Z.of_nat n <= limit ->
  (n <= 1024)%nat ->
  (forall k, (k < n)%nat -> retried (http k) = true) ->
  http n = Failed e ->
  caught_by_retry e = false ->
  _make_request config permits http retries slept
  = ((slept ++ delays config n)%list, Done (inl e)).
Proof.
  intros limit Hp Hle Hk Hr Hraise Hother.
  rewrite (make_request_after_retries config http permits retries slept n Hp Hle Hk Hr).
  cbn [attempts]. rewrite Hraise. unfold attempt_step, try_body, except_clause.
  rewrite Hother. reflexivity.
Qed.

Lemma make_request_propagates_other_witness :
  _make_request (koboldcpp default_settings) 5
    (fun _ => Failed (ValueError "Expecting value")) None []
  = ([], Done (inl (ValueError "Expecting value"))).
Proof.
  exact (make_request_propagates_other (koboldcpp default_settings) 5
           (fun _ => Failed (ValueError "Expecting value")) None [] 0
           (ValueError "Expecting value")
           ltac:(reflexivity) ltac:(simpl; lia) ltac:(lia)
           ltac:(intros k Hk; lia) eq_refl eq_refl).
Defined.

(** The retries do not go on for ever: when the limit is beyond 1024 and
    the first 1025 attempts are of the kind that is retried, attempt
    1024 ends in the [OverflowError] of its delay. *)
Lemma make_request_backoff_overflow (config : KoboldCppConfig) (permits : N)
      (http : nat -> attempt_outcome) (retries : option Z) (slept : list Q) :
  let limit := match retries with Some r => r | None => max_retries config end in
  (0 < permits)%N ->
  1024 < limit ->
  (forall k, (k <= 1024)%nat -> retried (http k) = true) ->
  _make_request config permits http retries slept
  = ((slept ++ delays config 1024)%list, Done (inl backoff_overflow)).
Proof.
  intros limit Hp Hbig Hr.
  rewrite (make_request_after_retries config http permits retries slept 1024 Hp
             ltac:(fold limit; lia) ltac:(lia) (fun k Hk => Hr k ltac:(lia))).
  cbn [attempts]. rewrite step_overflow; [reflexivity|apply Hr; lia|lia|lia].
Qed.

End RetryMore.

(* ================================================================= *)
(** * Further properties of the protocol router *)

Module RouterMore.
Import MCP RouterFacts.

(** A protocol-correct answer to [request]: its id, and a result or an
    error, never both and never neither. *)
Definition answers (request : MCPRequest) (response : MCPResponse) : Prop :=
  resp_jsonrpc response = "2.0"
  /\ resp_id response = req_id request
  /\ ((result response = None /\ error response <> None)
      \/ (result response <> None /\ error response = None)).

Lemma error_reply_answers request c msg : answers request (error_reply request c msg).
Proof. repeat split. left. split; [reflexivity|discriminate]. Qed.

Lemma result_reply_answers request payload :
  answers request (result_reply request payload).
Proof. repeat split. right. split; [discriminate|reflexivity]. Qed.

(** The methods with a handler of their own. *)
Definition known_methods : list string :=
  ["initialize"; "tools/list"; "tools/call"; "resources/list"; "resources/read"].

Section More.

Variable py_repr : Json -> string.

(** What a handler leaves behind: an exception, or a reply to the request
    that is an error reply or a result reply. *)
Definition replies (request : MCPRequest) (r : Exc MCPResponse) : Prop :=
  match r with
  | inl _ => True
  | inr response => answers request response
  end.

Ltac reply_cases :=
  unfold se_try, se_bind, se_get, se_put, se_lift, se_ret, not_initialized,
    InitializeResponse, call_tool_body, call_tool_except, read_resource_body, bind;
  rewrite ?create_error_response_request, ?response_init_request;
  repeat (simpl;
          rewrite ?create_error_response_request, ?response_init_request;
          match goal with
          | |- context [match ?x with _ => _ end] =>
              lazymatch x with
              | context [match _ with _ => _ end] => fail
              | _ => destruct x eqn:?
              end
          end);
  simpl; rewrite ?create_error_response_request, ?response_init_request;
  simpl; auto using error_reply_answers, result_reply_answers.

Lemma dispatch_replies request h :
  replies request (snd (dispatch py_repr request h)).
Proof.
  unfold dispatch.
  repeat match goal with
         | |- context [if String.eqb ?a ?b then _ else _] =>
             destruct (String.eqb a b)
         end.
  - unfold _handle_initialize. reply_cases.
  - unfold _handle_list_tools. reply_cases.
  - unfold _handle_call_tool. reply_cases.
  - unfold _handle_list_resources. reply_cases.
  - unfold _handle_read_resource. reply_cases.
  - reply_cases.
Qed.

Lemma handle_request_replies (request : MCPRequest) (h : MCPHandler) :
  exists h' response,
    _handle_request py_repr request h = (h', inr response)
    /\ answers request response.
Proof.
  pose proof (dispatch_replies request h) as Hd.
  unfold _handle_request, se_try, se_lift.
  destruct (dispatch py_repr request h) as [h' [e|response]]; simpl in Hd.
  - rewrite create_error_response_request.
    eexists _, _. split; [reflexivity|apply error_reply_answers].
  - eexists _, _. split; [reflexivity|exact Hd].
Qed.

(** X4.  [_handle_request] never raises: whatever the request, the
    registry and the handlers do, it returns a response that carries the
    id of the request and exactly one of a result and an error. *)
Theorem handle_request_answers (request : MCPRequest) (h : MCPHandler) :
  exists h' response,
    _handle_request py_repr request h = (h', inr response)
    /\ resp_jsonrpc response = "2.0"
    /\ resp_id response = req_id request
    /\ ((result response = None /\ error response <> None)
        \/ (result response <> None /\ error response = None)).
Proof.
  destruct (handle_request_replies request h) as (h' & response & Hrun & Ha).
  exists h', response. split; [exact Hrun|exact Ha].
Qed.

Ltac state_cases :=
  unfold se_try, se_bind, se_get, se_put, se_lift, se_ret, not_initialized;
  repeat (simpl;
          match goal with
          | |- context [match ?x with _ => _ end] =>
              lazymatch x with
              | context [match _ with _ => _ end] => fail
              | _ => destruct x eqn:?
              end
          end);
  simpl; auto.

Lemma initialize_registry request h :
  tools (fst (_handle_initialize py_repr request h)) = tools h
  /\ resources (fst (_handle_initialize py_repr request h)) = resources h.
Proof. unfold _handle_initialize. state_cases. Qed.

Lemma registry_kept (request : MCPRequest) (h : MCPHandler) :
  tools (fst (_handle_request py_repr request h)) = tools h
  /\ resources (fst (_handle_request py_repr request h)) = resources h
  /\ (initialized h = true ->
      initialized (fst (_handle_request py_repr request h)) = true)
  /\ (method request <> "initialize" ->
      fst (_handle_request py_repr request h) = h).
Proof.
  split; [|split; [|split]].
  3: apply initialized_kept.
  all: rewrite handle_request_state; unfold dispatch.
  all: destruct (String.eqb (method request) "initialize") eqn:E;
    [try apply initialize_registry;
     try (apply String.eqb_eq in E; intros Hm; contradiction)|].
  all: repeat match goal with
         | |- context [if String.eqb ?a ?b then _ else _] =>
             destruct (String.eqb a b)
         end;
    rewrite ?list_tools_state, ?call_tool_state, ?list_resources_state,
      ?read_resource_state; auto.
Qed.

(** X5.  Requests never touch the registry, and none of them takes an
    initialized session back; only [initialize] writes the state at
    all. *)
Theorem registry_read_only (request : MCPRequest) (h : MCPHandler) :
  let h' := fst (_handle_request py_repr request h) in
  tools h' = tools h
  /\ resources h' = resources h
  /\ (initialized h = true -> initialized h' = true)
  /\ (method request <> "initialize" -> h' = h).
Proof. exact (registry_kept request h). Qed.

(** X6.  An [initialize] whose protocol version is not "2024-11-05"
    (absent, another string, not a string) is answered with -32602 and
    leaves the session as it was, so that the client may try again. *)
Theorem initialize_version_mismatch (request : MCPRequest) (h : MCPHandler) :
  method request = "initialize" ->
  dict_get (list_or_empty (params request)) "protocolVersion"
  <> Some (JStr "2024-11-05") ->
  _handle_request py_repr request h
  = (h, inr (error_reply request (-32602)
               ("Unsupported protocol version: "
                  ++ py_str py_repr
                       (dict_get_default (list_or_empty (params request))
                          "protocolVersion" JNull)))).
Proof.
  intros Hm Hv. unfold _handle_request, dispatch, se_try. rewrite Hm. simpl.
  unfold _handle_initialize, dict_get_default in *.
  destruct (dict_get (list_or_empty (params request)) "protocolVersion")
    as [v|] eqn:E.
  - assert (Hne : json_eq_str v "2024-11-05" = false).
    { destruct v; try reflexivity. simpl.
      destruct (String.eqb s "2024-11-05") eqn:Es; [|reflexivity].
      apply String.eqb_eq in Es. subst. contradiction. }
    rewrite Hne. simpl. unfold se_lift.
    now rewrite create_error_response_request.
  - simpl. unfold se_lift. now rewrite create_error_response_request.
Qed.

(** X7.  A method without a handler is answered with -32601 "Method not
    found", the state untouched, whether or not the session is
    initialized. *)
Theorem unknown_method_not_found (request : MCPRequest) (h : MCPHandler) :
  ~ In (method request) known_methods ->
  _handle_request py_repr request h
  = (h, inr (error_reply request (-32601)
               ("Method not found: " ++ method request))).
Proof.
  intros Hm. unfold known_methods in Hm. simpl in Hm.
  unfold _handle_request, dispatch, se_try.
  repeat match goal with
         | |- context [if String.eqb ?a ?b then _ else _] =>
             destruct (String.eqb a b) eqn:?
         end;
    try (match goal with
         | H : String.eqb _ _ = true |- _ => apply String.eqb_eq in H
         end; exfalso; apply Hm; auto 10).
  unfold se_lift. now rewrite create_error_response_request.
Qed.

(** X8.  [resources/read] of a registered uri on an initialized session
    returns what the resource handler returns; when the handler raises,
    the answer is the protocol error -32603 "Resource read failed". *)
Theorem read_resource_registered (request : MCPRequest) (h : MCPHandler)
        (d : dict Json) (uri : string) (entry : ResourceEntry) :
  initialized h = true ->
  method request = "resources/read" ->
  params request = Some d ->
  dict_get d "uri" = Some (JStr uri) ->
  uri <> "" ->
  dict_get (resources h) uri = Some entry ->
  _handle_request py_repr request h
  = (h, inr match resource_handler entry uri with
            | inr contents => result_reply request (ResourceContents contents)
            | inl e => error_reply request (-32603)
                         ("Resource read failed: " ++ str_of_exn e)
            end).
Proof.
  intros Hinit Hm Hp Hu Hne Hreg.
  unfold _handle_request, dispatch, se_try. rewrite Hm. simpl.
  unfold _handle_read_resource, se_bind, se_get, se_lift, se_try.
  rewrite Hinit. simpl.
  rewrite Hp. unfold params_get, dict_get_default. rewrite Hu. simpl.
  destruct (String.eqb uri "") eqn:E; [apply String.eqb_eq in E; contradiction|].
  simpl. unfold dict_mem. rewrite Hreg. simpl.
  unfold read_resource_body, bind. simpl. rewrite Hreg. unfold ret. simpl.
  destruct (resource_handler entry uri) as [e|contents];
    unfold _create_error_response, MCPResponse_init, bind;
    rewrite ?Id_validate_json_of_id; reflexivity.
Qed.

(** X9.  [resources/read] on an initialized session whose params are a
    mapping: a [uri] that is absent or falsy (null, the empty string, 0,
    false, an empty list or mapping) gives -32602; a truthy [uri] that
    is hashable and is not a registered string gives -32601. *)
Theorem read_resource_rejections (request : MCPRequest) (h : MCPHandler)
        (d : dict Json) :
  initialized h = true ->
  method request = "resources/read" ->
  params request = Some d ->
  let uri := dict_get_default d "uri" JNull in
  (truthy uri = false ->
   _handle_request py_repr request h
   = (h, inr (error_reply request (-32602) "Missing required parameter: uri")))
  /\ (truthy uri = true ->
      key_in uri (resources h) = inr false ->
      _handle_request py_repr request h
      = (h, inr (error_reply request (-32601)
                   ("Resource not found: " ++ py_str py_repr uri)))).
Proof.
  intros Hinit Hm Hp uri. subst uri.
  split; [intros Hf|intros Ht Hk];
    unfold _handle_request, dispatch, se_try; rewrite Hm; simpl;
    unfold _handle_read_resource, se_bind, se_get, se_lift;
    rewrite Hinit; simpl; rewrite Hp; unfold params_get, ret; simpl.
  - rewrite Hf. simpl. now rewrite create_error_response_request.
  - rewrite Ht. simpl. rewrite Hk. simpl.
    now rewrite create_error_response_request.
Qed.

End More.

(** *** Witnesses on the served registry *)

Lemma initialize_version_mismatch_witness :
  _handle_request no_repr
    (request_of 1 "initialize" (Some [("protocolVersion", JStr "2025-03-26")]))
    served
  = (served,
     inr (error_reply (request_of 1 "initialize" None) (-32602)
            "Unsupported protocol version: 2025-03-26")).
Proof.
  exact (initialize_version_mismatch no_repr
           (request_of 1 "initialize" (Some [("protocolVersion", JStr "2025-03-26")]))
           served eq_refl ltac:(discriminate)).
Defined.

Lemma unknown_method_not_found_witness :
  _handle_request no_repr (request_of 3 "prompts/list" None) served
  = (served,
     inr (error_reply (request_of 3 "prompts/list" None) (-32601)
            "Method not found: prompts/list")).
Proof.
  exact (unknown_method_not_found no_repr (request_of 3 "prompts/list" None) served
           ltac:(simpl; intuition discriminate)).
Defined.

Lemma read_resource_registered_witness :
  _handle_request no_repr
    (request_of 4 "resources/read" (Some [("uri", JStr "koboldcpp://model/info")]))
    (set_initialized true served)
  = (set_initialized true served,
     inr (result_reply (request_of 4 "resources/read" None)
            (ResourceContents
               [("contents",
                   JList [JDict [("uri", JStr "koboldcpp://model/info");
                                 ("mimeType", JStr "application/json");
                                 ("text", JStr "{}")]])]))).
Proof.
  exact (read_resource_registered no_repr
           (request_of 4 "resources/read"
              (Some [("uri", JStr "koboldcpp://model/info")]))
           (set_initialized true served)
           [("uri", JStr "koboldcpp://model/info")] "koboldcpp://model/info"
           {| resource_handler := model_info;
              resource_definition := model_info_definition |}
           eq_refl eq_refl eq_refl eq_refl ltac:(discriminate) eq_refl).
Defined.

Lemma read_resource_rejections_witness :
  _handle_request no_repr
    (request_of 5 "resources/read" (Some [("uri", JStr "")]))
    (set_initialized true served)
  = (set_initialized true served,
     inr (error_reply (request_of 5 "resources/read" None) (-32602)
            "Missing required parameter: uri"))
  /\ _handle_request no_repr
       (request_of 6 "resources/read" (Some [("uri", JInt 7)]))
       (set_initialized true served)
     = (set_initialized true served,
        inr (error_reply (request_of 6 "resources/read" None) (-32601)
               "Resource not found: 7")).
Proof.
  split.
  - exact (proj1 (read_resource_rejections no_repr
                    (request_of 5 "resources/read" (Some [("uri", JStr "")]))
                    (set_initialized true served) [("uri", JStr "")]
                    eq_refl eq_refl eq_refl) eq_refl).
  - exact (proj2 (read_resource_rejections no_repr
                    (request_of 6 "resources/read" (Some [("uri", JInt 7)]))
                    (set_initialized true served) [("uri", JInt 7)]
                    eq_refl eq_refl eq_refl) eq_refl eq_refl).
Defined.

End RouterMore.

(* ================================================================= *)
(** * Properties of the read loop *)

Module ConnectionMore.
Import MCP RouterFacts RouterMore.

(** The id of a parsed message, when it has one that a response can
    carry. *)
Definition message_id (kvs : dict Json) : option Id :=
  match dict_get kvs "id" with
  | Some (JStr s) => Some (IdStr s)
  | Some (JInt n) => Some (IdInt n)
  | _ => None
  end.

(** The messages the router can deal with: JSON objects that have no
    [id] key (notifications) or an id that is a string or an integer. *)
Definition manageable (message : Inbound) : bool :=
  match message with
  | Parsed (JDict kvs) =>
      negb (dict_mem kvs "id")
      || match message_id kvs with Some _ => true | None => false end
  | _ => false
  end.

(** The ids of the requests among the messages, in order. *)
Fixpoint request_ids (messages : list Inbound) : list Id :=
  match messages with
  | [] => []
  | Parsed (JDict kvs) :: rest =>
      match message_id kvs with
      | Some i => i :: request_ids rest
      | None => request_ids rest
      end
  | _ :: rest => request_ids rest
  end.

Lemma message_id_validate kvs i :
  message_id kvs = Some i ->
  exists v, dict_get kvs "id" = Some v /\ Id_validate v = inr i.
Proof.
  unfold message_id. destruct (dict_get kvs "id") as [[]|]; try discriminate;
    intros [= <-]; eauto.
Qed.

Lemma request_init_id kvs request i :
  MCPRequest_init kvs = inr request ->
  message_id kvs = Some i ->
  req_id request = i.
Proof.
  intros Hinit Hid. apply message_id_validate in Hid. destruct Hid as (v & Hv & Hi).
  unfold MCPRequest_init, bind in Hinit. rewrite Hv, Hi in Hinit.
  destruct (field_str kvs "jsonrpc" _); [discriminate|].
  destruct (field_str kvs "method" _); [discriminate|].
  destruct (field_opt_dict kvs "params"); [discriminate|].
  now injection Hinit as <-.
Qed.

Section Loop.

Variable py_repr : Json -> string.

Lemma notification_step (kvs : dict Json) (c : Connection) :
  dict_mem kvs "id" = false ->
  _process_message py_repr (Parsed (JDict kvs)) c = (c, inr tt).
Proof.
  intros Hid. unfold _process_message, se_bind, se_lift. simpl.
  rewrite Hid. reflexivity.
Qed.

(** X10.  A message without an [id] key is a notification: nothing is
    sent for it, nothing is raised and the state does not change,
    whatever its method, [initialize] included. *)
Theorem notification_is_silent (kvs : dict Json) (c : Connection) :
  dict_mem kvs "id" = false ->
  fst (_process_message py_repr (Parsed (JDict kvs)) c) = c
  /\ snd (_process_message py_repr (Parsed (JDict kvs)) c) = inr tt.
Proof.
  intros Hid. now rewrite (notification_step kvs c Hid).
Qed.

Lemma request_step (kvs : dict Json) (i : Id) (c : Connection) :
  message_id kvs = Some i ->
  exists h' response,
    _process_message py_repr (Parsed (JDict kvs)) c
    = ({| handler_state := h'; sent := (sent c ++ [response])%list |}, inr tt)
    /\ resp_id response = i
    /\ ((result response = None /\ error response <> None)
        \/ (result response <> None /\ error response = None))
    /\ tools h' = tools (handler_state c)
    /\ resources h' = resources (handler_state c).
Proof.
  intros Hid.
  destruct (message_id_validate kvs i Hid) as (v & Hv & Hi).
  assert (Hmem : dict_mem kvs "id" = true) by (unfold dict_mem; now rewrite Hv).
  unfold _process_message, se_bind at 1, se_lift at 1. simpl.
  rewrite Hmem. simpl. unfold se_try, se_bind at 1, se_lift at 1.
  destruct (MCPRequest_init kvs) as [e|request] eqn:Hreq.
  - unfold se_bind, se_lift. simpl. unfold dict_get_default. rewrite Hv.
    unfold _create_error_response, MCPResponse_init, bind. rewrite Hi. simpl.
    unfold send. simpl. destruct c as [h out]. simpl.
    eexists _, _. split; [reflexivity|]. simpl.
    repeat split. left. split; [reflexivity|discriminate].
  - destruct (handle_request_replies py_repr request (handler_state c))
      as (h' & response & Hrun & _ & Hrid & Hxor).
    pose proof (registry_kept py_repr request (handler_state c))
      as (Ht & Hr & _).
    rewrite Hrun in Ht, Hr. simpl in Ht, Hr.
    unfold se_bind, with_handler. rewrite Hrun. unfold send. simpl.
    eexists _, _. split; [reflexivity|].
    rewrite Hrid. split; [now apply request_init_id with kvs|]. auto.
Qed.

(** X11.  A message with a string or integer id gets exactly one frame,
    which carries that id and a result or an error: the handler's
    response when the envelope is valid, -32603 when it is not (no
    [method], [params] that are not a mapping).  Nothing is raised. *)
Theorem request_gets_one_frame (kvs : dict Json) (i : Id) (c : Connection) :
  message_id kvs = Some i ->
  exists h' response,
    _process_message py_repr (Parsed (JDict kvs)) c
    = ({| handler_state := h'; sent := (sent c ++ [response])%list |}, inr tt)
    /\ resp_id response = i
    /\ ((result response = None /\ error response <> None)
        \/ (result response <> None /\ error response = None))
    /\ tools h' = tools (handler_state c)
    /\ resources h' = resources (handler_state c).
Proof. exact (request_step kvs i c). Qed.

(** The read loop over manageable messages. *)
Lemma message_loop_manageable messages : forall c,
  forallb manageable messages = true ->
  exists h' frames,
    message_loop py_repr messages c
    = ({| handler_state := h'; sent := (sent c ++ frames)%list |}, inr tt)
    /\ map resp_id frames = request_ids messages
    /\ tools h' = tools (handler_state c)
    /\ resources h' = resources (handler_state c).
Proof.
  induction messages as [|m messages IH]; intros c Hall.
  - exists (handler_state c), []. simpl. rewrite app_nil_r.
    destruct c. auto.
  - simpl in Hall. apply andb_true_iff in Hall. destruct Hall as [Hm Hall].
    destruct m as [err|[| | | | | |kvs]]; try discriminate.
    simpl in Hm. unfold message_loop; fold (message_loop py_repr).
    unfold se_bind at 1, se_try.
    destruct (message_id kvs) as [i|] eqn:Hid.
    + destruct (request_step kvs i c Hid)
        as (h1 & response & Hrun & Hrid & _ & Ht1 & Hr1).
      rewrite Hrun.
      destruct (IH {| handler_state := h1; sent := (sent c ++ [response])%list |} Hall)
        as (h' & frames & Hloop & Hids & Ht & Hr).
      rewrite Hloop. simpl in *. exists h', (response :: frames).
      rewrite <- app_assoc. simpl. rewrite Hid, Hrid, Hids.
      split; [reflexivity|]. split; [reflexivity|]. split; congruence.
    + rewrite orb_false_r in Hm. apply negb_true_iff in Hm.
      rewrite (notification_step kvs c Hm).
      destruct (IH c Hall) as (h' & frames & Hloop & Hids & Ht & Hr).
      rewrite Hloop. exists h', frames. simpl. rewrite Hid. auto.
Qed.

(** X12.  Over a connection on which every message is a notification or
    has a string or integer id, [handle_connection] runs to the end of
    the stream: the frames it sends are one per request, in the order
    of the requests and each with its request's id; the registry is as
    before and the session is reset to not initialized. *)
Theorem connection_answers_in_order (messages : list Inbound) (c : Connection) :
  forallb manageable messages = true ->
  exists c' frames,
    handle_connection py_repr messages c = (c', ClientClosed)
    /\ sent c' = (sent c ++ frames)%list
    /\ map resp_id frames = request_ids messages
    /\ tools (handler_state c') = tools (handler_state c)
    /\ resources (handler_state c') = resources (handler_state c)
    /\ initialized (handler_state c') = false.
Proof.
  intros Hall.
  destruct (message_loop_manageable messages c Hall)
    as (h' & frames & Hloop & Hids & Ht & Hr).
  unfold handle_connection. rewrite Hloop. simpl.
  eexists _, frames. split; [reflexivity|]. simpl. auto.
Qed.

End Loop.

Definition json_request (i : Z) (m : string) : Inbound :=
  Parsed (JDict [("jsonrpc", JStr "2.0"); ("id", JInt i); ("method", JStr m)]).

Lemma request_gets_one_frame_witness :
  _process_message no_repr (json_request 9 "tools/list")
    {| handler_state := served; sent := [] |}
  = ({| handler_state := served;
        sent := [error_reply (request_of 9 "tools/list" None) (-32002)
                   "Server not initialized"] |},
     inr tt).
Proof.
  destruct (request_gets_one_frame no_repr
              [("jsonrpc", JStr "2.0"); ("id", JInt 9); ("method", JStr "tools/list")]
              (IdInt 9) {| handler_state := served; sent := [] |} eq_refl)
    as (h' & response & Hrun & _).
  unfold json_request. rewrite Hrun.
  vm_compute in Hrun. injection Hrun as <- <-. reflexivity.
Defined.

Lemma notification_is_silent_witness :
  fst (_process_message no_repr
         (Parsed (JDict [("jsonrpc", JStr "2.0"); ("method", JStr "initialize");
                         ("params", JDict [("protocolVersion", JStr "2024-11-05")])]))
         {| handler_state := served; sent := [] |})
  = {| handler_state := served; sent := [] |}
  /\ snd (_process_message no_repr
            (Parsed (JDict [("jsonrpc", JStr "2.0"); ("method", JStr "initialize");
                            ("params", JDict [("protocolVersion", JStr "2024-11-05")])]))
            {| handler_state := served; sent := [] |})
     = inr tt.
Proof.
  exact (notification_is_silent no_repr
           [("jsonrpc", JStr "2.0"); ("method", JStr "initialize");
            ("params", JDict [("protocolVersion", JStr "2024-11-05")])]
           {| handler_state := served; sent := [] |} eq_refl).
Defined.

(** A notification between two requests: two frames, ids 1 and 2. *)
Lemma connection_answers_in_order_witness :
  exists c' frames,
    handle_connection no_repr
      [json_request 1 "tools/list";
       Parsed (JDict [("jsonrpc", JStr "2.0");
                      ("method", JStr "notifications/initialized")]);
       json_request 2 "resources/list"]
      {| handler_state := served; sent := [] |}
    = (c', ClientClosed)
    /\ sent c' = frames
    /\ map resp_id frames = [IdInt 1; IdInt 2].
Proof.
  destruct (connection_answers_in_order no_repr
              [json_request 1 "tools/list";
               Parsed (JDict [("jsonrpc", JStr "2.0");
                              ("method", JStr "notifications/initialized")]);
               json_request 2 "resources/list"]
              {| handler_state := served; sent := [] |} eq_refl)
    as (c' & frames & Hrun & Hsent & Hids & _).
  exists c', frames. auto.
Defined.

End ConnectionMore.

(* ================================================================= *)
(** * The registry *)

Module RegistryMore.
Import MCP.

Section DictSet.

Variable V : Type.

Lemma dict_get_set_same (d : dict V) k v : dict_get (dict_set d k v) k = Some v.
Proof.
  induction d as [|[k' v'] d IH]; simpl.
  - now rewrite String.eqb_refl.
  - destruct (String.eqb k k') eqn:E; simpl; rewrite E; [reflexivity|exact IH].
Qed.

Lemma dict_get_set_other (d : dict V) k v k' :
  k' <> k -> dict_get (dict_set d k v) k' = dict_get d k'.
Proof.
  intros Hne. induction d as [|[k0 v0] d IH]; simpl.
  - destruct (String.eqb k' k) eqn:E; [apply String.eqb_eq in E; contradiction|].
    reflexivity.
  - destruct (String.eqb k k0) eqn:E; simpl.
    + apply String.eqb_eq in E. subst k0.
      destruct (String.eqb k' k) eqn:E'; [apply String.eqb_eq in E'; contradiction|].
      reflexivity.
    + destruct (String.eqb k' k0); [reflexivity|exact IH].
Qed.

Lemma dict_keys_set (d : dict V) k v :
  dict_keys (dict_set d k v)
  = if dict_mem d k then dict_keys d else (dict_keys d ++ [k])%list.
Proof.
  unfold dict_mem, dict_keys. induction d as [|[k' v'] d IH]; simpl; [reflexivity|].
  destruct (String.eqb k k') eqn:E; simpl; [reflexivity|].
  rewrite IH. now destruct (dict_get d k).
Qed.

Lemma dict_mem_keys (d : dict V) k : dict_mem d k = true <-> In k (dict_keys d).
Proof.
  unfold dict_mem, dict_keys. induction d as [|[k' v'] d IH]; simpl.
  - split; [discriminate|tauto].
  - destruct (String.eqb k k') eqn:E.
    + apply String.eqb_eq in E. subst. tauto.
    + rewrite IH. split; [tauto|]. intros [->|H]; [|exact H].
      rewrite String.eqb_refl in E. discriminate.
Qed.

Lemma dict_keys_set_nodup (d : dict V) k v :
  NoDup (dict_keys d) -> NoDup (dict_keys (dict_set d k v)).
Proof.
  intros Hnd. rewrite dict_keys_set.
  destruct (dict_mem d k) eqn:E; [exact Hnd|].
  apply NoDup_app; [exact Hnd|repeat constructor; intros []|].
  intros x Hx [<-|[]]. apply dict_mem_keys in Hx. congruence.
Qed.

End DictSet.

(** X13.  Registering a tool makes it the entry found under its name and
    leaves every other name as it was; a name that is already
    registered keeps its place in the listing order and gets the new
    entry, a new name goes to the end; names stay unique; resources and
    the session flag are not touched. *)
Theorem register_tool_lookup (name : string) (handler : dict Json -> Exc ToolOutput)
        (definition : ToolDefinition) (h : MCPHandler) :
  let h' := register_tool name handler definition h in
  dict_get (tools h') name
  = Some {| tool_handler := handler; tool_definition := definition |}
  /\ (forall other, other <> name ->
        dict_get (tools h') other = dict_get (tools h) other)
  /\ dict_keys (tools h')
     = (if dict_mem (tools h) name
        then dict_keys (tools h)
        else (dict_keys (tools h) ++ [name])%list)
  /\ (NoDup (dict_keys (tools h)) -> NoDup (dict_keys (tools h')))
  /\ resources h' = resources h
  /\ initialized h' = initialized h.
Proof.
  cbv zeta. unfold register_tool. simpl.
  split; [apply dict_get_set_same|].
  split; [intros other Hne; now apply dict_get_set_other|].
  split; [apply dict_keys_set|].
  split; [apply dict_keys_set_nodup|].
  split; reflexivity.
Qed.

(** The same holds for resources, by uri. *)
Lemma register_resource_lookup (uri : string) (handler : string -> Exc (dict Json))
        (definition : ResourceDefinition) (h : MCPHandler) :
  let h' := register_resource uri handler definition h in
  dict_get (resources h') uri
  = Some {| resource_handler := handler; resource_definition := definition |}
  /\ (forall other, other <> uri ->
        dict_get (resources h') other = dict_get (resources h) other)
  /\ dict_keys (resources h')
     = (if dict_mem (resources h) uri
        then dict_keys (resources h)
        else (dict_keys (resources h) ++ [uri])%list)
  /\ (NoDup (dict_keys (resources h)) -> NoDup (dict_keys (resources h')))
  /\ tools h' = tools h
  /\ initialized h' = initialized h.
Proof.
  cbv zeta. unfold register_resource. simpl.
  split; [apply dict_get_set_same|].
  split; [intros other Hne; now apply dict_get_set_other|].
  split; [apply dict_keys_set|].
  split; [apply dict_keys_set_nodup|].
  split; reflexivity.
Qed.

Section Listing.

Variable py_repr : Json -> string.

Lemma dict_values_set_new V (d : dict V) k v :
  dict_mem d k = false -> dict_values (dict_set d k v) = (dict_values d ++ [v])%list.
Proof.
  unfold dict_mem, dict_values. induction d as [|[k' v'] d IH]; simpl; [reflexivity|].
  destruct (String.eqb k k') eqn:E; [discriminate|]. simpl.
  intros H. now rewrite IH.
Qed.

(** X14.  A tool registered under a new name shows up at the end of what
    [tools/list] returns on an initialized session. *)
Theorem registered_tool_is_listed (name : string)
        (handler : dict Json -> Exc ToolOutput) (definition : ToolDefinition)
        (h : MCPHandler) (request : MCPRequest) :
  initialized h = true ->
  method request = "tools/list" ->
  dict_mem (tools h) name = false ->
  _handle_request py_repr request (register_tool name handler definition h)
  = (register_tool name handler definition h,
     inr (RouterFacts.result_reply request
            (ToolsListing
               (map tool_definition (dict_values (tools h)) ++ [definition])))).
Proof.
  intros Hinit Hm Hnew.
  rewrite RouterFacts.list_tools_initialized; [|exact Hinit|exact Hm].
  simpl. rewrite dict_values_set_new by exact Hnew.
  now rewrite map_app.
Qed.

End Listing.

Lemma registered_tool_is_listed_witness :
  _handle_request RouterFacts.no_repr (RouterFacts.request_of 2 "tools/list" None)
    (register_tool "generate_text" RouterFacts.rejecting_tool
       RouterFacts.generate_text_definition (set_initialized true new_handler))
  = (register_tool "generate_text" RouterFacts.rejecting_tool
       RouterFacts.generate_text_definition (set_initialized true new_handler),
     inr (RouterFacts.result_reply (RouterFacts.request_of 2 "tools/list" None)
            (ToolsListing [RouterFacts.generate_text_definition]))).
Proof.
  exact (registered_tool_is_listed RouterFacts.no_repr "generate_text"
           RouterFacts.rejecting_tool RouterFacts.generate_text_definition
           (set_initialized true new_handler)
           (RouterFacts.request_of 2 "tools/list" None)
           eq_refl eq_refl eq_refl).
Defined.

End RegistryMore.

(* ================================================================= *)
(** * Further properties of the text-generation tools *)

Module ToolMore.
Import TextGenerationTools ToolFacts.

(** *** Sanitization *)

(** Every character of [s] satisfies [p]. *)
Fixpoint str_all (p : ascii -> bool) (s : string) : bool :=
  match s with
  | EmptyString => true
  | String c s' => p c && str_all p s'
  end.

(** No ["<"] in [s]: no delimiter token can start in it. *)
Definition no_open (s : string) : bool :=
  str_all (fun c => negb (Ascii.eqb c "<"%char)) s.

Lemma str_replace_from_shorter old s : forall skip,
  (String.length (str_replace_from old "" skip s) <= String.length s)%nat.
Proof.
  induction s as [|c s IH]; intros skip; [simpl; lia|].
  destruct skip as [|k].
  - cbn [str_replace_from]. destruct (String.prefix old (String c s)).
    + change (String.length (str_replace_from old "" (String.length old - 1) s)
              <= S (String.length s))%nat.
      apply Nat.le_trans with (String.length s); [apply IH|lia].
    + change (S (String.length (str_replace_from old "" 0 s))
              <= S (String.length s))%nat.
      apply le_n_S, IH.
  - change (String.length (str_replace_from old "" k s) <= S (String.length s))%nat.
    apply Nat.le_trans with (String.length s); [apply IH|lia].
Qed.

Lemma str_replace_absent old new s :
  str_contains old s = false -> str_replace old new s = s.
Proof.
  unfold str_replace. induction s as [|c s IH]; simpl; [reflexivity|].
  intros H. apply orb_false_iff in H. destruct H as [Hp Hc].
  simpl in Hp. rewrite Hp. now rewrite IH.
Qed.

Lemma prefix_open_head old c s :
  c <> "<"%char -> String.prefix (String "<" old) (String c s) = false.
Proof.
  intros Hne. cbn [String.prefix].
  destruct (ascii_dec "<" c) as [E|_]; [congruence|reflexivity].
Qed.

Lemma no_open_cons c a :
  no_open (String c a) = true -> c <> "<"%char /\ no_open a = true.
Proof.
  unfold no_open. cbn [str_all]. intros H.
  apply andb_true_iff in H. destruct H as [Hc Ha]. split; [|exact Ha].
  apply negb_true_iff, Ascii.eqb_neq in Hc. exact Hc.
Qed.

(** Text without ["<"] passes through a replacement of a token that
    starts with ["<"]. *)
Lemma str_replace_from_clean old new a s :
  no_open a = true ->
  str_replace_from (String "<" old) new O (a ++ s)
  = a ++ str_replace_from (String "<" old) new O s.
Proof.
  induction a as [|c a IH]; [reflexivity|].
  intros H. apply no_open_cons in H. destruct H as [Hc Ha].
  cbn [append str_replace_from].
  rewrite (prefix_open_head old c (a ++ s) Hc), (IH Ha). reflexivity.
Qed.

Lemma str_replace_from_clean_all old new a :
  no_open a = true -> str_replace_from (String "<" old) new O a = a.
Proof.
  induction a as [|c a IH]; [reflexivity|].
  intros H. apply no_open_cons in H. destruct H as [Hc Ha].
  cbn [str_replace_from].
  rewrite (prefix_open_head old c a Hc), (IH Ha). reflexivity.
Qed.

Lemma no_open_app a b :
  no_open a = true -> no_open b = true -> no_open (a ++ b) = true.
Proof.
  intros Ha Hb. induction a as [|c a IH]; [exact Hb|].
  apply no_open_cons in Ha. destruct Ha as [Hc Ha].
  unfold no_open. cbn [append str_all]. fold (no_open (a ++ b)).
  rewrite (IH Ha). apply Ascii.eqb_neq in Hc. now rewrite Hc.
Qed.

Lemma prefix_app tok b : String.prefix tok (tok ++ b) = true.
Proof.
  induction tok as [|c tok IH]; cbn [append String.prefix].
  - now destruct b.
  - destruct (ascii_dec c c) as [_|Hne]; [exact IH|congruence].
Qed.

Lemma str_replace_from_skip old new t s :
  str_replace_from old new (String.length t) (t ++ s)
  = str_replace_from old new O s.
Proof.
  induction t as [|c t IH]; [reflexivity|].
  cbn [String.length append str_replace_from]. exact IH.
Qed.

(** An occurrence at the head of the text is dropped whole. *)
Lemma str_replace_from_token c t after :
  str_replace_from (String c t) "" O (String c t ++ after)
  = str_replace_from (String c t) "" O after.
Proof.
  pose proof (prefix_app (String c t) after) as Hp.
  cbn [append] in Hp |- *. cbn [str_replace_from]. rewrite Hp.
  cbn [String.length Nat.sub append]. rewrite Nat.sub_0_r.
  apply str_replace_from_skip.
Qed.

Lemma str_slice_to_shorter s n :
  (String.length (str_slice_to s n) <= String.length s)%nat.
Proof.
  unfold str_slice_to. destruct (n <? 0); rewrite str_take_length; lia.
Qed.

(** The last step of [_sanitize_prompt]: the cut at the maximum length. *)
Definition cut (settings : Settings) (s : string) : string :=
  if Z.of_nat (String.length s) >? max_prompt_length (security settings)
  then str_slice_to s (max_prompt_length (security settings))
  else s.

(** X15.  Sanitization never makes a prompt longer, whatever the
    settings. *)
Theorem sanitize_never_longer (settings : Settings) (user_prompt : string) :
  (String.length (_sanitize_prompt settings user_prompt)
   <= String.length user_prompt)%nat.
Proof.
  unfold _sanitize_prompt, str_replace.
  set (s1 := str_replace_from "</s>" "" 0 user_prompt).
  set (s2 := str_replace_from "<|endoftext|>" "" 0 s1).
  assert (H1 : (String.length s1 <= String.length user_prompt)%nat)
    by apply str_replace_from_shorter.
  assert (H2 : (String.length s2 <= String.length s1)%nat)
    by apply str_replace_from_shorter.
  destruct (_ >? _); [|lia].
  pose proof (str_slice_to_shorter s2 (max_prompt_length (security settings))). lia.
Qed.

(** X16.  A prompt in which no delimiter token occurs is only cut: within
    the maximum length it is returned as it is. *)
Theorem sanitize_without_delimiter (settings : Settings) (user_prompt : string) :
  str_contains "</s>" user_prompt = false ->
  str_contains "<|endoftext|>" user_prompt = false ->
  _sanitize_prompt settings user_prompt = cut settings user_prompt
  /\ (Z.of_nat (String.length user_prompt) <= max_prompt_length (security settings) ->
      _sanitize_prompt settings user_prompt = user_prompt).
Proof.
  intros H1 H2. unfold _sanitize_prompt, cut.
  rewrite (str_replace_absent "</s>" "" user_prompt H1).
  rewrite (str_replace_absent "<|endoftext|>" "" user_prompt H2).
  split; [reflexivity|]. intros Hle.
  destruct (_ >? _) eqn:E; [|reflexivity].
  rewrite Z.gtb_ltb in E. apply Z.ltb_lt in E. lia.
Qed.

Lemma sanitize_without_delimiter_witness :
  _sanitize_prompt default_settings "Summarize: a < b and b > c"
  = "Summarize: a < b and b > c".
Proof.
  exact (proj2 (sanitize_without_delimiter default_settings
                  "Summarize: a < b and b > c" eq_refl eq_refl)
               ltac:(simpl; lia)).
Defined.

(** X17.  A delimiter token that stands between two texts without ["<"]
    is taken out: the sanitized prompt is the two texts joined, cut at
    the maximum length, and the joined text holds no ["<"], hence no
    delimiter token. *)
Theorem sanitize_removes_delimiter (settings : Settings) (before after : string) :
  no_open before = true ->
  no_open after = true ->
  _sanitize_prompt settings (before ++ "</s>" ++ after)
  = cut settings (before ++ after)
  /\ _sanitize_prompt settings (before ++ "<|endoftext|>" ++ after)
     = cut settings (before ++ after)
  /\ no_open (before ++ after) = true.
Proof.
  intros Hb Ha.
  pose proof (no_open_app before after Hb Ha) as Hba.
  assert (E1 : str_replace "</s>" "" (before ++ "</s>" ++ after) = before ++ after).
  { unfold str_replace. rewrite str_replace_from_clean by exact Hb.
    f_equal. rewrite (str_replace_from_token "<" "/s>" after).
    now apply str_replace_from_clean_all. }
  assert (E2 : str_replace "</s>" "" (before ++ "<|endoftext|>" ++ after)
               = before ++ "<|endoftext|>" ++ after).
  { unfold str_replace. rewrite str_replace_from_clean by exact Hb.
    f_equal.
    change ("<|endoftext|>" ++ after) with (String "<" ("|endoftext|>" ++ after)).
    assert (Hp : String.prefix "</s>" (String "<" ("|endoftext|>" ++ after)) = false)
      by reflexivity.
    cbn [str_replace_from]. rewrite Hp. f_equal.
    apply str_replace_from_clean_all.
    apply (no_open_app "|endoftext|>" after); [reflexivity|exact Ha]. }
  assert (E3 : str_replace "<|endoftext|>" ""
                 (before ++ "<|endoftext|>" ++ after) = before ++ after).
  { unfold str_replace. rewrite str_replace_from_clean by exact Hb.
    f_equal. rewrite (str_replace_from_token "<" "|endoftext|>" after).
    now apply str_replace_from_clean_all. }
  assert (E4 : str_replace "<|endoftext|>" "" (before ++ after) = before ++ after).
  { unfold str_replace. now apply str_replace_from_clean_all. }
  unfold _sanitize_prompt, cut.
  rewrite E1, E2, E3, E4. auto.
Qed.

Lemma sanitize_removes_delimiter_witness :
  _sanitize_prompt default_settings "Hello</s> world" = "Hello world"
  /\ _sanitize_prompt default_settings "Hello<|endoftext|> world" = "Hello world".
Proof.
  destruct (sanitize_removes_delimiter default_settings "Hello" " world"
              eq_refl eq_refl) as (H1 & H2 & _).
  split; [exact H1|exact H2].
Defined.

(** *** The ceilings of [generate_text] *)

Lemma validate_prompt_bound settings user_prompt p :
  validate_prompt settings user_prompt = inr p ->
  Z.of_nat (String.length p) <= max_prompt_length (security settings).
Proof.
  unfold validate_prompt.
  destruct (_ >? _) eqn:E; [discriminate|]. intros [= <-].
  rewrite Z.gtb_ltb in E. now apply Z.ltb_ge in E.
Qed.

(** X18.  [generate_text] issues at most one generate call, and what it
    sends respects the ceilings, with or without sanitization: at most
    [max_response_length] tokens are asked for and the prompt is no
    longer than [max_prompt_length].  When the call is answered, the
    report carries the backend's text and metrics; when it raises, so
    does [generate_text], with the same exception. *)
Theorem generate_text_ceilings
        (settings : Settings)
        (client_generate_text : nat -> GenerateTextParams -> Exc GenerationResult)
        (user_prompt : string) (budget : Z) (temp nucleus : Q) (k : Z)
        (typical penalty : Q) (range : Z)
        (stops : option (list string)) (log : CallLog) :
  let run := generate_text settings client_generate_text user_prompt budget
               temp nucleus k typical penalty range stops log in
  (fst run = log /\ exists e, snd run = inl e)
  \/ (exists params,
        fst run = (log ++ [params])%list
        /\ max_tokens params <= max_response_length (security settings)
        /\ max_tokens params <= budget
        /\ Z.of_nat (String.length (prompt params))
           <= max_prompt_length (security settings)
        /\ stop_sequence params <> None
        /\ match client_generate_text (List.length log) params with
           | inl e => snd run = inl e
           | inr r =>
               exists report,
                 snd run = inr report
                 /\ gr_text report = text r
                 /\ md_tokens_generated (gr_metadata report) = tokens_generated r
                 /\ md_finish_reason (gr_metadata report) = finish_reason r
           end).
Proof.
  cbv zeta. unfold generate_text, se_bind, se_lift.
  destruct (validate_prompt settings user_prompt) as [e|p] eqn:Hv.
  - left. simpl. eauto.
  - right. unfold KoboldCppClient.call_generate.
    match goal with
    | |- context [client_generate_text (List.length log) ?q] => set (params := q)
    end.
    exists params.
    split; [now destruct (client_generate_text (List.length log) params)|].
    split; [apply Z.le_min_r|]. split; [apply Z.le_min_l|].
    split; [now apply validate_prompt_bound with user_prompt|].
    split; [discriminate|].
    destruct (client_generate_text (List.length log) params) as [e|r];
      [reflexivity|].
    eexists. split; [reflexivity|]. auto.
Qed.

(** *** The sweep with default ranges *)

Lemma list_or_nonempty A (l : option (list A)) (default : list A) :
  default <> [] -> list_or l default <> [].
Proof.
  intros Hd. destruct l as [[|x l]|]; simpl; try exact Hd. discriminate.
Qed.

Lemma measured_length backend user_prompt budget k cs es :
  measured backend user_prompt budget k cs es -> List.length es = List.length cs.
Proof.
  intros H. apply measured_combos in H.
  rewrite <- H. now rewrite length_map.
Qed.

(** X19.  A range that is absent or empty is replaced by its default
    (temperatures 0.3, 0.7, 1.0; top-p 0.8, 0.9, 0.95), so the sweep is
    never empty: with a backend that answers, [test_prompt] returns a
    report of [len(temperatures) * len(top_ps) >= 1] tests and never
    fails for want of a result to pick. *)
Theorem test_prompt_defaults
        (client_generate_text : nat -> GenerateTextParams -> Exc GenerationResult)
        (user_prompt : string) (ranges_t ranges_p : option (list Q))
        (budget : Z) (log : CallLog) :
  (forall k params, exists r, client_generate_text k params = inr r) ->
  let temps := list_or ranges_t [3 # 10; 7 # 10; 1]%Q in
  let tops := list_or ranges_p [8 # 10; 9 # 10; 95 # 100]%Q in
  exists report,
    test_prompt client_generate_text user_prompt ranges_t ranges_p budget log
    = ((log ++ map (sweep_params user_prompt budget) (list_prod temps tops))%list,
       inr report)
    /\ List.length (sr_test_results report)
       = (List.length temps * List.length tops)%nat
    /\ sr_total_tests report = Z.of_nat (List.length temps * List.length tops)
    /\ 0 < sr_total_tests report.
Proof.
  intros Hans temps tops.
  assert (Ht : temps <> []) by (apply list_or_nonempty; discriminate).
  assert (Hp : tops <> []) by (apply list_or_nonempty; discriminate).
  unfold test_prompt. fold temps. fold tops. unfold se_bind at 1.
  destruct (temperature_loop_measured client_generate_text user_prompt budget Hans
              temps tops [] log) as (entries & Hrun & Hm).
  rewrite Hrun. simpl app in *.
  pose proof (measured_length _ _ _ _ _ _ Hm) as Hlen.
  rewrite length_prod in Hlen.
  assert (Hpos : (0 < List.length temps * List.length tops)%nat).
  { destruct temps; [congruence|]. destruct tops; [congruence|]. simpl. lia. }
  destruct entries as [|e0 entries]; [simpl in Hlen; lia|].
  unfold se_bind, se_lift, se_ret. cbn [py_max ret].
  eexists. split; [reflexivity|]. cbn [sr_test_results sr_total_tests].
  rewrite Hlen. split; [reflexivity|]. split; [reflexivity|]. lia.
Qed.

(** No ranges, or empty ones: nine tests. *)
Lemma test_prompt_defaults_witness :
  exists report,
    test_prompt paced_backend "Hello" None (Some []) 50 []
    = (map (sweep_params "Hello" 50)
           (list_prod [3 # 10; 7 # 10; 1]%Q [8 # 10; 9 # 10; 95 # 100]%Q),
       inr report)
    /\ sr_total_tests report = 9.
Proof.
  destruct (test_prompt_defaults paced_backend "Hello" None (Some []) 50 []
              (fun k params => ex_intro _ _ eq_refl))
    as (report & Hrun & _ & Htotal & _).
  exists report. split; [exact Hrun|exact Htotal].
Defined.

(** *** A sweep that fails *)

Lemma firstn_app_within A (l1 l2 : list A) m :
  (m <= List.length l1)%nat -> firstn m (l1 ++ l2) = firstn m l1.
Proof.
  revert l1. induction m as [|m IH]; intros [|x l1] H; simpl in *;
    try reflexivity; try lia.
  f_equal. apply IH. lia.
Qed.

Section Stopped.

Variable client_generate_text : nat -> GenerateTextParams -> Exc GenerationResult.
Variables (user_prompt : string) (budget : Z).

Let params_of := sweep_params user_prompt budget.
Let answered := measured client_generate_text user_prompt budget.

(** [stopped k combos n e]: of the calls of rank [k], [k + 1], ... made
    for [combos], the first [n] were answered and the next one
    raised [e]. *)
Inductive stopped : nat -> list (Q * Q) -> nat -> exn -> Prop :=
| stopped_here k c combos e :
    client_generate_text k (params_of c) = inl e ->
    stopped k (c :: combos) O e
| stopped_later k c r combos n e :
    client_generate_text k (params_of c) = inr r ->
    stopped (S k) combos n e ->
    stopped k (c :: combos) (S n) e.

Lemma stopped_app_l k cs n e cs' :
  stopped k cs n e -> stopped k (cs ++ cs') n e.
Proof.
  induction 1 as [k c cs e He|k c r cs n e Hr _ IH]; simpl.
  - now constructor.
  - now apply stopped_later with r.
Qed.

Lemma stopped_app_r k cs es : answered k cs es -> forall cs' n e,
  stopped (k + List.length cs) cs' n e ->
  stopped k (cs ++ cs') (List.length cs + n) e.
Proof.
  induction 1 as [k|k c r cs es Hc _ IH]; intros cs' n e Hs; simpl in *.
  - now rewrite Nat.add_0_r in Hs.
  - apply stopped_later with r; [exact Hc|]. apply IH.
    rewrite Nat.add_succ_r in Hs. exact Hs.
Qed.

(** How a loop over [combos] that started with the log [log] and the
    results [acc] ended. *)
Definition loop_outcome (combos : list (Q * Q)) (acc : list SweepEntry)
           (log : CallLog) (run : CallLog * Exc (list SweepEntry)) : Prop :=
  (exists new,
      run = ((log ++ map params_of combos)%list, inr (acc ++ new)%list)
      /\ answered (List.length log) combos new)
  \/ (exists n e,
         run = ((log ++ firstn (S n) (map params_of combos))%list, inl e)
         /\ stopped (List.length log) combos n e).

Lemma top_p_loop_outcome temp tops : forall acc log,
  loop_outcome (map (pair temp) tops) acc log
    (top_p_loop client_generate_text user_prompt budget temp tops acc log).
Proof.
  induction tops as [|p tops IH]; intros acc log; simpl.
  - left. exists []. rewrite !app_nil_r. split; [reflexivity|constructor].
  - unfold se_bind, KoboldCppClient.call_generate.
    destruct (client_generate_text (List.length log)
                (params_with_defaults user_prompt budget temp p)) as [e|r] eqn:E.
    + right. exists O, e. split; [reflexivity|]. now constructor.
    + match goal with
      | |- loop_outcome _ _ _ (top_p_loop _ _ _ _ _ ?acc' ?log') =>
          destruct (IH acc' log') as [(new & Hrun & Hm)|(n & e & Hrun & Hs)];
            rewrite Hrun
      end.
      * left. exists (sweep_entry (temp, p) r :: new).
        rewrite <- !app_assoc. split; [reflexivity|].
        constructor; [exact E|].
        rewrite length_app, Nat.add_1_r in Hm. exact Hm.
      * right. exists (S n), e. rewrite <- app_assoc. split; [reflexivity|].
        apply stopped_later with r; [exact E|].
        rewrite length_app, Nat.add_1_r in Hs. exact Hs.
Qed.

Lemma temperature_loop_outcome temps tops : forall acc log,
  loop_outcome (list_prod temps tops) acc log
    (temperature_loop client_generate_text user_prompt budget temps tops acc log).
Proof.
  induction temps as [|t temps IH]; intros acc log; simpl.
  - left. exists []. rewrite !app_nil_r. split; [reflexivity|constructor].
  - unfold se_bind.
    destruct (top_p_loop_outcome t tops acc log)
      as [(new1 & Hrun1 & Hm1)|(n & e & Hrun1 & Hs1)]; rewrite Hrun1;
      unfold loop_outcome; rewrite map_app.
    + destruct (IH (acc ++ new1)%list
                   (log ++ map params_of (map (pair t) tops))%list)
        as [(new2 & Hrun2 & Hm2)|(n & e & Hrun2 & Hs2)]; rewrite Hrun2;
        rewrite length_app, !length_map in *.
      * left. exists (new1 ++ new2)%list. rewrite <- !app_assoc.
        split; [reflexivity|].
        apply measured_app; [exact Hm1|]. now rewrite length_map.
      * right. exists (List.length (map (pair t) tops) + n)%nat, e.
        split.
        -- rewrite <- app_assoc. f_equal. f_equal.
           replace (S (List.length (map (pair t) tops) + n))
             with (List.length (map params_of (map (pair t) tops)) + S n)%nat
             by (rewrite !length_map; lia).
           now rewrite firstn_app_2.
        -- apply stopped_app_r with new1; [exact Hm1|].
           now rewrite length_map.
    + right. exists n, e. split.
      * f_equal. f_equal. symmetry. apply firstn_app_within.
        clear -Hs1. rewrite length_map.
        induction Hs1; simpl in *; lia.
      * now apply stopped_app_l.
Qed.

(** X20.  When a generate call of the sweep raises, [test_prompt] stops
    there and raises the same exception: the calls issued are those of
    the cross product up to and including the one that failed, the
    earlier ones having been answered, and no report is built. *)
Theorem test_prompt_stops_at_failure
        (ranges_t ranges_p : option (list Q)) (log : CallLog) :
  let combos := list_prod (list_or ranges_t [3 # 10; 7 # 10; 1]%Q)
                          (list_or ranges_p [8 # 10; 9 # 10; 95 # 100]%Q) in
  let run := test_prompt client_generate_text user_prompt ranges_t ranges_p
               budget log in
  (exists report,
      run = ((log ++ map params_of combos)%list, inr report)
      /\ answered (List.length log) combos (sr_test_results report))
  \/ (exists n e,
         run = ((log ++ firstn (S n) (map params_of combos))%list, inl e)
         /\ stopped (List.length log) combos n e).
Proof.
  cbv zeta.
  set (temps := list_or ranges_t _). set (tops := list_or ranges_p _).
  destruct (temperature_loop_outcome temps tops [] log)
    as [(new & Hrun & Hm)|(n & e & Hrun & Hs)]; [left|right];
    unfold test_prompt; fold temps; fold tops; unfold se_bind at 1;
    rewrite Hrun.
  - simpl app in *.
    assert (Hne : new <> []).
    { intros ->. apply measured_length in Hm. rewrite length_prod in Hm.
      assert (temps <> []) by (apply list_or_nonempty; discriminate).
      assert (tops <> []) by (apply list_or_nonempty; discriminate).
      destruct temps; [congruence|]. destruct tops; [congruence|].
      simpl in Hm. lia. }
    destruct new as [|e0 new]; [congruence|].
    unfold se_bind, se_lift, se_ret. cbn [py_max ret].
    eexists. split; [reflexivity|exact Hm].
  - exists n, e. split; [reflexivity|exact Hs].
Qed.

End Stopped.

(** A backend that answers two calls and then times out. *)
Definition tiring_backend (k : nat) (params : GenerateTextParams) : Exc GenerationResult :=
  if (k <? 2)%nat then paced_backend k params else inl TimeoutError.

Example test_prompt_stops_after_three_calls :
  test_prompt tiring_backend "Hello" None None 50 []
  = (map (sweep_params "Hello" 50)
         [(3 # 10, 8 # 10); (3 # 10, 9 # 10); (3 # 10, 95 # 100)]%Q,
     inl TimeoutError).
Proof. reflexivity. Qed.

(** *** The report of a batch *)

Lemma enumerate_from_nth A (l : list A) : forall i j k x,
  nth_error (enumerate_from i l) j = Some (k, x) ->
  k = i + Z.of_nat j /\ nth_error l j = Some x.
Proof.
  induction l as [|y l IH]; intros i j k x H.
  - destruct j; discriminate.
  - destruct j as [|j]; simpl in H.
    + injection H as <- <-. split; [lia|reflexivity].
    + apply IH in H. destruct H as [-> H]. split; [lia|exact H].
Qed.

Lemma enumerate_from_length A (l : list A) : forall i,
  List.length (enumerate_from i l) = List.length l.
Proof.
  induction l as [|x l IH]; intros i; simpl; [reflexivity|]. now rewrite IH.
Qed.

(** X21.  For a batch of at most 50 prompts and a concurrency, the
    smaller of [max_concurrent] and [max_concurrent_requests], of at
    least 1, [batch_generate] returns a report that has one entry per
    prompt, the entry at position [j] carrying [prompt_index = j] and,
    every task of the client failing, [success = False];
    [successful + failed] is the number of prompts, and [total_time] is
    the time between the two readings of the clock. *)
Theorem batch_report_shape
        (settings : Settings)
        (client_generate_text : nat -> GenerateTextParams -> Exc GenerationResult)
        (start_time end_time : Q) (batch : list string) (budget : Z)
        (temp : Q) (concurrency : Z) (log : CallLog) :
  Z.of_nat (List.length batch) <= 50 ->
  0 < Z.min concurrency (max_concurrent_requests (performance settings)) ->
  exists report,
    batch_generate settings client_generate_text start_time end_time batch
      budget temp concurrency log
    = (log, Done (inr report))
    /\ List.length (br_results report) = List.length batch
    /\ (forall j entry,
          nth_error (br_results report) j = Some entry ->
          be_prompt_index entry = Z.of_nat j /\ be_success entry = false)
    /\ br_successful report + br_failed report = br_total_prompts report
    /\ br_total_prompts report = Z.of_nat (List.length batch)
    /\ br_total_time report = (end_time - start_time)%Q.
Proof.
  intros Hlen Hpos. unfold batch_generate.
  destruct (_ >? 50) eqn:E; [apply Z.gtb_lt in E; lia|]. clear E.
  rewrite ClientFacts.batch_generate_with_permit by exact Hpos.
  cbn [prompts].
  set (sent_prompts := if data_sanitization (security settings)
                       then map (_sanitize_prompt settings) batch else batch).
  assert (Hsame : List.length sent_prompts = List.length batch)
    by (subst sent_prompts; destruct (data_sanitization (security settings));
        [apply length_map|reflexivity]).
  eexists. split; [reflexivity|].
  cbn [br_results br_successful br_failed br_total_prompts br_total_time
       results successful failed total_time].
  split; [|split; [|split; [|split]]].
  - now rewrite length_map, enumerate_from_length, length_map.
  - intros j entry Hj. rewrite nth_error_map in Hj.
    destruct (nth_error (enumerate_from 0 _) j) as [[k r]|] eqn:Hk;
      [|discriminate].
    injection Hj as <-. apply enumerate_from_nth in Hk. destruct Hk as [-> Hr].
    rewrite nth_error_map in Hr.
    destruct (nth_error sent_prompts j); [|discriminate].
    injection Hr as <-. split; [simpl; lia|reflexivity].
  - lia.
  - now rewrite Hsame.
  - reflexivity.
Qed.

Lemma batch_report_shape_witness :
  exists report,
    batch_generate default_settings paced_backend 10 12 ["a"; "b"; "c"]
      100 (7 # 10) 3 []
    = ([], Done (inr report))
    /\ map be_prompt_index (br_results report) = [0; 1; 2]
    /\ br_successful report + br_failed report = 3.
Proof.
  destruct (batch_report_shape default_settings paced_backend 10 12
              ["a"; "b"; "c"] 100 (7 # 10) 3 [] ltac:(simpl; lia)
              ltac:(simpl; lia))
    as (report & Hrun & _ & _ & Hsum & Htotal & _).
  exists report. split; [exact Hrun|].
  split; [|now rewrite Hsum, Htotal].
  vm_compute in Hrun. injection Hrun as <-. reflexivity.
Defined.

End ToolMore.

(* ================================================================= *)
(** * kobold_client.py: the operations on top of [_make_request] *)

Module ClientOps.
Import KoboldCppClient.

(** The exceptions of these operations: those of [exn], and the
    [IndexError] of [results[0]] on an empty list. *)
Inductive raised : Type :=
| Known (e : exn)
| IndexError (msg : string).

(** A computation of the client: it adds to the delays slept by
    [_make_request]; it returns, raises, or waits for ever at the request
    gate. *)
Definition Op (A : Type) : Type := list Q -> list Q * Await (raised + A).

Definition op_ret {A} (a : A) : Op A := fun slept => (slept, Done (inr a)).
Definition op_raise {A} (r : raised) : Op A := fun slept => (slept, Done (inl r)).
Definition op_bind {A B} (m : Op A) (k : A -> Op B) : Op B :=
  fun slept => match m slept with
               | (slept', Done (inr a)) => k a slept'
               | (slept', Done (inl r)) => (slept', Done (inl r))
               | (slept', Blocked) => (slept', Blocked)
               end.
Definition op_lift {A} (m : raised + A) : Op A := fun slept => (slept, Done m).

(** [try: m  except Exception: h]: a call that is never resumed raises
    nothing. *)
Definition op_try {A} (m : Op A) (h : raised -> Op A) : Op A :=
  fun slept => match m slept with
               | (slept', Done (inl r)) => h r slept'
               | r => r
               end.

Definition pure_bind {A B} (m : raised + A) (k : A -> raised + B) : raised + B :=
  match m with
  | inl r => inl r
  | inr a => k a
  end.

Declare Scope op_scope.
Delimit Scope op_scope with op.
Notation "x <- m ;; k" := (op_bind m (fun x => k))
  (at level 61, m at next level, right associativity) : op_scope.
Declare Scope pure_scope.
Delimit Scope pure_scope with pure.
Notation "x <- m ;; k" := (pure_bind m (fun x => k))
  (at level 61, m at next level, right associativity) : pure_scope.

(** *** Reading a response *)

(** [v.get(k, default)] on any JSON value *)
Definition py_get (v : Json) (k : string) (default : Json) : raised + Json :=
  match v with
  | JDict d => inr (dict_get_default d k default)
  | _ => inl (Known (no_attribute v "get"))
  end.

(** [v[0]] on any JSON value *)
Definition py_first (v : Json) : raised + Json :=
  match v with
  | JList (x :: _) => inr x
  | JList [] => inl (IndexError "list index out of range")
  | JStr (String c _) => inr (JStr (String c EmptyString))
  | JStr EmptyString => inl (IndexError "string index out of range")
  | JDict _ => inl (Known (KeyError "0"))
  | _ => inl (Known (TypeError ("'" ++ type_name v ++ "' object is not subscriptable")))
  end.

(** Whitespace as [str.split()] sees it, among the characters below
    256: tab to carriage return, the four separators 28 to 31, the
    space, next line (133) and the no-break space (160). *)
Definition is_space (c : ascii) : bool :=
  let n := nat_of_ascii c in
  ((9 <=? n) && (n <=? 13) || (28 <=? n) && (n <=? 32)
   || (n =? 133) || (n =? 160))%nat.

(** [s.split()]: the maximal runs of characters that are not
    whitespace; [word] is the run being read. *)
Fixpoint split_from (word : string) (s : string) : list string :=
  match s with
  | EmptyString =>
      match word with
      | EmptyString => []
      | _ => [word]
      end
  | String c s' =>
      if is_space c
      then match word with
           | EmptyString => split_from EmptyString s'
           | _ => word :: split_from EmptyString s'
           end
      else split_from (word ++ String c EmptyString) s'
  end.

Definition py_split (s : string) : list string := split_from EmptyString s.

(** [len(v.split())] *)
Definition word_count (v : Json) : raised + Z :=
  match v with
  | JStr s => inr (Z.of_nat (List.length (py_split s)))
  | _ => inl (Known (no_attribute v "split"))
  end.

(** [tokens / generation_time if generation_time > 0 else 0] *)
Definition rate (tokens : Q) (generation_time : Q) : Q :=
  if Qlt_le_dec 0 generation_time then tokens / generation_time else 0.

(** [tokens / generation_time if generation_time > 0 else 0] for a
    token count taken from the response: an int is converted to a float
    for the quotient. *)
Definition json_rate (tokens : Json) (generation_time : Q) : raised + Q :=
  if Qlt_le_dec 0 generation_time
  then match tokens with
       | JInt n =>
           match float_of_int n with
           | inr x => inr (x / generation_time)%Q
           | inl e => inl (Known e)
           end
       | JFloat q => inr (q / generation_time)%Q
       | JBool b => inr ((if b then 1 else 0) / generation_time)%Q
       | _ => inl (Known (TypeError "unsupported operand type(s) for /"))
       end
  else inr 0%Q.

(** Validation of a field declared [int], in pydantic's lax mode: an int
    is taken as it is, a bool is 0 or 1, a float without fractional part
    is its value, and a string is parsed.  How pydantic parses a string
    as an int is not in the repository: [int_of_str] is what it makes of
    the string.  (The text of the error is abridged.) *)
Definition validate_int (int_of_str : string -> option Z) (field : string)
           (v : Json) : raised + Z :=
  let refused :=
    inl (Known (ValidationError (field ++ ": Input should be a valid integer"))) in
  match v with
  | JInt n => inr n
  | JBool b => inr (if b then 1 else 0)
  | JFloat q => match int_of_float q with Some n => inr n | None => refused end
  | JStr s => match int_of_str s with Some n => inr n | None => refused end
  | _ => refused
  end.

(** Validation of a field declared [str]: only a string is one. *)
Definition validate_str (field : string) (v : Json) : raised + string :=
  match v with
  | JStr s => inr s
  | _ => inl (Known (ValidationError (field ++ ": Input should be a valid string")))
  end.

Definition validate_opt {A} (validate : Json -> raised + A) (v : Json)
  : raised + option A :=
  match v with
  | JNull => inr None
  | _ => match validate v with
         | inl r => inl r
         | inr a => inr (Some a)
         end
  end.

(** The models of message_types.py and kobold_client.py that these
    operations use. *)
Record ChatMessage := {
  role : string;        (* "user", "assistant" or "system" *)
  content : string
}.

Record ChatCompletionParams := {
  messages : list ChatMessage;
  chat_max_tokens : Z;
  chat_temperature : Q;
  chat_top_p : Q;
  chat_stream : bool
}.

Record ModelInfo := {
  mi_model_name : string;
  mi_context_length : Z;
  mi_vocab_size : option Z;
  mi_parameters : option string;
  mi_architecture : option string;
  mi_format : option string
}.

(** [KoboldCppStatus] is a dataclass: its fields hold what they are
    given, without validation. *)
Record KoboldCppStatus := {
  online : bool;
  model_loaded : Json;
  model_name : Json;
  context_length : Json;
  generation_active : Json
}.

(** [KoboldCppStatus(online=False, model_loaded=False)] *)
Definition offline : KoboldCppStatus :=
  {| online := false; model_loaded := JBool false; model_name := JNull;
     context_length := JNull; generation_active := JBool false |}.

(** *** The backend *)

(** The endpoint fields of [KoboldCppConfig]. *)
Record Endpoints := {
  generate_endpoint : string;
  chat_endpoint : string;
  model_endpoint : string;
  status_endpoint : string
}.

Definition default_endpoints : Endpoints :=
  {| generate_endpoint := "/api/v1/generate";
     chat_endpoint := "/api/v1/chat/completions";
     model_endpoint := "/api/v1/model";
     status_endpoint := "/api/extra/generate/check" |}.

(** What the backend does with attempt [k] of a request, by method,
    endpoint and body. *)
Definition Backend : Type :=
  string -> string -> option Json -> nat -> attempt_outcome.

Section Operations.

Variable config : KoboldCppConfig.

(** The permits of the request gate of the client. *)
Variable permits : N.

Variable endpoints : Endpoints.
Variable backend : Backend.

(** What pydantic makes of a string given for an int. *)
Variable int_of_str : string -> option Z.

(** [await self._make_request(method, endpoint, data)] *)
Definition request (method endpoint : string) (data : option Json) : Op Json :=
  fun slept =>
    match _make_request config permits (backend method endpoint data) None slept with
    | (slept', Done (inl e)) => (slept', Done (inl (Known e)))
    | (slept', Done (inr response)) => (slept', Done (inr response))
    | (slept', Blocked) => (slept', Blocked)
    end.

(** The body that [generate_text] posts. *)
Definition generate_request_data (params : GenerateTextParams) : Json :=
  JDict [("prompt", JStr (prompt params));
         ("max_context_length", JInt (max_tokens params));
         ("max_length", JInt (max_tokens params));
         ("temperature", JFloat (temperature params));
         ("top_p", JFloat (top_p params));
         ("top_k", JInt (top_k params));
         ("typical", JFloat (typical_p params));
         ("rep_pen", JFloat (rep_pen params));
         ("rep_pen_range", JInt (rep_pen_range params));
         ("sampler_order", JList (map JInt [6; 0; 1; 3; 4; 2; 5]));
         ("stop_sequence",
            JList (map JStr (TextGenerationTools.list_or (stop_sequence params) [])));
         ("stream", JBool (stream params))].

(** Lines 181-191: from the response to the result. *)
Definition generation_of (generation_time : Q) (response : Json)
  : raised + GenerationResult :=
  (results <- py_get response "results" (JList [JDict []]) ;;
   first <- py_first results ;;
   generated_text <- py_get first "text" (JStr "") ;;
   tokens_generated <- word_count generated_text ;;
   match generated_text with
   | JStr s =>
       inr {| text := s;
              tokens_generated := tokens_generated;
              generation_time := generation_time;
              tokens_per_second := rate (inject_Z tokens_generated) generation_time;
              finish_reason := "stop" |}
   | _ => inl (Known (ValidationError "text: Input should be a valid string"))
   end)%pure.

(** [generate_text]; [start_time] and [end_time] are the readings of the
    clock before the request and after it. *)
Definition generate_text (start_time end_time : Q) (params : GenerateTextParams)
  : Op GenerationResult :=
  (response <- request "POST" (generate_endpoint endpoints)
                 (Some (generate_request_data params)) ;;
   op_lift (generation_of (end_time - start_time) response))%op.

(** **** Chat completion *)

(** The body that [chat_completion] posts. *)
Definition chat_request_data (params : ChatCompletionParams) : Json :=
  JDict [("model", JStr "koboldcpp");
         ("messages",
            JList (map (fun msg => JDict [("role", JStr (role msg));
                                          ("content", JStr (content msg))])
                       (messages params)));
         ("max_tokens", JInt (chat_max_tokens params));
         ("temperature", JFloat (chat_temperature params));
         ("top_p", JFloat (chat_top_p params));
         ("stream", JBool (chat_stream params))].

(** Lines 237-254: from the response to the result.  The default of
    [usage.get("completion_tokens", ...)], the word count of the text, is
    computed whether or not it is used. *)
Definition completion_of (generation_time : Q) (response : Json)
  : raised + GenerationResult :=
  (choices <- py_get response "choices" (JList []) ;;
   if negb (truthy choices)
   then inl (Known (ValueError "No choices returned from chat completion"))
   else
     first <- py_first choices ;;
     message <- py_get first "message" (JDict []) ;;
     generated_text <- py_get message "content" (JStr "") ;;
     finish <- py_get first "finish_reason" (JStr "stop") ;;
     usage <- py_get response "usage" (JDict []) ;;
     _ <- py_get usage "completion_tokens" JNull ;;
     estimate <- word_count generated_text ;;
     tokens <- py_get usage "completion_tokens" (JInt estimate) ;;
     speed <- json_rate tokens generation_time ;;
     tokens_generated <- validate_int int_of_str "tokens_generated" tokens ;;
     match generated_text, finish with
     | JStr s, JStr reason =>
         inr {| text := s;
                tokens_generated := tokens_generated;
                generation_time := generation_time;
                tokens_per_second := speed;
                finish_reason := reason |}
     | _, _ => inl (Known (ValidationError "Input should be a valid string"))
     end)%pure.

Definition chat_completion (start_time end_time : Q) (params : ChatCompletionParams)
  : Op GenerationResult :=
  (response <- request "POST" (chat_endpoint endpoints)
                 (Some (chat_request_data params)) ;;
   op_lift (completion_of (end_time - start_time) response))%op.

(** **** Status and model information *)

(** The keyword arguments of the [KoboldCppStatus] that [check_status]
    returns for an online server, in the order they are evaluated;
    [model_data] is [JNull] for [None]. *)
Definition status_of (status_data model_data : Json) : raised + KoboldCppStatus :=
  (ready <- py_get status_data "ready" (JBool false) ;;
   name <- (if truthy model_data
            then py_get model_data "model_name" JNull
            else inr JNull) ;;
   context <- (if truthy model_data
               then py_get model_data "max_context_length" JNull
               else inr JNull) ;;
   generating <- py_get status_data "generating" (JBool false) ;;
   inr {| online := true; model_loaded := ready; model_name := name;
          context_length := context; generation_active := generating |})%pure.

(** [check_status]: it catches every exception, so it never raises. *)
Definition check_status : list Q -> list Q * Await KoboldCppStatus :=
  fun slept =>
    match (status_data <- request "GET" (status_endpoint endpoints) None ;;
           model_data <- op_try (request "GET" (model_endpoint endpoints) None)
                                (fun _ => op_ret JNull) ;;
           op_lift (status_of status_data model_data))%op slept with
    | (slept', Done (inr status)) => (slept', Done status)
    | (slept', Done (inl _)) => (slept', Done offline)
    | (slept', Blocked) => (slept', Blocked)
    end.

(** [health_check] *)
Definition health_check : list Q -> list Q * Await bool :=
  fun slept =>
    match check_status slept with
    | (slept', Done status) => (slept', Done (online status))
    | (slept', Blocked) => (slept', Blocked)
    end.

(** Lines 144-151: the [ModelInfo] built from the response. *)
Definition model_info_of (data : Json) : raised + ModelInfo :=
  (name <- py_get data "model_name" (JStr "unknown") ;;
   context <- py_get data "max_context_length" (JInt 2048) ;;
   vocab <- py_get data "vocab_size" JNull ;;
   params <- py_get data "parameters" JNull ;;
   arch <- py_get data "architecture" JNull ;;
   fmt <- py_get data "format" JNull ;;
   name' <- validate_str "model_name" name ;;
   context' <- validate_int int_of_str "context_length" context ;;
   vocab' <- validate_opt (validate_int int_of_str "vocab_size") vocab ;;
   params' <- validate_opt (validate_str "parameters") params ;;
   arch' <- validate_opt (validate_str "architecture") arch ;;
   fmt' <- validate_opt (validate_str "format") fmt ;;
   inr {| mi_model_name := name'; mi_context_length := context';
          mi_vocab_size := vocab'; mi_parameters := params';
          mi_architecture := arch'; mi_format := fmt' |})%pure.

(** [get_model_info]: what it catches it raises again. *)
Definition get_model_info : Op ModelInfo :=
  (data <- request "GET" (model_endpoint endpoints) None ;;
   op_lift (model_info_of data))%op.

End Operations.

End ClientOps.

(* ================================================================= *)
(** * Properties of the client operations *)

Module ClientOpsFacts.
Import KoboldCppClient ClientOps.

(** *** The word count *)

Lemma split_from_length s : forall word,
  (List.length (split_from word s)
   <= String.length s + match word with EmptyString => 0 | _ => 1 end)%nat.
Proof.
  induction s as [|c s IH]; intros word; simpl.
  - destruct word; simpl; lia.
  - destruct (is_space c).
    + destruct word; simpl; specialize (IH EmptyString); simpl in IH; lia.
    + specialize (IH (word ++ String c EmptyString)).
      destruct (word ++ String c EmptyString) eqn:E.
      * destruct word; discriminate.
      * destruct word; lia.
Qed.

Lemma split_from_word s : forall word,
  word <> EmptyString -> split_from word s <> [].
Proof.
  induction s as [|c s IH]; intros word Hw; simpl.
  - destruct word; [congruence|discriminate].
  - destruct (is_space c).
    + destruct word; [congruence|discriminate].
    + apply IH. destruct word; discriminate.
Qed.

Lemma py_split_blank s :
  py_split s = [] <-> ToolMore.str_all is_space s = true.
Proof.
  unfold py_split. induction s as [|c s IH]; simpl.
  - tauto.
  - destruct (is_space c); simpl; [exact IH|].
    split; [|discriminate]. intros H. exfalso.
    revert H. apply split_from_word. discriminate.
Qed.

Lemma py_split_length s : (List.length (py_split s) <= String.length s)%nat.
Proof. pose proof (split_from_length s EmptyString). simpl in H. unfold py_split. lia. Qed.

(** *** The rate *)

Lemma rate_nonneg tokens generation_time :
  (0 <= tokens)%Q -> (0 <= rate tokens generation_time)%Q.
Proof.
  intros Ht. unfold rate. destruct (Qlt_le_dec 0 generation_time) as [Hpos|_].
  - unfold Qdiv. apply Qmult_le_0_compat; [exact Ht|].
    apply Qinv_le_0_compat. now apply Qlt_le_weak.
  - apply Qle_refl.
Qed.

Lemma rate_no_time tokens generation_time :
  (generation_time <= 0)%Q -> rate tokens generation_time = 0%Q.
Proof.
  intros Hle. unfold rate. destruct (Qlt_le_dec 0 generation_time) as [Hpos|_].
  - exfalso. apply (Qlt_irrefl 0). eapply Qlt_le_trans; eauto.
  - reflexivity.
Qed.

Section Facts.

Variable config : KoboldCppConfig.
Variable permits : N.
Variable endpoints : Endpoints.
Variable backend : Backend.

(** The text that [generate_text] reads in a response object: the
    [text] of the first of its [results], each of the two being allowed
    to be absent. *)
Definition response_text (d : dict Json) : option string :=
  match dict_get d "results" with
  | None => Some EmptyString
  | Some (JList (JDict r :: _)) =>
      match dict_get r "text" with
      | None => Some EmptyString
      | Some (JStr t) => Some t
      | Some _ => None
      end
  | Some _ => None
  end.

Lemma generation_of_text generation_time d t :
  response_text d = Some t ->
  generation_of generation_time (JDict d)
  = inr {| text := t;
           tokens_generated := Z.of_nat (List.length (py_split t));
           generation_time := generation_time;
           tokens_per_second :=
             rate (inject_Z (Z.of_nat (List.length (py_split t)))) generation_time;
           finish_reason := "stop" |}.
Proof.
  unfold response_text, generation_of, py_get, dict_get_default. simpl.
  destruct (dict_get d "results") as [[| | | | |[|[| | | | | |r] l]|]|];
    simpl; try discriminate.
  - destruct (dict_get r "text") as [[]|]; simpl; try discriminate;
      now intros [= <-].
  - now intros [= <-].
Qed.

(** X22.  When the request is answered with an object, [generate_text]
    returns the text of the first result, an absent [results] or [text]
    counting as the empty text and not as an error; the token count is
    the number of whitespace-separated words of the text, the time is
    the difference of the two readings of the clock, and the finish
    reason is "stop".  The delays slept are those of the request. *)
Theorem generate_text_reads_text
        (start_time end_time : Q) (params : GenerateTextParams)
        (slept slept' : list Q) (d : dict Json) (t : string) :
  request config permits backend "POST" (generate_endpoint endpoints)
    (Some (generate_request_data params)) slept
  = (slept', Done (inr (JDict d))) ->
  response_text d = Some t ->
  generate_text config permits endpoints backend start_time end_time params slept
  = (slept',
     Done (inr {| text := t;
                  tokens_generated := Z.of_nat (List.length (py_split t));
                  generation_time := end_time - start_time;
                  tokens_per_second :=
                    rate (inject_Z (Z.of_nat (List.length (py_split t))))
                         (end_time - start_time);
                  finish_reason := "stop" |})).
Proof.
  intros Hreq Ht. unfold generate_text, op_bind, op_lift. rewrite Hreq.
  now rewrite (generation_of_text _ d t Ht).
Qed.

(** X23.  An exception of the request leaves [generate_text] as it is,
    and a response whose [results] is an empty list raises
    [IndexError]: neither is turned into a result.  A request that waits
    at the gate for ever leaves [generate_text] waiting. *)
Theorem generate_text_failures
        (start_time end_time : Q) (params : GenerateTextParams)
        (slept slept' : list Q) :
  (forall r,
      request config permits backend "POST" (generate_endpoint endpoints)
        (Some (generate_request_data params)) slept
      = (slept', Done (inl r)) ->
      generate_text config permits endpoints backend start_time end_time params slept
      = (slept', Done (inl r)))
  /\ (forall d,
        request config permits backend "POST" (generate_endpoint endpoints)
          (Some (generate_request_data params)) slept
        = (slept', Done (inr (JDict d))) ->
        dict_get d "results" = Some (JList []) ->
        generate_text config permits endpoints backend start_time end_time params slept
        = (slept', Done (inl (IndexError "list index out of range"))))
  /\ (request config permits backend "POST" (generate_endpoint endpoints)
        (Some (generate_request_data params)) slept
      = (slept', Blocked) ->
      generate_text config permits endpoints backend start_time end_time params slept
      = (slept', Blocked)).
Proof.
  split; [|split].
  - intros r Hreq. unfold generate_text, op_bind. now rewrite Hreq.
  - intros d Hreq Hres. unfold generate_text, op_bind, op_lift. rewrite Hreq.
    unfold generation_of, py_get, dict_get_default. simpl. now rewrite Hres.
  - intros Hreq. unfold generate_text, op_bind. now rewrite Hreq.
Qed.

(** X24.  Whatever the backend answers, a result of [generate_text] has
    a token count between 0 and the length of its text, a rate that is
    not negative and is 0 when no time has passed between the two
    readings of the clock, and the finish reason "stop". *)
Theorem generate_text_result_bounds
        (start_time end_time : Q) (params : GenerateTextParams)
        (slept slept' : list Q) (r : GenerationResult) :
  generate_text config permits endpoints backend start_time end_time params slept
  = (slept', Done (inr r)) ->
  0 <= tokens_generated r <= Z.of_nat (String.length (text r))
  /\ (tokens_generated r = 0 <-> ToolMore.str_all is_space (text r) = true)
  /\ (0 <= tokens_per_second r)%Q
  /\ ((end_time - start_time <= 0)%Q -> tokens_per_second r = 0%Q)
  /\ generation_time r = (end_time - start_time)%Q
  /\ finish_reason r = "stop".
Proof.
  unfold generate_text, op_bind, op_lift.
  destruct (request _ _ _ _ _ _ _) as [s1 [[e|response]|]]; try discriminate.
  unfold generation_of, pure_bind.
  destruct (py_get response "results" _) as [|results]; [discriminate|].
  destruct (py_first results) as [|first]; [discriminate|].
  destruct (py_get first "text" _) as [|[| | | |t| |]]; try discriminate.
  simpl. intros [= <- <-]. simpl.
  pose proof (py_split_length t) as Hlen.
  split; [lia|]. split.
  - rewrite <- py_split_blank. destruct (py_split t); simpl; split;
      try reflexivity; try discriminate; lia.
  - split; [|split; [|split; reflexivity]].
    + apply rate_nonneg. change 0%Q with (inject_Z 0).
      rewrite <- Zle_Qle. lia.
    + apply rate_no_time.
Qed.

End Facts.

(** A backend that is busy twice and then answers. *)
Definition slow_backend (response : Json) : Backend :=
  fun _ _ _ k => if (k <? 2)%nat then Responded 503 JNull "busy"
                 else Responded 200 response "".

Definition hello_params : GenerateTextParams :=
  TextGenerationTools.params_with_defaults "Hello" 10 (7 # 10) (9 # 10).

(** The answer [{"results": [{"text": " world"}]}], after two retries. *)
Lemma generate_text_reads_text_witness :
  generate_text (koboldcpp default_settings) 5 default_endpoints
    (slow_backend (JDict [("results", JList [JDict [("text", JStr " world")]])]))
    100 102 hello_params []
  = ([1; 2]%Q,
     Done (inr {| text := " world"; tokens_generated := 1;
                  generation_time := 102 - 100;
                  tokens_per_second := rate (inject_Z 1) (102 - 100);
                  finish_reason := "stop" |})).
Proof.
  exact (generate_text_reads_text (koboldcpp default_settings) 5 default_endpoints
           (slow_backend (JDict [("results", JList [JDict [("text", JStr " world")]])]))
           100 102 hello_params [] [1; 2]%Q
           [("results", JList [JDict [("text", JStr " world")]])] " world"
           eq_refl eq_refl).
Defined.

(** A backend that always times out, one that answers with no results,
    and a client whose gate has no permit. *)
Lemma generate_text_failures_witness :
  generate_text {| max_retries := 0; retry_delay := 1 |} 5 default_endpoints
    (fun _ _ _ _ => Failed TimeoutError) 0 1 hello_params []
  = ([], Done (inl (Known TimeoutError)))
  /\ generate_text {| max_retries := 0; retry_delay := 1 |} 5 default_endpoints
       (fun _ _ _ _ => Responded 200 (JDict [("results", JList [])]) "")
       0 1 hello_params []
     = ([], Done (inl (IndexError "list index out of range")))
  /\ generate_text {| max_retries := 0; retry_delay := 1 |} 0 default_endpoints
       (fun _ _ _ _ => Responded 200 (JDict [("results", JList [])]) "")
       0 1 hello_params []
     = ([], Blocked).
Proof.
  split; [|split].
  - exact (proj1 (generate_text_failures {| max_retries := 0; retry_delay := 1 |} 5
                    default_endpoints (fun _ _ _ _ => Failed TimeoutError)
                    0 1 hello_params [] [])
                 (Known TimeoutError) eq_refl).
  - exact (proj1 (proj2 (generate_text_failures
                           {| max_retries := 0; retry_delay := 1 |} 5
                           default_endpoints
                           (fun _ _ _ _ =>
                              Responded 200 (JDict [("results", JList [])]) "")
                           0 1 hello_params [] []))
                 [("results", JList [])] eq_refl eq_refl).
  - exact (proj2 (proj2 (generate_text_failures
                           {| max_retries := 0; retry_delay := 1 |} 0
                           default_endpoints
                           (fun _ _ _ _ =>
                              Responded 200 (JDict [("results", JList [])]) "")
                           0 1 hello_params [] []))
                 eq_refl).
Defined.

Lemma generate_text_result_bounds_witness :
  0 <= 1 <= 6 /\ (0 <= rate (inject_Z 1) (102 - 100))%Q.
Proof.
  destruct (generate_text_result_bounds (koboldcpp default_settings) 5
              default_endpoints
              (slow_backend (JDict [("results", JList [JDict [("text", JStr " world")]])]))
              100 102 hello_params [] [1; 2]%Q
              {| text := " world"; tokens_generated := 1;
                 generation_time := 102 - 100;
                 tokens_per_second := rate (inject_Z 1) (102 - 100);
                 finish_reason := "stop" |}
              eq_refl) as (Hb & _ & Hr & _).
  split; [exact Hb|exact Hr].
Defined.

End ClientOpsFacts.

Module ChatStatusFacts.
Import KoboldCppClient ClientOps.

Section Facts.

Variable config : KoboldCppConfig.
Variable permits : N.
Variable endpoints : Endpoints.
Variable backend : Backend.
Variable int_of_str : string -> option Z.

(** X25.  A response without choices is a hard error: when [choices] is
    absent, null or empty, [chat_completion] raises the [ValueError]
    "No choices returned from chat completion", whatever else the
    response holds. *)
Theorem chat_completion_no_choices
        (start_time end_time : Q) (params : ChatCompletionParams)
        (slept slept' : list Q) (d : dict Json) :
  request config permits backend "POST" (chat_endpoint endpoints)
    (Some (chat_request_data params)) slept
  = (slept', Done (inr (JDict d))) ->
  truthy (dict_get_default d "choices" (JList [])) = false ->
  chat_completion config permits endpoints backend int_of_str
    start_time end_time params slept
  = (slept',
     Done (inl (Known (ValueError "No choices returned from chat completion")))).
Proof.
  intros Hreq Hc. unfold chat_completion, op_bind, op_lift. rewrite Hreq.
  unfold completion_of, py_get, pure_bind. now rewrite Hc.
Qed.

(** X26.  From a response whose first choice has a message with a text
    content, [chat_completion] returns that text and the finish reason
    of the choice ("stop" when it gives none); the token count is
    [usage.completion_tokens] when the response gives one, and the
    number of whitespace-separated words of the text when it has no
    [usage] or no count in it.  The count is an int that a float can
    hold: it is divided by the elapsed time. *)
Theorem chat_completion_reads_choice
        (start_time end_time : Q) (params : ChatCompletionParams)
        (slept slept' : list Q) (d choice message usage : dict Json)
        (others : list Json) (t reason : string) (n : Z) :
  request config permits backend "POST" (chat_endpoint endpoints)
    (Some (chat_request_data params)) slept
  = (slept', Done (inr (JDict d))) ->
  dict_get d "choices" = Some (JList (JDict choice :: others)) ->
  dict_get choice "message" = Some (JDict message) ->
  dict_get message "content" = Some (JStr t) ->
  dict_get_default choice "finish_reason" (JStr "stop") = JStr reason ->
  dict_get_default d "usage" (JDict []) = JDict usage ->
  dict_get_default usage "completion_tokens"
    (JInt (Z.of_nat (List.length (py_split t)))) = JInt n ->
  Z.abs n < 2 ^ 1024 - 2 ^ 970 ->
  chat_completion config permits endpoints backend int_of_str
    start_time end_time params slept
  = (slept',
     Done (inr {| text := t;
                  tokens_generated := n;
                  generation_time := end_time - start_time;
                  tokens_per_second := rate (inject_Z n) (end_time - start_time);
                  finish_reason := reason |}))
  /\ (dict_get usage "completion_tokens" = None ->
      n = Z.of_nat (List.length (py_split t))).
Proof.
  intros Hreq Hc Hm Ht Hf Hu Hn Hsize. split.
  - unfold chat_completion, op_bind, op_lift. rewrite Hreq.
    unfold completion_of, py_get, pure_bind, dict_get_default in *.
    rewrite Hc. simpl. rewrite Hm, Ht. simpl. rewrite Hf, Hu. simpl.
    rewrite Hn. unfold json_rate, rate.
    rewrite (FloatFacts.float_of_int_within n Hsize).
    destruct (Qlt_le_dec 0 (end_time - start_time)); reflexivity.
  - intros Hnone. unfold dict_get_default in Hn. rewrite Hnone in Hn.
    now injection Hn.
Qed.

(** A count that no float can hold: when time has passed, the quotient
    raises and no result is built. *)
Lemma chat_completion_overflow
      (start_time end_time : Q) (params : ChatCompletionParams)
      (slept slept' : list Q) (d choice message usage : dict Json)
      (others : list Json) (t reason : string) (n : Z) :
  request config permits backend "POST" (chat_endpoint endpoints)
    (Some (chat_request_data params)) slept
  = (slept', Done (inr (JDict d))) ->
  dict_get d "choices" = Some (JList (JDict choice :: others)) ->
  dict_get choice "message" = Some (JDict message) ->
  dict_get message "content" = Some (JStr t) ->
  dict_get_default choice "finish_reason" (JStr "stop") = JStr reason ->
  dict_get_default d "usage" (JDict []) = JDict usage ->
  dict_get usage "completion_tokens" = Some (JInt n) ->
  2 ^ 1024 - 2 ^ 970 <= Z.abs n ->
  (0 < end_time - start_time)%Q ->
  chat_completion config permits endpoints backend int_of_str
    start_time end_time params slept
  = (slept',
     Done (inl (Known (OverflowError "int too large to convert to float")))).
Proof.
  intros Hreq Hc Hm Ht Hf Hu Hn Hsize Htime.
  unfold chat_completion, op_bind, op_lift. rewrite Hreq.
  unfold completion_of, py_get, pure_bind, dict_get_default in *.
  rewrite Hc. simpl. rewrite Hm, Ht. simpl. rewrite Hf, Hu. simpl.
  rewrite Hn. unfold json_rate.
  rewrite (FloatFacts.float_of_int_beyond n Hsize).
  destruct (Qlt_le_dec 0 (end_time - start_time)) as [_|Hle]; [reflexivity|].
  exfalso. apply (Qlt_irrefl 0). eapply Qlt_le_trans; eauto.
Qed.


(** [health_check] is the [online] of [check_status]. *)
Lemma health_check_online (slept : list Q) :
  (forall slept1 status,
      check_status config permits endpoints backend slept = (slept1, Done status) ->
      health_check config permits endpoints backend slept
      = (slept1, Done (online status)))
  /\ (forall slept1 r,
        request config permits backend "GET" (status_endpoint endpoints) None slept
        = (slept1, Done (inl r)) ->
        health_check config permits endpoints backend slept = (slept1, Done false)).
Proof.
  split.
  - intros slept1 status Hs. unfold health_check. now rewrite Hs.
  - intros slept1 r Hs. unfold health_check, check_status, op_bind.
    now rewrite Hs.
Qed.

(** X28.  [get_model_info] fills in what the backend leaves out: the
    model name "unknown" and the context length 2048, the four optional
    fields staying empty.  A default stands for an absent key only: the
    name returned is the string of the response, a value that is not a
    string being refused; a length given as an int is returned as it
    is, and a null length is refused. *)
Theorem get_model_info_defaults (slept slept' : list Q) (d : dict Json) :
  request config permits backend "GET" (model_endpoint endpoints) None slept
  = (slept', Done (inr (JDict d))) ->
  (dict_get d "vocab_size" = None -> dict_get d "parameters" = None ->
   dict_get d "architecture" = None -> dict_get d "format" = None ->
   forall name context,
     dict_get_default d "model_name" (JStr "unknown") = JStr name ->
     dict_get_default d "max_context_length" (JInt 2048) = JInt context ->
     get_model_info config permits endpoints backend int_of_str slept
     = (slept',
        Done (inr {| mi_model_name := name; mi_context_length := context;
                     mi_vocab_size := None; mi_parameters := None;
                     mi_architecture := None; mi_format := None |}))
     /\ (dict_get d "model_name" = None -> name = "unknown")
     /\ (dict_get d "max_context_length" = None -> context = 2048))
  /\ (forall mi,
        get_model_info config permits endpoints backend int_of_str slept
        = (slept', Done (inr mi)) ->
        dict_get_default d "model_name" (JStr "unknown") = JStr (mi_model_name mi)
        /\ (forall n, dict_get d "max_context_length" = Some (JInt n) ->
                      mi_context_length mi = n)
        /\ (dict_get d "max_context_length" = None -> mi_context_length mi = 2048)
        /\ dict_get d "max_context_length" <> Some JNull).
Proof.
  intros Hreq. split.
  - intros Hv Hp Ha Hf name context Hn Hc. split; [|split].
    + unfold get_model_info, op_bind, op_lift. rewrite Hreq.
      unfold model_info_of, py_get, pure_bind, dict_get_default in *.
      rewrite Hn, Hc, Hv, Hp, Ha, Hf. reflexivity.
    + intros Hnone. unfold dict_get_default in Hn. rewrite Hnone in Hn.
      now injection Hn.
    + intros Hnone. unfold dict_get_default in Hc. rewrite Hnone in Hc.
      now injection Hc.
  - intros mi. unfold get_model_info, op_bind, op_lift. rewrite Hreq.
    unfold model_info_of, py_get, pure_bind, dict_get_default.
    destruct (match dict_get d "model_name" with Some v => v | None => _ end);
      simpl; try discriminate.
    destruct (validate_int _ _ _) as [|context] eqn:Hcontext; [discriminate|].
    destruct (validate_opt _ _); [discriminate|].
    destruct (validate_opt _ _); [discriminate|].
    destruct (validate_opt _ _); [discriminate|].
    destruct (validate_opt _ _); [discriminate|].
    intros [= <-]. cbn [mi_model_name mi_context_length].
    split; [reflexivity|].
    split; [|split]; [intros n Hd|intros Hd|intros Hd];
      rewrite Hd in Hcontext; simpl in Hcontext; congruence.
Qed.

End Facts.

Definition steady_backend (response : Json) : Backend :=
  fun _ _ _ _ => Responded 200 response "".

Definition one_message : ChatCompletionParams :=
  {| messages := [{| role := "user"; content := "Hi" |}];
     chat_max_tokens := 100; chat_temperature := 7 # 10; chat_top_p := 9 # 10;
     chat_stream := false |}.

(** A reading of strings as ints that knows no string. *)
Definition no_int (s : string) : option Z := None.

Lemma chat_completion_no_choices_witness :
  chat_completion (koboldcpp default_settings) 5 default_endpoints
    (steady_backend (JDict [("choices", JList [])])) no_int 0 1 one_message []
  = ([], Done (inl (Known (ValueError "No choices returned from chat completion")))).
Proof.
  exact (chat_completion_no_choices (koboldcpp default_settings) 5 default_endpoints
           (steady_backend (JDict [("choices", JList [])])) no_int
           0 1 one_message [] []
           [("choices", JList [])] eq_refl eq_refl).
Defined.

(** A completion without usage accounting: two words, two tokens. *)
Lemma chat_completion_reads_choice_witness :
  chat_completion (koboldcpp default_settings) 5 default_endpoints
    (steady_backend
       (JDict [("choices",
                  JList [JDict [("message", JDict [("role", JStr "assistant");
                                                   ("content", JStr "Hello there")]);
                                ("finish_reason", JStr "length")]])]))
    no_int 0 2 one_message []
  = ([], Done (inr {| text := "Hello there"; tokens_generated := 2;
                      generation_time := 2 - 0;
                      tokens_per_second := rate (inject_Z 2) (2 - 0);
                      finish_reason := "length" |})).
Proof.
  exact (proj1 (chat_completion_reads_choice (koboldcpp default_settings) 5
                  default_endpoints
                  (steady_backend
                     (JDict [("choices",
                                JList [JDict [("message",
                                                 JDict [("role", JStr "assistant");
                                                        ("content", JStr "Hello there")]);
                                              ("finish_reason", JStr "length")]])]))
                  no_int
                  0 2 one_message [] []
                  [("choices",
                      JList [JDict [("message",
                                       JDict [("role", JStr "assistant");
                                              ("content", JStr "Hello there")]);
                                    ("finish_reason", JStr "length")]])]
                  [("message", JDict [("role", JStr "assistant");
                                      ("content", JStr "Hello there")]);
                   ("finish_reason", JStr "length")]
                  [("role", JStr "assistant"); ("content", JStr "Hello there")]
                  [] [] "Hello there" "length" 2
                  eq_refl eq_refl eq_refl eq_refl eq_refl eq_refl eq_refl
                  ltac:(vm_compute; reflexivity))).
Defined.

(** A backend whose model endpoint is missing: online all the same. *)
Definition no_model_backend : Backend :=
  fun _ endpoint _ _ =>
    if String.eqb endpoint "/api/v1/model"
    then Responded 404 JNull "Not Found"
    else Responded 200 (JDict [("ready", JBool true)]) "".


Example check_status_without_model :
  snd (check_status {| max_retries := 0; retry_delay := 1 |} 5 default_endpoints
         no_model_backend [])
  = Done {| online := true; model_loaded := JBool true; model_name := JNull;
            context_length := JNull; generation_active := JBool false |}.
Proof. reflexivity. Qed.

Lemma get_model_info_defaults_witness :
  get_model_info (koboldcpp default_settings) 5 default_endpoints
    (steady_backend (JDict [("model_name", JStr "llama")])) no_int []
  = ([], Done (inr {| mi_model_name := "llama"; mi_context_length := 2048;
                      mi_vocab_size := None; mi_parameters := None;
                      mi_architecture := None; mi_format := None |})).
Proof.
  exact (proj1 (proj1 (get_model_info_defaults (koboldcpp default_settings) 5
                         default_endpoints
                         (steady_backend (JDict [("model_name", JStr "llama")]))
                         no_int
                         [] [] [("model_name", JStr "llama")] eq_refl)
                      eq_refl eq_refl eq_refl eq_refl "llama" 2048 eq_refl eq_refl)).
Defined.

(** A length given as the string "4096" is read as pydantic reads it,
    and a float without fractional part is its value: neither is
    replaced by the default. *)
Example get_model_info_coerces :
  snd (get_model_info (koboldcpp default_settings) 5 default_endpoints
         (steady_backend (JDict [("max_context_length", JStr "4096")]))
         (fun s => if String.eqb s "4096" then Some 4096 else None) [])
  = Done (inr {| mi_model_name := "unknown"; mi_context_length := 4096;
                 mi_vocab_size := None; mi_parameters := None;
                 mi_architecture := None; mi_format := None |})
  /\ snd (get_model_info (koboldcpp default_settings) 5 default_endpoints
            (steady_backend (JDict [("max_context_length", JFloat (8192 # 1))]))
            no_int [])
     = Done (inr {| mi_model_name := "unknown"; mi_context_length := 8192;
                    mi_vocab_size := None; mi_parameters := None;
                    mi_architecture := None; mi_format := None |}).
Proof. split; reflexivity. Qed.

End ChatStatusFacts.

(* ================================================================= *)
(** * tools/text_generation.py: the chat tool *)

Module ChatTool.
Import ClientOps TextGenerationTools.

(** The dict that [chat_completion] returns. *)
Record ChatReport := {
  cr_type : string;
  cr_text : string;
  cr_tokens_generated : Z;
  cr_generation_time : Q;
  cr_tokens_per_second : Q;
  cr_finish_reason : string;
  cr_conversation_length : Z
}.

(** [msg[k]] for a string key, on any JSON value *)
Definition subscript (msg : Json) (k : string) : raised + Json :=
  match msg with
  | JDict d =>
      match dict_get d k with
      | Some v => inr v
      | None => inl (Known (KeyError k))
      end
  | JList _ => inl (Known (TypeError "list indices must be integers or slices, not str"))
  | JStr _ => inl (Known (TypeError "string indices must be integers, not 'str'"))
  | _ => inl (Known (TypeError ("'" ++ type_name msg ++ "' object is not subscriptable")))
  end.

(** [Literal["user", "assistant", "system"]] *)
Definition valid_role (r : string) : bool :=
  String.eqb r "user" || String.eqb r "assistant" || String.eqb r "system".

(** [ChatMessage(role=role, content=content)] *)
Definition ChatMessage_init (role content : Json) : raised + ChatMessage :=
  match role, content with
  | JStr r, JStr c =>
      if valid_role r
      then inr {| ClientOps.role := r; ClientOps.content := c |}
      else inl (Known (ValidationError
                         "role: Input should be 'user', 'assistant' or 'system'"))
  | JStr _, _ =>
      inl (Known (ValidationError "content: Input should be a valid string"))
  | _, _ =>
      inl (Known (ValidationError
                    "role: Input should be 'user', 'assistant' or 'system'"))
  end.

Section Chat.

Variable settings : Settings.

(** [self.client.chat_completion], by the rank of the call. *)
Variable client_chat_completion :
  nat -> ChatCompletionParams -> raised + GenerationResult.

(** One pass through the body of the loop, lines 305-313. *)
Definition chat_message_of (msg : Json) : raised + ChatMessage :=
  (content <- (if data_sanitization (security settings)
               then
                 raw <- subscript msg "content" ;;
                 match raw with
                 | JStr s => inr (JStr (_sanitize_prompt settings s))
                 | _ => inl (Known (no_attribute raw "replace"))
                 end
               else subscript msg "content") ;;
   role <- subscript msg "role" ;;
   ChatMessage_init role content)%pure.

(** The loop: the first message that raises ends it. *)
Fixpoint chat_messages_of (messages : list Json) : raised + list ChatMessage :=
  match messages with
  | [] => inr []
  | msg :: rest =>
      (m <- chat_message_of msg ;;
       ms <- chat_messages_of rest ;;
       inr (m :: ms))%pure
  end.

(** [chat_completion]; the state is the list of the completions asked of
    the client. *)
Definition chat_completion (messages : list Json) (max_tokens : Z)
           (temperature top_p : Q)
  : list ChatCompletionParams -> list ChatCompletionParams * (raised + ChatReport) :=
  fun log =>
    match chat_messages_of messages with
    | inl r => (log, inl r)
    | inr chat_messages =>
        let params :=
          {| ClientOps.messages := chat_messages;
             chat_max_tokens :=
               Z.min max_tokens (max_response_length (security settings));
             chat_temperature := temperature;
             chat_top_p := top_p;
             chat_stream := false |} in
        ((log ++ [params])%list,
         match client_chat_completion (List.length log) params with
         | inl r => inl r
         | inr result =>
             inr {| cr_type := "text";
                    cr_text := text result;
                    cr_tokens_generated := tokens_generated result;
                    cr_generation_time := generation_time result;
                    cr_tokens_per_second := tokens_per_second result;
                    cr_finish_reason := finish_reason result;
                    cr_conversation_length := Z.of_nat (List.length messages) |}
         end)
    end.

End Chat.

End ChatTool.

Module ChatToolFacts.
Import ClientOps TextGenerationTools ChatTool.

Section Facts.

Variable settings : Settings.
Variable client_chat_completion :
  nat -> ChatCompletionParams -> raised + GenerationResult.

(** What may be sent for one message. *)
Definition sendable (m : ChatMessage) : Prop :=
  valid_role (role m) = true
  /\ (data_sanitization (security settings) = true ->
      0 <= max_prompt_length (security settings) ->
      Z.of_nat (String.length (content m)) <= max_prompt_length (security settings)).

Lemma chat_message_sendable msg m :
  chat_message_of settings msg = inr m -> sendable m.
Proof.
  unfold chat_message_of, pure_bind, sendable.
  destruct (data_sanitization (security settings)) eqn:Hs.
  - destruct (subscript msg "content") as [|[| | | |s| |]]; try discriminate.
    destruct (subscript msg "role") as [|[| | | |r| |]]; try discriminate.
    simpl. destruct (valid_role r) eqn:Hr; [|discriminate].
    intros [= <-]. simpl. split; [exact Hr|].
    intros _ Hmax. now apply ToolFacts.sanitize_prompt_length.
  - destruct (subscript msg "content") as [|c]; [discriminate|].
    destruct (subscript msg "role") as [|[| | | |r| |]]; try discriminate;
      simpl; try (destruct c; discriminate).
    destruct c; try discriminate.
    destruct (valid_role r) eqn:Hr; [|discriminate].
    intros [= <-]. simpl. split; [exact Hr|discriminate].
Qed.

Lemma chat_messages_sendable messages : forall ms,
  chat_messages_of settings messages = inr ms ->
  List.length ms = List.length messages /\ Forall sendable ms.
Proof.
  induction messages as [|msg rest IH]; intros ms; simpl.
  - intros [= <-]. split; [reflexivity|constructor].
  - unfold pure_bind.
    destruct (chat_message_of settings msg) as [|m] eqn:Hm; [discriminate|].
    destruct (chat_messages_of settings rest) as [|ms']; [discriminate|].
    intros [= <-]. destruct (IH ms' eq_refl) as [Hlen Hall].
    split; [simpl; now rewrite Hlen|].
    constructor; [now apply chat_message_sendable with msg|exact Hall].
Qed.

(** X29.  The chat tool asks the client for at most one completion, and
    only when every message has a [content] and a [role] and the role is
    "user", "assistant" or "system"; otherwise it raises and nothing is
    asked.  What it sends has one message per input message, at most
    [max_response_length] tokens and, with sanitization enabled and a
    maximum prompt length that is not negative, no content longer than
    that maximum. *)
Theorem chat_tool_ceilings (messages : list Json) (budget : Z) (temp nucleus : Q)
        (log : list ChatCompletionParams) :
  let run := chat_completion settings client_chat_completion messages budget
               temp nucleus log in
  (fst run = log /\ exists r, snd run = inl r)
  \/ (exists params,
        fst run = (log ++ [params])%list
        /\ List.length (ClientOps.messages params) = List.length messages
        /\ Forall sendable (ClientOps.messages params)
        /\ chat_max_tokens params <= max_response_length (security settings)
        /\ match client_chat_completion (List.length log) params with
           | inl r => snd run = inl r
           | inr result =>
               exists report,
                 snd run = inr report
                 /\ cr_text report = text result
                 /\ cr_conversation_length report
                    = Z.of_nat (List.length messages)
           end).
Proof.
  cbv zeta. unfold chat_completion.
  destruct (chat_messages_of settings messages) as [r|ms] eqn:Hms.
  - left. simpl. eauto.
  - right. destruct (chat_messages_sendable messages ms Hms) as [Hlen Hall].
    eexists. cbn [fst snd]. split; [reflexivity|]. cbn [ClientOps.messages chat_max_tokens].
    split; [exact Hlen|]. split; [exact Hall|]. split; [apply Z.le_min_r|].
    destruct (client_chat_completion _ _) as [r|result]; [reflexivity|].
    eexists. split; [reflexivity|]. auto.
Qed.

(** The JSON of a message with a role and a content. *)
Definition message_json (rc : string * string) : Json :=
  JDict [("role", JStr (fst rc)); ("content", JStr (snd rc))].

Definition message_sent (rc : string * string) : ChatMessage :=
  {| role := fst rc;
     content := if data_sanitization (security settings)
                then _sanitize_prompt settings (snd rc)
                else snd rc |}.

Lemma chat_messages_of_valid conversation :
  forallb (fun rc => valid_role (fst rc)) conversation = true ->
  chat_messages_of settings (map message_json conversation)
  = inr (map message_sent conversation).
Proof.
  induction conversation as [|[r c] rest IH]; simpl; [reflexivity|].
  intros H. apply andb_true_iff in H. destruct H as [Hr Hrest].
  rewrite (IH Hrest). unfold chat_message_of, pure_bind, message_sent. simpl.
  destruct (data_sanitization (security settings)); simpl; now rewrite Hr.
Qed.

(** X30.  For a conversation whose roles are all valid, the completion
    asked of the client has the messages in their order, each with its
    role and with its content sanitized when sanitization is enabled
    and unchanged when it is not. *)
Theorem chat_tool_sends_conversation (conversation : list (string * string))
        (budget : Z) (temp nucleus : Q) (log : list ChatCompletionParams) :
  forallb (fun rc => valid_role (fst rc)) conversation = true ->
  fst (chat_completion settings client_chat_completion
         (map message_json conversation) budget temp nucleus log)
  = (log ++ [ {| messages := map message_sent conversation;
                 chat_max_tokens :=
                   Z.min budget (max_response_length (security settings));
                 chat_temperature := temp;
                 chat_top_p := nucleus;
                 chat_stream := false |} ])%list.
Proof.
  intros Hvalid. unfold chat_completion.
  now rewrite (chat_messages_of_valid conversation Hvalid).
Qed.

End Facts.

Lemma chat_tool_sends_conversation_witness :
  fst (chat_completion default_settings (fun _ _ => inl (Known TimeoutError))
         (map message_json [("system", "Be brief</s>"); ("user", "Hi")])
         100 (7 # 10) (9 # 10) [])
  = [ {| messages := [ {| role := "system"; content := "Be brief" |};
                       {| role := "user"; content := "Hi" |} ];
         chat_max_tokens := 100; chat_temperature := 7 # 10;
         chat_top_p := 9 # 10; chat_stream := false |} ].
Proof.
  exact (chat_tool_sends_conversation default_settings
           (fun _ _ => inl (Known TimeoutError))
           [("system", "Be brief</s>"); ("user", "Hi")]
           100 (7 # 10) (9 # 10) [] eq_refl).
Defined.

(** A role outside the three: refused before anything is asked. *)
Example chat_tool_refuses_role :
  chat_completion default_settings (fun _ _ => inl (Known TimeoutError))
    [message_json ("tool", "42")] 100 (7 # 10) (9 # 10) []
  = ([], inl (Known (ValidationError
                       "role: Input should be 'user', 'assistant' or 'system'"))).
Proof. reflexivity. Qed.

End ChatToolFacts.
